(** * RemoteBuildManager: a shallow embedding and its properties

    Source: packages/electron-builder-lib/src/remoteBuilder/RemoteBuildManager.ts

    The class drives one remote build over an HTTP/2 session: it uploads the
    compressed workspace, watches the job's status stream and downloads the
    artifacts of the manifest.  Everything it does happens in event handlers,
    so the embedding is an event-driven state machine: the state holds the
    fields of the class, the closure variables of [build] and the promises;
    an event is one callback invoked by the runtime; [step] runs the body of
    the handler registered for it.

    Strings are byte strings ([string] of 8-bit [ascii]): a JavaScript string
    is represented by its UTF-8 encoding, so a non-ASCII character is a run of
    bytes above 127. *)

From Stdlib Require Import String Ascii List Bool Arith ZArith Lia DecimalString FunInd
  Permutation.
From Stdlib Require DecimalPos.
Import ListNotations.
Open Scope string_scope.
Open Scope nat_scope.
Set Warnings "-register-all".

(** ** Strings *)

Definition code (c : ascii) : nat := nat_of_ascii c.

Fixpoint allChars (p : ascii -> bool) (s : string) : bool :=
  match s with
  | EmptyString => true
  | String c r => p c && allChars p r
  end.

Fixpoint filterChars (p : ascii -> bool) (s : string) : string :=
  match s with
  | EmptyString => EmptyString
  | String c r => if p c then String c (filterChars p r) else filterChars p r
  end.

(** [String.prototype.startsWith] *)
Definition startsWith (s pre : string) : bool := String.prefix pre s.

(** [String.prototype.endsWith] *)
Definition endsWith (s suf : string) : bool :=
  let n := String.length s in
  let m := String.length suf in
  (m <=? n) && String.eqb (substring (n - m) m s) suf.

(** [String.prototype.includes] *)
Fixpoint includes (needle s : string) : bool :=
  String.prefix needle s
  || match s with
     | EmptyString => false
     | String _ r => includes needle r
     end.

(** The double quote, written by its code. *)
Definition dq : ascii := "034"%char.

(** Assignment of a property: a key that is already there keeps its place
    and takes the new value, a new key goes to the end. *)
Fixpoint setKey {A : Type} (key : string) (v : A) (l : list (string * A)) : list (string * A) :=
  match l with
  | [] => [(key, v)]
  | (k, w) :: r => if String.eqb k key then (k, v) :: r else (k, w) :: setKey key v r
  end.

Fixpoint getKey {A : Type} (key : string) (l : list (string * A)) : option A :=
  match l with
  | [] => None
  | (k, v) :: r => if String.eqb k key then Some v else getKey key r
  end.

(** ** Compression level (lines 316-322) *)

(** [env] is [process.env.ELECTRON_BUILD_SERVICE_ZSTD_COMPRESSION]:
    [None] when the variable is not set. *)
Definition getZstdCompressionLevel (env : option string) (endpoint : string) : string :=
  match env with
  | Some result => result
  | None =>
      if startsWith endpoint "https://127.0.0.1:"
         || startsWith endpoint "https://localhost:"
         || startsWith endpoint "[::1]:"
      then "3" else "19"
  end.

(** ** The download path (line 210): [new URL(`f:/${id}/${file}`).pathname]

    [URL] is the runtime's WHATWG URL parser.  The model follows the
    standard's basic URL parser along the states an input that begins with
    [f:/] goes through: scheme [f] is not special, the [/] after the colon
    leads to the path-or-authority state, and from there to the path state
    unless a second [/] follows. *)
Module Url.

Definition isC0ControlOrSpace (c : ascii) : bool := code c <=? 32.

Definition isTabOrNewline (c : ascii) : bool :=
  (code c =? 9) || (code c =? 10) || (code c =? 13).

(** The path percent-encode set: C0 controls, space, everything above [~]
    (so every byte of a non-ASCII character), the double quote and
    [#  <  >  ?  ^  `  {  }]. *)
Definition inPathPercentEncodeSet (c : ascii) : bool :=
  let n := code c in
  (n <=? 32) || (126 <? n)
  || (n =? 34) || (n =? 35) || (n =? 60) || (n =? 62)
  || (n =? 63) || (n =? 94) || (n =? 96) || (n =? 123) || (n =? 125).

Definition hexDigit (n : nat) : ascii :=
  if n <? 10 then ascii_of_nat (48 + n) else ascii_of_nat (55 + n).

Definition hexValue (c : ascii) : option nat :=
  let n := code c in
  if (48 <=? n) && (n <=? 57) then Some (n - 48)
  else if (65 <=? n) && (n <=? 70) then Some (n - 55)
  else if (97 <=? n) && (n <=? 102) then Some (n - 87)
  else None.

Definition percentEncodeByte (c : ascii) : string :=
  String "%" (String (hexDigit (code c / 16)) (String (hexDigit (code c mod 16)) EmptyString)).

(** UTF-8 percent-encode one byte with the path percent-encode set. *)
Definition encodeChar (c : ascii) : string :=
  if inPathPercentEncodeSet c then percentEncodeByte c else String c EmptyString.

Fixpoint encodeString (s : string) : string :=
  match s with
  | EmptyString => EmptyString
  | String c r => encodeChar c ++ encodeString r
  end.

(** Percent-decode: every [%XY] with two hex digits becomes one byte,
    everything else is kept. *)
Fixpoint percentDecode (s : string) : string :=
  match s with
  | EmptyString => EmptyString
  | String c rest =>
      if Ascii.eqb c "%" then
        match rest with
        | String h1 (String h2 rest') =>
            match hexValue h1, hexValue h2 with
            | Some a, Some b => String (ascii_of_nat (16 * a + b)) (percentDecode rest')
            | _, _ => String c (percentDecode rest)
            end
        | _ => String c (percentDecode rest)
        end
      else String c (percentDecode rest)
  end.

(** Leading and trailing C0 controls and spaces are removed from the input. *)
Fixpoint trimStart (s : string) : string :=
  match s with
  | EmptyString => EmptyString
  | String c r => if isC0ControlOrSpace c then trimStart r else s
  end.

Fixpoint trimEnd (s : string) : string :=
  match s with
  | EmptyString => EmptyString
  | String c r =>
      match trimEnd r with
      | EmptyString => if isC0ControlOrSpace c then EmptyString else String c EmptyString
      | r' => String c r'
      end
  end.

(** Then every ASCII tab and newline is removed. *)
Definition removeTabNewline (s : string) : string :=
  filterChars (fun c => negb (isTabOrNewline c)) s.

Definition lowerChar (c : ascii) : ascii :=
  let n := code c in
  if (65 <=? n) && (n <=? 90) then ascii_of_nat (n + 32) else c.

Fixpoint lower (s : string) : string :=
  match s with
  | EmptyString => EmptyString
  | String c r => String (lowerChar c) (lower r)
  end.

Definition isSingleDot (buffer : string) : bool :=
  let b := lower buffer in
  String.eqb b "." || String.eqb b "%2e".

Definition isDoubleDot (buffer : string) : bool :=
  let b := lower buffer in
  String.eqb b ".." || String.eqb b ".%2e" || String.eqb b "%2e." || String.eqb b "%2e%2e".

(** Shorten a path (the scheme is not [file]): drop the last segment. *)
Definition shorten (path : list string) : list string := removelast path.

(** What the path state does with [buffer] when a segment ends;
    [slash] tells whether the segment was ended by a [/]. *)
Definition endSegment (buffer : string) (path : list string) (slash : bool) : list string :=
  if isDoubleDot buffer then
    if slash then shorten path else (shorten path ++ [EmptyString])%list
  else if isSingleDot buffer then
    if slash then path else (path ++ [EmptyString])%list
  else (path ++ [buffer])%list.

(** The path state.  [?] and [#] end the path (query and fragment are not
    part of the pathname). *)
Fixpoint pathState (input buffer : string) (path : list string) : list string :=
  match input with
  | EmptyString => endSegment buffer path false
  | String c rest =>
      if Ascii.eqb c "?" || Ascii.eqb c "#" then endSegment buffer path false
      else if Ascii.eqb c "/" then pathState rest EmptyString (endSegment buffer path true)
      else pathState rest (buffer ++ encodeChar c) path
  end.

Fixpoint serializePath (path : list string) : string :=
  match path with
  | [] => EmptyString
  | seg :: r => String "/" seg ++ serializePath r
  end.

(** [new URL(input).pathname] for the inputs this program builds.
    [None]: the input does not begin with [f:/], or a second [/] follows at
    once (the job id is empty or begins with [/]), which sends the parser to
    the authority state; that state is not modelled. *)
Definition pathname (input : string) : option string :=
  match removeTabNewline (trimEnd (trimStart input)) with
  | String "f" (String ":" (String "/" rest)) =>
      match rest with
      | String c _ =>
          if Ascii.eqb c "/" then None
          else Some (serializePath (pathState rest EmptyString []))
      | EmptyString => Some (serializePath (pathState rest EmptyString []))
      end
  | _ => None
  end.

(** A character that the parser takes as part of a path segment and that
    percent-decoding gives back: none of [/ % ? #], tab, line feed, carriage
    return. *)
Definition plainChar (c : ascii) : bool :=
  let n := code c in
  negb ((n =? 47) || (n =? 37) || (n =? 63) || (n =? 35) || isTabOrNewline c).

(** A path segment of plain characters that is not a dot segment. *)
Definition plainSegment (x : string) : bool :=
  allChars plainChar x && negb (String.eqb x ".") && negb (String.eqb x "..").

(** The string does not end in a C0 control or a space. *)
Fixpoint noTrailingBlank (s : string) : bool :=
  match s with
  | EmptyString => true
  | String c EmptyString => negb (isC0ControlOrSpace c)
  | String _ r => noTrailingBlank r
  end.

End Url.

(** The [:path] header of the download request (line 210). *)
Definition downloadPath (id file : string) : option string :=
  match Url.pathname ("f:/" ++ id ++ "/" ++ file) with
  | Some p => Some ("/v1/download" ++ p)
  | None => None
  end.

(** ** JSON: the runtime's [JSON.parse] and [JSON.stringify(value, null, 2)]

    The upload response body is parsed and, for a bad request, serialized
    again with an indentation of two spaces (lines 121 and 127).  The model
    covers the JSON texts whose numbers are integer literals below 2^53 and
    whose strings have no [\u] escape; a text outside that fragment is
    [Unmodelled], never given a wrong value. *)
Module Json.

Inductive json : Type :=
| JNull
| JBool (b : bool)
| JNumber (n : Z)
| JString (s : string)
| JArray (items : list json)
| JObject (members : list (string * json)).

Inductive parsed (A : Type) : Type :=
| Parsed (v : A) (rest : string)
| SyntaxError
| Unmodelled.
Arguments Parsed {A} v rest.
Arguments SyntaxError {A}.
Arguments Unmodelled {A}.

Definition backslash : ascii := "092"%char.
Definition newline : string := String "010"%char EmptyString.

Definition isWs (c : ascii) : bool :=
  let n := code c in (n =? 32) || (n =? 9) || (n =? 10) || (n =? 13).

Fixpoint skipWs (s : string) : string :=
  match s with
  | String c r => if isWs c then skipWs r else s
  | EmptyString => EmptyString
  end.

Definition isDigit (c : ascii) : bool := (48 <=? code c) && (code c <=? 57).

(** The character an escape letter stands for. *)
Definition unescape (c : ascii) : parsed ascii :=
  let n := code c in
  if (n =? 34) || (n =? 92) || (n =? 47) then Parsed c EmptyString
  else if n =? 98 then Parsed "008"%char EmptyString
  else if n =? 102 then Parsed "012"%char EmptyString
  else if n =? 110 then Parsed "010"%char EmptyString
  else if n =? 114 then Parsed "013"%char EmptyString
  else if n =? 116 then Parsed "009"%char EmptyString
  else if n =? 117 then Unmodelled
  else SyntaxError.

(** The characters of a string literal, after its opening quote. *)
Fixpoint parseChars (s : string) : parsed string :=
  match s with
  | EmptyString => SyntaxError
  | String c r =>
      if Ascii.eqb c dq then Parsed EmptyString r
      else if Ascii.eqb c backslash then
        match r with
        | String e r' =>
            match unescape e with
            | Parsed c' _ =>
                match parseChars r' with
                | Parsed str rest => Parsed (String c' str) rest
                | other => other
                end
            | SyntaxError => SyntaxError
            | Unmodelled => Unmodelled
            end
        | EmptyString => SyntaxError
        end
      else if code c <? 32 then SyntaxError
      else
        match parseChars r with
        | Parsed str rest => Parsed (String c str) rest
        | other => other
        end
  end.

Fixpoint parseDigits (s : string) (acc : Z) : Z * string :=
  match s with
  | String c r =>
      if isDigit c then parseDigits r (10 * acc + Z.of_nat (code c - 48))%Z
      else (acc, s)
  | EmptyString => (acc, s)
  end.

Definition startsFraction (s : string) : bool :=
  match s with
  | String c _ => (code c =? 46) || (code c =? 101) || (code c =? 69)
  | EmptyString => false
  end.

(** An integer literal: no leading zero, no fraction, no exponent. *)
Definition parseInt (s : string) : parsed Z :=
  match s with
  | String c r =>
      if code c =? 48 then
        match r with
        | String d _ =>
            if isDigit d then SyntaxError
            else if startsFraction r then Unmodelled
            else Parsed 0%Z r
        | EmptyString => Parsed 0%Z r
        end
      else if isDigit c then
        let '(n, rest) := parseDigits s 0%Z in
        if startsFraction rest then Unmodelled
        else if (n <? 2 ^ 53)%Z then Parsed n rest else Unmodelled
      else SyntaxError
  | EmptyString => SyntaxError
  end.

(** Keys made of digits are enumerated first by the runtime, not in the
    order of the text: such objects are left out of the model. *)
Definition isIndexKey (key : string) : bool :=
  match key with
  | EmptyString => false
  | _ => allChars isDigit key
  end.

Definition literal (word : string) (v : json) (s : string) : parsed json :=
  if startsWith s word then Parsed v (substring (String.length word) (String.length s) s)
  else SyntaxError.

Fixpoint parseValue (fuel : nat) (s : string) {struct fuel} : parsed json :=
  match fuel with
  | 0 => Unmodelled
  | S f =>
      match skipWs s with
      | EmptyString => SyntaxError
      | String c r =>
          let n := code c in
          if n =? 123 then                               (* { *)
            match skipWs r with
            | String c' r' =>
                if code c' =? 125 then Parsed (JObject []) r' else parseMembers f (skipWs r) []
            | EmptyString => SyntaxError
            end
          else if n =? 91 then                           (* [ *)
            match skipWs r with
            | String c' r' =>
                if code c' =? 93 then Parsed (JArray []) r' else parseItems f (skipWs r) []
            | EmptyString => SyntaxError
            end
          else if n =? 34 then
            match parseChars r with
            | Parsed str rest => Parsed (JString str) rest
            | SyntaxError => SyntaxError
            | Unmodelled => Unmodelled
            end
          else if n =? 45 then                           (* - *)
            match parseInt r with
            | Parsed z rest => Parsed (JNumber (- z)) rest
            | SyntaxError => SyntaxError
            | Unmodelled => Unmodelled
            end
          else if isDigit c then
            match parseInt (String c r) with
            | Parsed z rest => Parsed (JNumber z) rest
            | SyntaxError => SyntaxError
            | Unmodelled => Unmodelled
            end
          else if n =? 116 then literal "true" (JBool true) (String c r)
          else if n =? 102 then literal "false" (JBool false) (String c r)
          else if n =? 110 then literal "null" JNull (String c r)
          else SyntaxError
      end
  end

with parseItems (fuel : nat) (s : string) (acc : list json) {struct fuel} : parsed json :=
  match fuel with
  | 0 => Unmodelled
  | S f =>
      match parseValue f s with
      | Parsed v rest =>
          match skipWs rest with
          | String c r =>
              if code c =? 44 then parseItems f r (acc ++ [v])%list
              else if code c =? 93 then Parsed (JArray (acc ++ [v])%list) r
              else SyntaxError
          | EmptyString => SyntaxError
          end
      | other => other
      end
  end

with parseMembers (fuel : nat) (s : string) (acc : list (string * json)) {struct fuel}
  : parsed json :=
  match fuel with
  | 0 => Unmodelled
  | S f =>
      match skipWs s with
      | String q r =>
          if code q =? 34 then
            match parseChars r with
            | Parsed key rest =>
                match skipWs rest with
                | String c r1 =>
                    if code c =? 58 then
                      match parseValue f r1 with
                      | Parsed v rest' =>
                          if isIndexKey key then Unmodelled
                          else
                            match skipWs rest' with
                            | String c' r2 =>
                                if code c' =? 44 then parseMembers f r2 (setKey key v acc)
                                else if code c' =? 125 then Parsed (JObject (setKey key v acc)) r2
                                else SyntaxError
                            | EmptyString => SyntaxError
                            end
                      | other => other
                      end
                    else SyntaxError
                | EmptyString => SyntaxError
                end
            | SyntaxError => SyntaxError
            | Unmodelled => Unmodelled
            end
          else SyntaxError
      | EmptyString => SyntaxError
      end
  end.

(** [JSON.parse(text)]: one value, then nothing but white space. *)
Definition parse (text : string) : parsed json :=
  match parseValue (2 * String.length text + 2) text with
  | Parsed v rest =>
      match skipWs rest with
      | EmptyString => Parsed v EmptyString
      | _ => SyntaxError
      end
  | other => other
  end.

(** *** Serialization *)

Definition decimal (n : Z) : string := NilZero.string_of_int (Z.to_int n).

Definition lowerHex (n : nat) : ascii :=
  if n <? 10 then ascii_of_nat (48 + n) else ascii_of_nat (87 + n).

(** QuoteJSONString, one character. *)
Definition quoteChar (c : ascii) : string :=
  let n := code c in
  let esc (x : ascii) := String backslash (String x EmptyString) in
  if n =? 34 then esc dq
  else if n =? 92 then esc backslash
  else if n =? 8 then esc "b"%char
  else if n =? 12 then esc "f"%char
  else if n =? 10 then esc "n"%char
  else if n =? 13 then esc "r"%char
  else if n =? 9 then esc "t"%char
  else if n <? 32 then
    String backslash
      (String "u" (String "0" (String "0"
         (String (lowerHex (n / 16)) (String (lowerHex (n mod 16)) EmptyString)))))
  else String c EmptyString.

Fixpoint quoteChars (s : string) : string :=
  match s with
  | EmptyString => EmptyString
  | String c r => quoteChar c ++ quoteChars r
  end.

Definition quote (s : string) : string :=
  String dq (quoteChars s ++ String dq EmptyString).

(** SerializeJSONProperty with gap [gap]; [indent] is the current
    indentation.  A value that came out of [parse] has no [undefined]
    member, so nothing is skipped. *)
Fixpoint serialize (gap indent : string) (v : json) {struct v} : string :=
  match v with
  | JNull => "null"
  | JBool true => "true"
  | JBool false => "false"
  | JNumber n => decimal n
  | JString s => quote s
  | JArray [] => "[]"
  | JArray (x :: r) =>
      let stepback := indent in
      let indent := indent ++ gap in
      "[" ++ newline ++ indent ++ serialize gap indent x
      ++ (fix rest (l : list json) : string :=
            match l with
            | [] => EmptyString
            | y :: l' => "," ++ newline ++ indent ++ serialize gap indent y ++ rest l'
            end) r
      ++ newline ++ stepback ++ "]"
  | JObject [] => "{}"
  | JObject ((k, x) :: r) =>
      let stepback := indent in
      let indent := indent ++ gap in
      "{" ++ newline ++ indent ++ quote k ++ ": " ++ serialize gap indent x
      ++ (fix rest (l : list (string * json)) : string :=
            match l with
            | [] => EmptyString
            | (k', y) :: l' =>
                "," ++ newline ++ indent ++ quote k' ++ ": " ++ serialize gap indent y ++ rest l'
            end) r
      ++ newline ++ stepback ++ "}"
  end.

(** [JSON.stringify(value, null, 2)] *)
Definition stringify2 (v : json) : string := serialize "  " EmptyString v.

(** Conversion to a string, as a template literal does it. *)
Fixpoint toString (v : json) : string :=
  match v with
  | JNull => "null"
  | JBool true => "true"
  | JBool false => "false"
  | JNumber n => decimal n
  | JString s => s
  | JObject _ => "[object Object]"
  | JArray [] => EmptyString
  | JArray (x :: r) =>
      let item (y : json) := match y with JNull => EmptyString | _ => toString y end in
      item x
      ++ (fix rest (l : list json) : string :=
            match l with
            | [] => EmptyString
            | y :: l' => "," ++ item y ++ rest l'
            end) r
  end.

End Json.

(** ** Data of the build manager *)

Import Json.

Definition HTTP_STATUS_OK : nat := 200.
Definition HTTP_STATUS_BAD_REQUEST : nat := 400.

(** Error objects: the two the class creates itself, and those the runtime
    creates (given with an [error] event or a rejected promise, or thrown
    by a built-in). *)
Inductive JsError : Type :=
| Error (message : string)
| HttpError (status : nat) (description : option string)
| RuntimeError (cause : string).

(** [ArtifactInfo] (lines 344-349). *)
Record ArtifactInfo : Type := {
  file : string;
  target : option string;
  isWriteUpdateInfo : option bool;
  updateInfo : option json
}.

(** [FakeTarget] (lines 334-342). *)
Record FakeTarget : Type := {
  name : string;
  targetOutDir : string;
  options : option json
}.

(** The object built by [artifactInfoToArtifactCreatedEvent]: the fields of
    the artifact, [file] and [target] replaced; [fileContent] is assigned
    later, for a metadata file only.  The [packager] field is the same
    object in every event and is left out. *)
Record ArtifactCreated : Type := {
  createdFile : string;
  createdTarget : option FakeTarget;
  fileContent : option string;
  createdIsWriteUpdateInfo : option bool;
  createdUpdateInfo : option json
}.

(** A decoded event of the status stream, [RemoteBuilderResponse] with the
    [state] of progress events.  For [files] the three cases the handler
    tells apart: no such key, [null], a list. *)
Inductive FilesField : Type :=
| FilesAbsent
| FilesNull
| FilesList (artifacts : list ArtifactInfo).

Record StatusData : Type := {
  data_error : option string;
  data_state : option string;
  data_files : FilesField
}.

(** A promise of [RemoteBuilderResponse | null]: it settles once, later
    calls of its [resolve] and [reject] change nothing. *)
Inductive Promise : Type :=
| Pending
| Fulfilled (result : option StatusData)
| Rejected (reason : JsError).

Definition resolveP (p : Promise) (v : option StatusData) : Promise :=
  match p with Pending => Fulfilled v | _ => p end.

Definition rejectP (p : Promise) (e : JsError) : Promise :=
  match p with Pending => Rejected e | _ => p end.

Definition settled (p : Promise) : bool :=
  match p with Pending => false | _ => true end.

(** A stream opened with [client.request]: the upload with its merged
    headers, or a GET with its path ([None]: the path is outside the model
    of [URL]). *)
Inductive Request : Type :=
| Post (headers : list (string * string))
| Get (path : option string).

Inductive UploadStream : Type :=
| UpNotOpened
| UpAwaitingResponse
| UpReceiving (status : nat) (data : string)   (* [data] and [end] listeners registered *)
| UpUnread                                     (* another status: rejected, body not read *)
| UpEnded.

Inductive Pipeline : Type :=
| PipeNotStarted
| PipeAwaitingInfoFile
| PipeRunning
| PipeInfoFileFailed.

Inductive StatusStream : Type :=
| StNotOpened
| StAwaitingResponse
| StWatching
| StUnread
| StDestroyed.

Inductive DownloadState : Type :=
| DlAwaitingResponse
| DlUnread
| DlBuffering (buffers : list string)   (* metadata file: [data] and [end] listeners *)
| DlWritingFile (content : string)      (* [outputFile] called, not finished *)
| DlEnsuringDir                         (* [ensureDir] called, not finished *)
| DlPiping (written : string)           (* piped into the file stream *)
| DlFailed
| DlDone.

Record Download : Type := {
  artifact : ArtifactInfo;
  localFile : string;
  artifactCreatedEvent : ArtifactCreated;
  dlState : DownloadState
}.

(** What the constructor receives and what the class reads from its
    collaborators and the environment. *)
Record Config : Type := {
  buildServiceEndpoint : string;
  unpackedDirectory : string;
  outDir : string;
  buildResourcesDir : string;            (* [projectInfoManager.packager.buildResourcesDir] *)
  projectDir : string;                   (* [projectInfoManager.packager.projectDir] *)
  packagerConfig : string -> option json; (* [packager.config[target]] *)
  path7za : string;
  zstdEnv : option string                (* [process.env.ELECTRON_BUILD_SERVICE_ZSTD_COMPRESSION] *)
}.

Record Manager : Type := MkManager {
  files : option (list ArtifactInfo);  (* [this.files] *)
  finishedStreamCount : nat;  (* [this.finishedStreamCount] *)
  handled : bool;  (* [handled], the variable of [build] *)
  job : Promise;  (* the promise created by [build] *)
  finallyRan : bool;  (* the [finally] callback of [build] has run *)
  destroyCalls : nat;  (* calls of [client.destroy()] *)
  closeArmed : bool;  (* the [once] listener for [close] is still registered *)
  timeoutArmed : bool;  (* the [once] listener for [timeout] is still registered *)
  requests : list Request;  (* streams opened with [client.request], oldest first *)
  uploadStream : UploadStream;  (* the upload stream *)
  pipeline : Pipeline;  (* the compression pipeline *)
  spawned : list (string * list string);  (* processes started with [spawn] *)
  timer : option string;  (* the pending [setTimeout] of [upload], with the id it captured *)
  jobId : option string;  (* the [id] of [listenEvents], once it is called *)
  watch : Promise;  (* the promise created by [listenEvents] *)
  chained : bool;  (* the [then]/[catch] callbacks on that promise have run *)
  resolveCalls : nat;  (* calls of the [resolve] function of [listenEvents] *)
  statusStream : StatusStream;  (* the status stream *)
  downloads : list Download;  (* one entry per call of [downloadFile] *)
  logs : list string;  (* messages given to [log] and [warn] *)
  dispatched : list ArtifactCreated;  (* events given to [dispatchArtifactCreated] *)
  disk : list (string * string);  (* local files completely written: path and content *)
  uncaught : list JsError  (* exceptions no handler of the class catches *)
}.

Definition set_files (v : option (list ArtifactInfo)) (s : Manager) : Manager :=
  MkManager v (finishedStreamCount s) (handled s) (job s) (finallyRan s) (destroyCalls s) (closeArmed s) (timeoutArmed s) (requests s) (uploadStream s) (pipeline s) (spawned s) (timer s) (jobId s) (watch s) (chained s) (resolveCalls s) (statusStream s) (downloads s) (logs s) (dispatched s) (disk s) (uncaught s).

Definition set_finishedStreamCount (v : nat) (s : Manager) : Manager :=
  MkManager (files s) v (handled s) (job s) (finallyRan s) (destroyCalls s) (closeArmed s) (timeoutArmed s) (requests s) (uploadStream s) (pipeline s) (spawned s) (timer s) (jobId s) (watch s) (chained s) (resolveCalls s) (statusStream s) (downloads s) (logs s) (dispatched s) (disk s) (uncaught s).

Definition set_handled (v : bool) (s : Manager) : Manager :=
  MkManager (files s) (finishedStreamCount s) v (job s) (finallyRan s) (destroyCalls s) (closeArmed s) (timeoutArmed s) (requests s) (uploadStream s) (pipeline s) (spawned s) (timer s) (jobId s) (watch s) (chained s) (resolveCalls s) (statusStream s) (downloads s) (logs s) (dispatched s) (disk s) (uncaught s).

Definition set_job (v : Promise) (s : Manager) : Manager :=
  MkManager (files s) (finishedStreamCount s) (handled s) v (finallyRan s) (destroyCalls s) (closeArmed s) (timeoutArmed s) (requests s) (uploadStream s) (pipeline s) (spawned s) (timer s) (jobId s) (watch s) (chained s) (resolveCalls s) (statusStream s) (downloads s) (logs s) (dispatched s) (disk s) (uncaught s).

Definition set_finallyRan (v : bool) (s : Manager) : Manager :=
  MkManager (files s) (finishedStreamCount s) (handled s) (job s) v (destroyCalls s) (closeArmed s) (timeoutArmed s) (requests s) (uploadStream s) (pipeline s) (spawned s) (timer s) (jobId s) (watch s) (chained s) (resolveCalls s) (statusStream s) (downloads s) (logs s) (dispatched s) (disk s) (uncaught s).

Definition set_destroyCalls (v : nat) (s : Manager) : Manager :=
  MkManager (files s) (finishedStreamCount s) (handled s) (job s) (finallyRan s) v (closeArmed s) (timeoutArmed s) (requests s) (uploadStream s) (pipeline s) (spawned s) (timer s) (jobId s) (watch s) (chained s) (resolveCalls s) (statusStream s) (downloads s) (logs s) (dispatched s) (disk s) (uncaught s).

Definition set_closeArmed (v : bool) (s : Manager) : Manager :=
  MkManager (files s) (finishedStreamCount s) (handled s) (job s) (finallyRan s) (destroyCalls s) v (timeoutArmed s) (requests s) (uploadStream s) (pipeline s) (spawned s) (timer s) (jobId s) (watch s) (chained s) (resolveCalls s) (statusStream s) (downloads s) (logs s) (dispatched s) (disk s) (uncaught s).

Definition set_timeoutArmed (v : bool) (s : Manager) : Manager :=
  MkManager (files s) (finishedStreamCount s) (handled s) (job s) (finallyRan s) (destroyCalls s) (closeArmed s) v (requests s) (uploadStream s) (pipeline s) (spawned s) (timer s) (jobId s) (watch s) (chained s) (resolveCalls s) (statusStream s) (downloads s) (logs s) (dispatched s) (disk s) (uncaught s).

Definition set_requests (v : list Request) (s : Manager) : Manager :=
  MkManager (files s) (finishedStreamCount s) (handled s) (job s) (finallyRan s) (destroyCalls s) (closeArmed s) (timeoutArmed s) v (uploadStream s) (pipeline s) (spawned s) (timer s) (jobId s) (watch s) (chained s) (resolveCalls s) (statusStream s) (downloads s) (logs s) (dispatched s) (disk s) (uncaught s).

Definition set_uploadStream (v : UploadStream) (s : Manager) : Manager :=
  MkManager (files s) (finishedStreamCount s) (handled s) (job s) (finallyRan s) (destroyCalls s) (closeArmed s) (timeoutArmed s) (requests s) v (pipeline s) (spawned s) (timer s) (jobId s) (watch s) (chained s) (resolveCalls s) (statusStream s) (downloads s) (logs s) (dispatched s) (disk s) (uncaught s).

Definition set_pipeline (v : Pipeline) (s : Manager) : Manager :=
  MkManager (files s) (finishedStreamCount s) (handled s) (job s) (finallyRan s) (destroyCalls s) (closeArmed s) (timeoutArmed s) (requests s) (uploadStream s) v (spawned s) (timer s) (jobId s) (watch s) (chained s) (resolveCalls s) (statusStream s) (downloads s) (logs s) (dispatched s) (disk s) (uncaught s).

Definition set_spawned (v : list (string * list string)) (s : Manager) : Manager :=
  MkManager (files s) (finishedStreamCount s) (handled s) (job s) (finallyRan s) (destroyCalls s) (closeArmed s) (timeoutArmed s) (requests s) (uploadStream s) (pipeline s) v (timer s) (jobId s) (watch s) (chained s) (resolveCalls s) (statusStream s) (downloads s) (logs s) (dispatched s) (disk s) (uncaught s).

Definition set_timer (v : option string) (s : Manager) : Manager :=
  MkManager (files s) (finishedStreamCount s) (handled s) (job s) (finallyRan s) (destroyCalls s) (closeArmed s) (timeoutArmed s) (requests s) (uploadStream s) (pipeline s) (spawned s) v (jobId s) (watch s) (chained s) (resolveCalls s) (statusStream s) (downloads s) (logs s) (dispatched s) (disk s) (uncaught s).

Definition set_jobId (v : option string) (s : Manager) : Manager :=
  MkManager (files s) (finishedStreamCount s) (handled s) (job s) (finallyRan s) (destroyCalls s) (closeArmed s) (timeoutArmed s) (requests s) (uploadStream s) (pipeline s) (spawned s) (timer s) v (watch s) (chained s) (resolveCalls s) (statusStream s) (downloads s) (logs s) (dispatched s) (disk s) (uncaught s).

Definition set_watch (v : Promise) (s : Manager) : Manager :=
  MkManager (files s) (finishedStreamCount s) (handled s) (job s) (finallyRan s) (destroyCalls s) (closeArmed s) (timeoutArmed s) (requests s) (uploadStream s) (pipeline s) (spawned s) (timer s) (jobId s) v (chained s) (resolveCalls s) (statusStream s) (downloads s) (logs s) (dispatched s) (disk s) (uncaught s).

Definition set_chained (v : bool) (s : Manager) : Manager :=
  MkManager (files s) (finishedStreamCount s) (handled s) (job s) (finallyRan s) (destroyCalls s) (closeArmed s) (timeoutArmed s) (requests s) (uploadStream s) (pipeline s) (spawned s) (timer s) (jobId s) (watch s) v (resolveCalls s) (statusStream s) (downloads s) (logs s) (dispatched s) (disk s) (uncaught s).

Definition set_resolveCalls (v : nat) (s : Manager) : Manager :=
  MkManager (files s) (finishedStreamCount s) (handled s) (job s) (finallyRan s) (destroyCalls s) (closeArmed s) (timeoutArmed s) (requests s) (uploadStream s) (pipeline s) (spawned s) (timer s) (jobId s) (watch s) (chained s) v (statusStream s) (downloads s) (logs s) (dispatched s) (disk s) (uncaught s).

Definition set_statusStream (v : StatusStream) (s : Manager) : Manager :=
  MkManager (files s) (finishedStreamCount s) (handled s) (job s) (finallyRan s) (destroyCalls s) (closeArmed s) (timeoutArmed s) (requests s) (uploadStream s) (pipeline s) (spawned s) (timer s) (jobId s) (watch s) (chained s) (resolveCalls s) v (downloads s) (logs s) (dispatched s) (disk s) (uncaught s).

Definition set_downloads (v : list Download) (s : Manager) : Manager :=
  MkManager (files s) (finishedStreamCount s) (handled s) (job s) (finallyRan s) (destroyCalls s) (closeArmed s) (timeoutArmed s) (requests s) (uploadStream s) (pipeline s) (spawned s) (timer s) (jobId s) (watch s) (chained s) (resolveCalls s) (statusStream s) v (logs s) (dispatched s) (disk s) (uncaught s).

Definition set_logs (v : list string) (s : Manager) : Manager :=
  MkManager (files s) (finishedStreamCount s) (handled s) (job s) (finallyRan s) (destroyCalls s) (closeArmed s) (timeoutArmed s) (requests s) (uploadStream s) (pipeline s) (spawned s) (timer s) (jobId s) (watch s) (chained s) (resolveCalls s) (statusStream s) (downloads s) v (dispatched s) (disk s) (uncaught s).

Definition set_dispatched (v : list ArtifactCreated) (s : Manager) : Manager :=
  MkManager (files s) (finishedStreamCount s) (handled s) (job s) (finallyRan s) (destroyCalls s) (closeArmed s) (timeoutArmed s) (requests s) (uploadStream s) (pipeline s) (spawned s) (timer s) (jobId s) (watch s) (chained s) (resolveCalls s) (statusStream s) (downloads s) (logs s) v (disk s) (uncaught s).

Definition set_disk (v : list (string * string)) (s : Manager) : Manager :=
  MkManager (files s) (finishedStreamCount s) (handled s) (job s) (finallyRan s) (destroyCalls s) (closeArmed s) (timeoutArmed s) (requests s) (uploadStream s) (pipeline s) (spawned s) (timer s) (jobId s) (watch s) (chained s) (resolveCalls s) (statusStream s) (downloads s) (logs s) (dispatched s) v (uncaught s).

Definition set_uncaught (v : list JsError) (s : Manager) : Manager :=
  MkManager (files s) (finishedStreamCount s) (handled s) (job s) (finallyRan s) (destroyCalls s) (closeArmed s) (timeoutArmed s) (requests s) (uploadStream s) (pipeline s) (spawned s) (timer s) (jobId s) (watch s) (chained s) (resolveCalls s) (statusStream s) (downloads s) (logs s) (dispatched s) (disk s) v.

(** The state after the constructor: the session is connected, nothing is
    opened on it. *)
Definition created : Manager :=
  MkManager None 0 false Pending false 0 false false [] UpNotOpened PipeNotStarted []
            None None Pending false 0 StNotOpened [] [] [] [] [].

Definition isDone (d : Download) : bool :=
  match dlState d with DlDone => true | _ => false end.

Definition doneCount (l : list Download) : nat := List.length (filter isDone l).

Fixpoint replaceAt {A : Type} (i : nat) (x : A) (l : list A) : list A :=
  match l, i with
  | [], _ => []
  | _ :: r, 0 => x :: r
  | y :: r, S j => y :: replaceAt j x r
  end.

(** [Buffer.concat] *)
Fixpoint bufferConcat (buffers : list string) : string :=
  match buffers with
  | [] => EmptyString
  | b :: r => b ++ bufferConcat r
  end.

(** [path.join(outDir, file)] as it is on a POSIX platform for an [outDir]
    and a [file] that need no normalization (no [.] or [..] segment, no
    doubled or trailing [/]).  The statements use it as the name of the
    local file only. *)
Definition path_join (dir f : string) : string := dir ++ "/" ++ f.

(** ** The handlers *)

Section Handlers.

Variable cfg : Config.

Definition log (message : string) (s : Manager) : Manager :=
  set_logs (logs s ++ [message])%list s.

(** [resolve] and [reject] of the promise of [build] (line 64). *)
Definition jobResolve (v : option StatusData) (s : Manager) : Manager :=
  set_job (resolveP (job s) v) s.

Definition jobReject (e : JsError) (s : Manager) : Manager :=
  set_job (rejectP (job s) e) s.

(** [resolve] and [reject] of the promise of [listenEvents] (line 148);
    [downloadFile] receives these two. *)
Definition watchResolve (v : option StatusData) (s : Manager) : Manager :=
  set_resolveCalls (S (resolveCalls s)) (set_watch (resolveP (watch s) v) s).

Definition watchReject (e : JsError) (s : Manager) : Manager :=
  set_watch (rejectP (watch s) e) s.

(** An exception thrown inside a handler that nothing catches. *)
Definition throw (e : JsError) (s : Manager) : Manager :=
  set_uncaught (uncaught s ++ [e])%list s.

Definition request (r : Request) (s : Manager) : Manager :=
  set_requests (requests s ++ [r])%list s.

Definition zstdCompressionLevel : string :=
  getZstdCompressionLevel (zstdEnv cfg) (buildServiceEndpoint cfg).

Definition sameDirMessage : string :=
  "Build resources dir equals to project dir and so, not sent to remote build agent. It will lead to incorrect results."
  ++ newline ++ "Please set " ++ String dq "directories.buildResources" ++ String dq
  " to separate dir or leave default (" ++ String dq "build" ++ String dq
  " directory in the project root)".

(** [uploadUnpackedAppArchive] (lines 278-313), up to the moment it returns:
    either the guard rejects, or the info file is awaited. *)
Definition uploadUnpackedAppArchive (s : Manager) : Manager :=
  if String.eqb (buildResourcesDir cfg) (projectDir cfg)
  then jobReject (Error sameDirMessage) s
  else set_pipeline PipeAwaitingInfoFile s.

(** The header object of the upload request (lines 96-103): the custom
    headers are spread over the three fixed ones, the compression level
    comes last. *)
Definition uploadHeaders (customHeaders : list (string * string)) : list (string * string) :=
  fold_left (fun acc kv => setKey (fst kv) (snd kv) acc)
    ([(":path", "/v1/upload"); (":method", "POST");
      ("content-type", "application/octet-stream")]
     ++ customHeaders ++ [("x-zstd-compression-level", zstdCompressionLevel)])%list
    [].

(** [upload] (lines 93-145), the part that runs at once. *)
Definition upload (customHeaders : list (string * string)) (s : Manager) : Manager :=
  let s := request (Post (uploadHeaders customHeaders)) s in
  let s := set_uploadStream UpAwaitingResponse s in
  uploadUnpackedAppArchive s.

(** [build] (lines 63-87): the listeners on the session, then [doBuild],
    which is [upload]. *)
Definition build (customHeaders : list (string * string)) : Manager :=
  let s := set_closeArmed true (set_timeoutArmed true created) in
  upload customHeaders s.

(** The info file is there (lines 287-311): both processes are spawned and
    piped into the upload stream. *)
Definition startPipeline (infoFile : string) (s : Manager) : Manager :=
  let s := log "Compressing and uploading to remote build agent" s in
  let tar := (path7za cfg, ["a"; "dummy"; "-ttar"; "-so";
                            unpackedDirectory cfg; infoFile; buildResourcesDir cfg]) in
  let zstd := ("zstd", ["-" ++ zstdCompressionLevel; "--long"]) in
  set_pipeline PipeRunning (set_spawned (spawned s ++ [tar; zstd])%list s).

(** [result.id] and the test [id == null] (lines 131-135). *)
Inductive IdOutcome : Type :=
| IdThrows            (* [result] is [null]: the property access throws *)
| IdMissing
| IdIs (id : string).

Definition idOf (result : json) : IdOutcome :=
  match result with
  | JNull => IdThrows
  | JObject members =>
      match getKey "id" members with
      | None | Some JNull => IdMissing
      | Some v => IdIs (toString v)
      end
  | _ => IdMissing
  end.

(** The [end] listener of the upload stream (lines 120-143).  [None]: the
    body is a JSON text outside the modelled fragment. *)
Definition parseBody (data : string) : parsed json :=
  if String.length data =? 0 then Parsed (JObject []) EmptyString else parse data.

Definition uploadEnd (status : nat) (data : string) (s : Manager) : option Manager :=
  let s := set_uploadStream UpEnded s in
  match parseBody data with
  | Unmodelled => None
  | SyntaxError => Some (throw (RuntimeError "SyntaxError") s)
  | Parsed result _ =>
      if status =? HTTP_STATUS_BAD_REQUEST
      then Some (jobReject (HttpError status (Some (stringify2 result))) s)
      else
        match idOf result with
        | IdThrows => Some (throw (RuntimeError "TypeError") s)
        | IdMissing => Some (jobReject (Error "Server didn't return id") s)
        | IdIs id => Some (set_timer (Some id) s)
        end
  end.

(** [checkStatus] (lines 324-332), with the promise whose [reject] it is
    given. *)
Definition checkStatus (status : nat) (s : Manager) : bool * Manager :=
  if status =? HTTP_STATUS_OK then (true, s)
  else (false, watchReject (HttpError status None) s).

(** [listenEvents] (lines 147-153), the part that runs at once. *)
Definition listenEvents (id : string) (s : Manager) : Manager :=
  let s := set_jobId (Some id) s in
  let s := request (Get (Some ("/v1/status/" ++ id))) s in
  set_statusStream StAwaitingResponse s.

(** [artifactInfoToArtifactCreatedEvent] (lines 266-275). *)
Definition artifactInfoToArtifactCreatedEvent (a : ArtifactInfo) (localFile : string)
  : ArtifactCreated :=
  {| createdFile := localFile;
     createdTarget :=
       match target a with
       | None => None
       | Some t => Some {| name := t; targetOutDir := outDir cfg;
                           options := packagerConfig cfg t |}
       end;
     fileContent := None;
     createdIsWriteUpdateInfo := isWriteUpdateInfo a;
     createdUpdateInfo := updateInfo a |}.

(** [downloadFile] (lines 206-216), the part that runs at once.  The
    request carries the path [downloadPath] gives.  That path exists when
    the URL of line 210 has no authority; when it has one (the job id is
    empty or begins with [/]), [new URL] takes the file name for a host and
    may throw: this is outside the model, and the statements about a
    manifest are made for the job ids with [hasNoAuthority]. *)
Definition newDownload (a : ArtifactInfo) : Download :=
  let localFile := path_join (outDir cfg) (file a) in
  {| artifact := a; localFile := localFile;
     artifactCreatedEvent := artifactInfoToArtifactCreatedEvent a localFile;
     dlState := DlAwaitingResponse |}.

Definition downloadFile (id : string) (a : ArtifactInfo) (s : Manager) : Manager :=
  let s := request (Get (downloadPath id (file a))) s in
  set_downloads (downloads s ++ [newDownload a])%list s.

(** The loop of lines 196-199. *)
Fixpoint downloadAll (id : string) (l : list ArtifactInfo) (s : Manager) : Manager :=
  match l with
  | [] => s
  | a :: r => downloadAll id r (downloadFile id a (log ("Downloading " ++ file a) s))
  end.

(** The callback given to [JsonStreamParser] (lines 160-200). *)
Definition statusEvent (id : string) (data : StatusData) (s : Manager) : Manager :=
  match data_error data with
  | Some _ => watchResolve (Some data) (set_statusStream StDestroyed s)
  | None =>
      match data_state data with
      | Some state =>
          let message :=
            if String.eqb state "added" then "Job added to build queue."
            else if String.eqb state "started" then "Job started."
            else state in
          log message s
      | None =>
          match data_files data with
          | FilesAbsent => log "Unknown builder event" s
          | FilesNull =>
              throw (RuntimeError "TypeError") (set_files None (set_statusStream StDestroyed s))
          | FilesList l =>
              downloadAll id l (set_files (Some l) (set_statusStream StDestroyed s))
          end
      end
  end.

(** [fileWritten] (lines 217-230), for the download [d]. *)
Definition fileWritten (d : Download) (s : Manager) : Manager :=
  let s := set_finishedStreamCount (S (finishedStreamCount s)) s in
  let s := log (file (artifact d) ++ " is downloaded") s in
  let s := set_dispatched (dispatched s ++ [artifactCreatedEvent d])%list s in
  match files s with
  | Some l => if List.length l <=? finishedStreamCount s then watchResolve None s else s
  | None => s
  end.

Definition withState (st : DownloadState) (d : Download) : Download :=
  {| artifact := artifact d; localFile := localFile d;
     artifactCreatedEvent := artifactCreatedEvent d; dlState := st |}.

Definition withContent (content : string) (e : ArtifactCreated) : ArtifactCreated :=
  {| createdFile := createdFile e; createdTarget := createdTarget e;
     fileContent := Some content;
     createdIsWriteUpdateInfo := createdIsWriteUpdateInfo e;
     createdUpdateInfo := createdUpdateInfo e |}.

Definition setDownload (i : nat) (d : Download) (s : Manager) : Manager :=
  set_downloads (replaceAt i d (downloads s)) s.

Definition isMetadataFile (f : string) : bool :=
  endsWith f ".yml" || endsWith f ".json".

(** The [response] listener of a download stream (lines 232-263). *)
Definition downloadResponse (i : nat) (d : Download) (status : nat) (s : Manager) : Manager :=
  match checkStatus status s with
  | (false, s) => setDownload i (withState DlUnread d) s
  | (true, s) =>
      if isMetadataFile (file (artifact d))
      then setDownload i (withState (DlBuffering []) d) s
      else setDownload i (withState DlEnsuringDir d) s
  end.

(** The [end] listener of a metadata download (lines 239-245):
    [Buffer.concat(buffers)] is assigned to the event, [outputFile] is
    called. *)
Definition downloadEnd (i : nat) (d : Download) (buffers : list string) (s : Manager)
  : Manager :=
  let content := match buffers with [b] => b | _ => bufferConcat buffers end in
  let d := {| artifact := artifact d; localFile := localFile d;
              artifactCreatedEvent := withContent content (artifactCreatedEvent d);
              dlState := DlWritingFile content |} in
  setDownload i d s.

(** ** Events and the step function

    One event is one callback invoked by the runtime.  [step] is [None] when
    the runtime cannot deliver the event in that state: a stream gives its
    [response] once and its [data] and [end] only after it and only to
    listeners that are registered, a promise runs its callbacks once, a
    timer fires once, a process emits nothing before it is spawned.  An
    event nobody listens to leaves the state as it is, except an [error]:
    the emitter throws it.  Of the emitters without an [error] listener
    the packer process is among the events; the standard streams of the two
    processes are not. *)
Inductive Event : Type :=
(* the session (lines 66-77) *)
| ClientSocketError (e : JsError)
| ClientError (e : JsError)
| ClientClose
| ClientTimeout
(* promise callbacks: [finally] of [build], [then]/[catch] of line 139 *)
| JobFinally
| WatchSettled
(* [projectInfoManager.infoFile.value] *)
| InfoFileResolved (infoFile : string)
| InfoFileRejected (e : JsError)
(* the two processes *)
| TarStdoutError (e : JsError)
| TarProcessError (e : JsError)
| TarExit (exitCode : nat)
| ZstdProcessError (e : JsError)
| ZstdExit (exitCode : nat)
| ZstdStdoutEnd
(* the upload stream and the timer *)
| UploadStreamError (e : JsError)
| UploadResponse (status : nat)
| UploadData (chunk : string)
| UploadEnd
| GraceTimer
(* the status stream *)
| StatusStreamError (e : JsError)
| StatusResponse (status : nat)
| StatusEvent (data : StatusData)
(* the download of artifact [i] *)
| DownloadStreamError (i : nat) (e : JsError)
| DownloadResponse (i : nat) (status : nat)
| DownloadData (i : nat) (chunk : string)
| DownloadEnd (i : nat)
| OutputFileDone (i : nat)
| OutputFileFailed (i : nat) (e : JsError)
| EnsureDirDone (i : nat)
| EnsureDirFailed (i : nat) (e : JsError)
| FileStreamError (i : nat) (e : JsError)
| FileStreamClose (i : nat).

Definition stepDownload (i : nat) (ev : Event) (d : Download) (s : Manager) : option Manager :=
  match ev, dlState d with
  | DownloadStreamError _ e, _ => Some (watchReject e s)
  | DownloadResponse _ status, DlAwaitingResponse => Some (downloadResponse i d status s)
  | DownloadData _ chunk, DlBuffering buffers =>
      Some (setDownload i (withState (DlBuffering (buffers ++ [chunk])%list) d) s)
  | DownloadData _ chunk, DlPiping written =>
      Some (setDownload i (withState (DlPiping (written ++ chunk)) d) s)
  | DownloadEnd _, DlBuffering buffers => Some (downloadEnd i d buffers s)
  | DownloadEnd _, DlPiping _ => Some s
  | OutputFileDone _, DlWritingFile content =>
      let s := set_disk (disk s ++ [(localFile d, content)])%list s in
      Some (fileWritten d (setDownload i (withState DlDone d) s))
  | OutputFileFailed _ e, DlWritingFile _ =>
      Some (watchReject e (setDownload i (withState DlFailed d) s))
  | EnsureDirDone _, DlEnsuringDir => Some (setDownload i (withState (DlPiping EmptyString) d) s)
  | EnsureDirFailed _ e, DlEnsuringDir =>
      Some (watchReject e (setDownload i (withState DlFailed d) s))
  | FileStreamError _ e, DlPiping _ => Some (watchReject e s)
  | FileStreamClose _, DlPiping written =>
      let s := set_disk (disk s ++ [(localFile d, written)])%list s in
      Some (fileWritten d (setDownload i (withState DlDone d) s))
  | _, _ => None
  end.

Definition downloadIndex (ev : Event) : option nat :=
  match ev with
  | DownloadStreamError i _ | DownloadResponse i _ | DownloadData i _ | DownloadEnd i
  | OutputFileDone i | OutputFileFailed i _ | EnsureDirDone i | EnsureDirFailed i _
  | FileStreamError i _ | FileStreamClose i => Some i
  | _ => None
  end.

Definition step (s : Manager) (ev : Event) : option Manager :=
  match ev with
  | ClientSocketError e | ClientError e => Some (jobReject e s)
  | ClientClose =>
      if closeArmed s then
        let s := set_closeArmed false s in
        Some (if handled s then s else jobReject (Error "Closed unexpectedly") s)
      else Some s
  | ClientTimeout =>
      if timeoutArmed s then Some (jobReject (Error "Timeout") (set_timeoutArmed false s))
      else Some s
  | JobFinally =>
      if settled (job s) && negb (finallyRan s)
      then Some (set_destroyCalls (S (destroyCalls s)) (set_finallyRan true s))
      else None
  | WatchSettled =>
      if chained s then None
      else
        match watch s with
        | Pending => None
        | Fulfilled result => Some (jobResolve result (set_handled true (set_chained true s)))
        | Rejected e => Some (jobReject e (set_chained true s))
        end
  | InfoFileResolved infoFile =>
      match pipeline s with
      | PipeAwaitingInfoFile => Some (startPipeline infoFile s)
      | _ => None
      end
  | InfoFileRejected e =>
      match pipeline s with
      | PipeAwaitingInfoFile => Some (jobReject e (set_pipeline PipeInfoFileFailed s))
      | _ => None
      end
  | TarStdoutError e | ZstdProcessError e =>
      match pipeline s with
      | PipeRunning => Some (jobReject e s)
      | _ => None
      end
  | TarProcessError e =>
      (* no [error] listener on the process itself: the emitter throws *)
      match pipeline s with
      | PipeRunning => Some (throw e s)
      | _ => None
      end
  | TarExit _ | ZstdExit _ =>
      (* nobody listens to [exit] or [close] of a process *)
      match pipeline s with
      | PipeRunning => Some s
      | _ => None
      end
  | ZstdStdoutEnd =>
      match pipeline s with
      | PipeRunning => Some (log "Uploaded" s)
      | _ => None
      end
  | UploadStreamError e =>
      match uploadStream s with
      | UpNotOpened => None
      | _ => Some (jobReject e s)
      end
  | UploadResponse status =>
      match uploadStream s with
      | UpAwaitingResponse =>
          if negb (status =? HTTP_STATUS_OK) && negb (status =? HTTP_STATUS_BAD_REQUEST)
          then Some (jobReject (HttpError status None) (set_uploadStream UpUnread s))
          else Some (set_uploadStream (UpReceiving status EmptyString) s)
      | _ => None
      end
  | UploadData chunk =>
      match uploadStream s with
      | UpReceiving status data => Some (set_uploadStream (UpReceiving status (data ++ chunk)) s)
      | _ => None
      end
  | UploadEnd =>
      match uploadStream s with
      | UpReceiving status data => uploadEnd status data s
      | _ => None
      end
  | GraceTimer =>
      (* the timer is never cleared; [listenEvents] is modelled on a session
         that is open, as it is while the job is not rejected *)
      match timer s with
      | Some id => Some (listenEvents id (set_timer None s))
      | None => None
      end
  | StatusStreamError e =>
      match statusStream s with
      | StNotOpened | StDestroyed => None
      | _ => Some (watchReject e s)
      end
  | StatusResponse status =>
      match statusStream s with
      | StAwaitingResponse =>
          match checkStatus status s with
          | (true, s) => Some (set_statusStream StWatching s)
          | (false, s) => Some (set_statusStream StUnread s)
          end
      | _ => None
      end
  | StatusEvent data =>
      match statusStream s, jobId s with
      | StWatching, Some id => Some (statusEvent id data s)
      | _, _ => None
      end
  | _ =>
      match downloadIndex ev with
      | Some i =>
          match nth_error (downloads s) i with
          | Some d => stepDownload i ev d s
          | None => None
          end
      | None => None
      end
  end.

(** A run: the events of a trace, one after the other. *)
Fixpoint run (s : Manager) (trace : list Event) : option Manager :=
  match trace with
  | [] => Some s
  | ev :: rest =>
      match step s ev with
      | Some s' => run s' rest
      | None => None
      end
  end.

End Handlers.

(** ** Case analysis on the handlers *)

Functional Scheme step_cases := Induction for step Sort Prop.
Functional Scheme stepDownload_cases := Induction for stepDownload Sort Prop.
Functional Scheme uploadEnd_cases := Induction for uploadEnd Sort Prop.
Functional Scheme statusEvent_cases := Induction for statusEvent Sort Prop.

(** ** Reachable states and their invariant *)

(** The states of a build: [build], then any events the runtime can
    deliver. *)
Definition Reachable (cfg : Config) (s : Manager) : Prop :=
  exists customHeaders trace, run cfg (build cfg customHeaders) trace = Some s.

(** The session is destroyed by the [finally] callback and by nothing
    else. *)
Definition SessionOk (s : Manager) : Prop :=
  destroyCalls s = (if finallyRan s then 1 else 0)
  /\ (finallyRan s = true -> settled (job s) = true).

(** The promise of [build] is fulfilled only by the callback chained to the
    promise of [listenEvents], which also sets [handled]. *)
Definition ChainOk (s : Manager) : Prop :=
  (chained s = true -> settled (watch s) = true)
  /\ (handled s = true -> settled (job s) = true)
  /\ (forall v, job s = Fulfilled v ->
        watch s = Fulfilled v /\ chained s = true /\ handled s = true).

(** The phases follow each other: upload, timer, status stream, downloads. *)
Definition PhaseOk (s : Manager) : Prop :=
  (uploadStream s <> UpEnded -> timer s = None /\ statusStream s = StNotOpened)
  /\ (forall id, timer s = Some id -> statusStream s = StNotOpened)
  /\ match statusStream s with
     | StNotOpened =>
         jobId s = None /\ watch s = Pending /\ chained s = false
         /\ files s = None /\ resolveCalls s = 0
     | StDestroyed => jobId s <> None
     | _ =>
         jobId s <> None /\ files s = None /\ resolveCalls s = 0
         /\ (forall v, watch s <> Fulfilled v)
     end.

(** How often [fileWritten] has called [resolve] when [count] of the
    artifacts of [l] are finished. *)
Definition expectedResolveCalls (l : list ArtifactInfo) (count : nat) : nat :=
  match l with
  | [] => 0
  | _ => if count =? List.length l then 1 else 0
  end.

(** The counter counts the finished downloads of the manifest. *)
Definition DownloadsOk (s : Manager) : Prop :=
  match files s with
  | None => downloads s = [] /\ finishedStreamCount s = 0
  | Some l =>
      map artifact (downloads s) = l
      /\ finishedStreamCount s = doneCount (downloads s)
      /\ resolveCalls s = expectedResolveCalls l (finishedStreamCount s)
      /\ (forall v, watch s = Fulfilled v ->
            v = None /\ finishedStreamCount s = List.length l /\ l <> [])
  end.

(** The event object of a download: the one built by [downloadFile], with
    the content once the [end] listener has assigned it. *)
Definition baseEvent (cfg : Config) (d : Download) : ArtifactCreated :=
  artifactInfoToArtifactCreatedEvent cfg (artifact d) (localFile d).

Definition RecordOk (cfg : Config) (d : Download) : Prop :=
  localFile d = path_join (outDir cfg) (file (artifact d))
  /\ match dlState d with
     | DlWritingFile content => artifactCreatedEvent d = withContent content (baseEvent cfg d)
     | DlFailed | DlDone => True
     | _ => artifactCreatedEvent d = baseEvent cfg d
     end.

Definition Inv (cfg : Config) (s : Manager) : Prop :=
  SessionOk s /\ ChainOk s /\ PhaseOk s /\ DownloadsOk s
  /\ Forall (RecordOk cfg) (downloads s).

(** Events that report a failure: an error, the close or the timeout of
    the session, a response whose status is not OK. *)
Definition carriesError (ev : Event) : bool :=
  match ev with
  | ClientSocketError _ | ClientError _ | InfoFileRejected _
  | TarStdoutError _ | TarProcessError _ | ZstdProcessError _
  | UploadStreamError _ | StatusStreamError _
  | DownloadStreamError _ _ | OutputFileFailed _ _ | EnsureDirFailed _ _
  | FileStreamError _ _ => true
  | _ => false
  end.

Definition isCloseOrTimeout (ev : Event) : bool :=
  match ev with
  | ClientClose | ClientTimeout => true
  | _ => false
  end.

Definition isBadStatus (ev : Event) : bool :=
  match ev with
  | UploadResponse status | StatusResponse status | DownloadResponse _ status =>
      negb (status =? HTTP_STATUS_OK)
  | _ => false
  end.

Definition errorCloseOrTimeout (ev : Event) : bool :=
  carriesError ev || isCloseOrTimeout ev.

Definition isFailure (ev : Event) : bool :=
  carriesError ev || isCloseOrTimeout ev || isBadStatus ev.

(** The manifest event for the artifacts [l]. *)
Definition manifest (l : list ArtifactInfo) : StatusData :=
  {| data_error := None; data_state := None; data_files := FilesList l |}.

(** ** Notions used in the statements *)

(** The specification speaks of loopback or localhost endpoints.  For the
    comparison with the test of the code: the host of an endpoint
    [https://HOST], [https://HOST:PORT] (a path may follow), and the three
    hosts the code itself names. *)
Fixpoint upToSlash (s : string) : string :=
  match s with
  | EmptyString => EmptyString
  | String c r => if Ascii.eqb c "/" then EmptyString else String c (upToSlash r)
  end.

Fixpoint dropDigits (l : list ascii) : list ascii :=
  match l with
  | c :: r => if Json.isDigit c then dropDigits r else l
  | [] => []
  end.

Definition stripPort (hostPort : string) : string :=
  match dropDigits (rev (list_ascii_of_string hostPort)) with
  | c :: r => if Ascii.eqb c ":" then string_of_list_ascii (rev r) else hostPort
  | [] => hostPort
  end.

Definition hostOfEndpoint (endpoint : string) : string :=
  let rest :=
    if startsWith endpoint "https://"
    then substring 8 (String.length endpoint - 8) endpoint else endpoint in
  stripPort (upToSlash rest).

Definition loopbackOrLocalhost_spec (endpoint : string) : bool :=
  let h := hostOfEndpoint endpoint in
  String.eqb h "localhost" || String.eqb h "127.0.0.1" || String.eqb h "[::1]".

(** The body and the payload of the bad-request example. *)
Definition badConfigBody : string :=
  "{" ++ String dq "message" ++ String dq ":" ++ String dq "bad config" ++ String dq "}".

Definition badConfigValue : Json.json :=
  Json.JObject [("message", Json.JString "bad config")].

Definition badConfigPayload : string :=
  "{" ++ Json.newline ++ "  " ++ String dq "message" ++ String dq ": "
  ++ String dq "bad config" ++ String dq Json.newline ++ "}".

(** ** Concrete builds, for the examples *)

Definition exampleConfig : Config :=
  {| buildServiceEndpoint := "https://build.example.org:443";
     unpackedDirectory := "/project/dist/win-unpacked";
     outDir := "/project/dist";
     buildResourcesDir := "/project/build";
     projectDir := "/project";
     packagerConfig := fun _ => None;
     path7za := "7za";
     zstdEnv := None |}.

(** The same project with [directories.buildResources] set to the project
    directory. *)
Definition sameDirConfig : Config :=
  {| buildServiceEndpoint := "https://build.example.org:443";
     unpackedDirectory := "/project/dist/win-unpacked";
     outDir := "/project/dist";
     buildResourcesDir := "/project";
     projectDir := "/project";
     packagerConfig := fun _ => None;
     path7za := "7za";
     zstdEnv := None |}.

Definition exampleArtifact (f : string) : ArtifactInfo :=
  {| file := f; target := None; isWriteUpdateInfo := None; updateInfo := None |}.

(** The body [{"id":"job1"}] of an accepted upload. *)
Definition idBody : string :=
  "{" ++ String dq "id" ++ String dq ":" ++ String dq "job1" ++ String dq "}".

(** A build up to the moment the status stream is watched. *)
Definition untilWatching : list Event :=
  [InfoFileResolved "/tmp/project-info.json"; UploadResponse 200; UploadData idBody;
   UploadEnd; GraceTimer; StatusResponse 200].

Definition errorEvent : StatusData :=
  {| data_error := Some "build failed"; data_state := None; data_files := FilesAbsent |}.

(** The state after [trace], for a trace the runtime can deliver. *)
Definition stateAfter (cfg : Config) (trace : list Event) : Manager :=
  match run cfg (build cfg []) trace with
  | Some s => s
  | None => created
  end.

(** The upload request among the opened streams. *)
Definition isUploadRequest (r : Request) : bool :=
  match r with
  | Post headers =>
      match getKey ":path" headers with
      | Some p => String.eqb p "/v1/upload"
      | None => false
      end
  | Get _ => false
  end.

(** The events of a metadata download and of a streamed download. *)
Definition metadataDownload (i : nat) (chunks : list string) : list Event :=
  (DownloadResponse i HTTP_STATUS_OK :: map (DownloadData i) chunks
   ++ [DownloadEnd i; OutputFileDone i])%list.

Definition streamedDownload (i : nat) (chunks : list string) : list Event :=
  (DownloadResponse i HTTP_STATUS_OK :: EnsureDirDone i :: map (DownloadData i) chunks
   ++ [FileStreamClose i])%list.

(** The download as [fileWritten] sees it after a metadata file is
    written. *)
Definition writtenDownload (d : Download) (content : string) : Download :=
  {| artifact := artifact d; localFile := localFile d;
     artifactCreatedEvent := withContent content (artifactCreatedEvent d);
     dlState := DlWritingFile content |}.

(** The downloads of the artifacts [l], numbered from [i], one after the
    other and each to its end; [bodies i] are the chunks of the body of
    download [i]. *)
Fixpoint completeAll (i : nat) (l : list ArtifactInfo) (bodies : nat -> list string)
  : list Event :=
  match l with
  | [] => []
  | a :: r =>
      ((if isMetadataFile (file a)
        then metadataDownload i (bodies i) else streamedDownload i (bodies i))
       ++ completeAll (S i) r bodies)%list
  end.

(** A manifest of a metadata file and a binary, and a whole build. *)
Definition exampleManifest : list ArtifactInfo :=
  [exampleArtifact "latest.yml"; exampleArtifact "app.exe"].

Definition exampleBodies (i : nat) : list string := ["ab"; "cd"].

Definition wholeBuild : list Event :=
  (untilWatching ++ StatusEvent (manifest exampleManifest)
   :: completeAll 0 exampleManifest exampleBodies
   ++ [WatchSettled; ClientClose; JobFinally; ClientClose; ClientTimeout])%list.

Definition afterManifest : Manager :=
  stateAfter exampleConfig (untilWatching ++ [StatusEvent (manifest exampleManifest)]).

(** ** Connection options (lines 32-46)

    [getConnectOptions] reads two environment variables.  [isEnvTrue] and
    the two certificates are imported from other modules: they are
    arguments here.  [checkServerIdentity], when it is set, is a function
    of the server name that returns [undefined] ([None]: the server is
    accepted). *)
Record ConnectOptions : Type := {
  ca : option string;
  checkServerIdentity : option (string -> option JsError)
}.

Definition getConnectOptions
           (isEnvTrue : option string -> bool)
           (ELECTRON_BUILD_SERVICE_LOCAL_CA_CERT ELECTRON_BUILD_SERVICE_CA_CERT : string)
           (envCaCert envUseLocalCa : option string)
  : ConnectOptions * list string :=
  let caCert := envCaCert in
  if match caCert with Some c => String.eqb c "false" | None => false end
  then ({| ca := None; checkServerIdentity := None |}, [])
  else
    let isUseLocalCert := isEnvTrue envUseLocalCa in
    let debugged :=
      if isUseLocalCert then ["Local certificate authority is used"] else [] in
    let fallback :=
      if isUseLocalCert
      then ELECTRON_BUILD_SERVICE_LOCAL_CA_CERT else ELECTRON_BUILD_SERVICE_CA_CERT in
    ({| ca := Some match caCert with
                   | Some c => if String.eqb c EmptyString then fallback else c
                   | None => fallback
                   end;
        checkServerIdentity := Some (fun _ => None) |},
     debugged).

(** ** Further notions: the whole build *)

(** A character that may stand in a request path as it is: printable
    ASCII outside the path percent-encode set. *)
Definition pathSafe (c : ascii) : bool := negb (Url.inPathPercentEncodeSet c).

Definition safeSegments (path : list string) : Prop :=
  Forall (fun seg => allChars pathSafe seg = true) path.

(** The streams a build has opened, given the headers [build] was called
    with, the job id and the manifest it has received so far: the upload,
    then the status stream, then one download per artifact in the order of
    the manifest. *)
Definition expectedRequests (cfg : Config) (customHeaders : list (string * string))
           (s : Manager) : list Request :=
  Post (uploadHeaders cfg customHeaders)
  :: match jobId s with
     | None => []
     | Some id =>
         Get (Some ("/v1/status/" ++ id))
         :: match files s with
            | Some l => map (fun a => Get (downloadPath id (file a))) l
            | None => []
            end
     end.

(** While the job is pending, the two [once] listeners of [build] are
    still registered. *)
Definition ListenersOk (s : Manager) : Prop :=
  job s = Pending -> closeArmed s = true /\ timeoutArmed s = true.

(** The two processes of [uploadUnpackedAppArchive] exist exactly while
    the pipeline runs, and the pipeline is never started when the guard on
    the build-resources directory has rejected. *)
Definition PipelineOk (cfg : Config) (s : Manager) : Prop :=
  match pipeline s with
  | PipeNotStarted =>
      String.eqb (buildResourcesDir cfg) (projectDir cfg) = true /\ spawned s = []
  | PipeRunning =>
      String.eqb (buildResourcesDir cfg) (projectDir cfg) = false
      /\ exists infoFile,
           spawned s
           = [(path7za cfg, ["a"; "dummy"; "-ttar"; "-so";
                             unpackedDirectory cfg; infoFile; buildResourcesDir cfg]);
              ("zstd", ["-" ++ zstdCompressionLevel cfg; "--long"])]
  | _ => String.eqb (buildResourcesDir cfg) (projectDir cfg) = false /\ spawned s = []
  end.

(** The event [dispatchArtifactCreated] receives for the artifact [a]
    whose file holds [content]: the event of
    [artifactInfoToArtifactCreatedEvent] for the local file, with the
    content for a metadata file and without it for any other file. *)
Definition expectedEvent (cfg : Config) (a : ArtifactInfo) (content : string)
  : ArtifactCreated :=
  let e := artifactInfoToArtifactCreatedEvent cfg a (path_join (outDir cfg) (file a)) in
  if isMetadataFile (file a) then withContent content e else e.

(** Only a metadata file is buffered and written with [outputFile], only
    another file is piped. *)
Definition KindOk (d : Download) : Prop :=
  match dlState d with
  | DlBuffering _ | DlWritingFile _ => isMetadataFile (file (artifact d)) = true
  | DlEnsuringDir | DlPiping _ => isMetadataFile (file (artifact d)) = false
  | _ => True
  end.

(** A written file and the event dispatched for it. *)
Definition writtenFor (cfg : Config) (s : Manager)
           (written : string * string) (e : ArtifactCreated) : Prop :=
  exists a, In a (map artifact (downloads s))
            /\ fst written = path_join (outDir cfg) (file a)
            /\ e = expectedEvent cfg a (snd written).

(** The files on disk and the events dispatched go together, one per
    finished download. *)
Definition OutputOk (cfg : Config) (s : Manager) : Prop :=
  Forall KindOk (downloads s)
  /\ Forall2 (writtenFor cfg s) (disk s) (dispatched s)
  /\ Permutation (map fst (disk s)) (map localFile (filter isDone (downloads s))).

(** What the promise of [listenEvents] can be fulfilled with: [null] once
    a manifest is there, or an event with an [error] field and no
    manifest. *)
Definition ResultOk (s : Manager) : Prop :=
  forall v, watch s = Fulfilled v ->
    match v with
    | None => files s <> None
    | Some data => data_error data <> None /\ files s = None
    end.

(** A status event that is a progress message or an unknown event: no
    [error], and a [state] or no [files] key. *)
Definition isProgressEvent (data : StatusData) : Prop :=
  data_error data = None
  /\ (data_state data <> None \/ data_files data = FilesAbsent).

(** The manifest event whose [files] is [null]. *)
Definition nullManifest : StatusData :=
  {| data_error := None; data_state := None; data_files := FilesNull |}.

(** A download that will never finish: its response was refused, or
    writing its file failed. *)
Definition isStuck (d : Download) : bool :=
  match dlState d with
  | DlUnread | DlFailed => true
  | _ => false
  end.

(** A build in which nothing fails.  Its upload phase: the info file,
    the accepted upload with the body that holds the id, the timer, the
    accepted status stream. *)
Definition uploadPhase (infoFile : string) (idChunks : list string) : list Event :=
  (InfoFileResolved infoFile :: UploadResponse HTTP_STATUS_OK
   :: map UploadData idChunks
   ++ [UploadEnd; GraceTimer; StatusResponse HTTP_STATUS_OK])%list.

(** Then the manifest [l], every download to its end, and the two promise
    callbacks. *)
Definition successfulBuild (infoFile : string) (idChunks : list string)
           (l : list ArtifactInfo) (bodies : nat -> list string) : list Event :=
  (uploadPhase infoFile idChunks
   ++ StatusEvent (manifest l)
   :: completeAll 0 l bodies ++ [WatchSettled; JobFinally])%list.

(** The files such a build writes and the events it dispatches, for the
    artifacts [l] numbered from [i]. *)
Fixpoint writtenAll (cfg : Config) (i : nat) (l : list ArtifactInfo)
         (bodies : nat -> list string) : list (string * string) :=
  match l with
  | [] => []
  | a :: r =>
      (path_join (outDir cfg) (file a), bufferConcat (bodies i))
      :: writtenAll cfg (S i) r bodies
  end.

Fixpoint dispatchedAll (cfg : Config) (i : nat) (l : list ArtifactInfo)
         (bodies : nat -> list string) : list ArtifactCreated :=
  match l with
  | [] => []
  | a :: r =>
      expectedEvent cfg a (bufferConcat (bodies i)) :: dispatchedAll cfg (S i) r bodies
  end.

(** ** Notions for the request paths and for the ways a job ends *)

(** The URL of line 210, [f:/ID/FILE], has no authority: once tabs and
    newlines are removed, the job id is not empty and does not begin with
    [/].  The parser then goes from the path-or-authority state to the path
    state, whatever the file name is. *)
Definition hasNoAuthority (id : string) : bool :=
  match Url.removeTabNewline id with
  | String c _ => negb (Ascii.eqb c "/")
  | EmptyString => false
  end.

(** The job id of a state that has received a manifest leaves the URLs of
    the downloads without authority. *)
Definition pathsBuilt (s : Manager) : bool :=
  match jobId s, files s with
  | Some id, Some _ => hasNoAuthority id
  | _, _ => true
  end.

Definition isRejected (p : Promise) : bool :=
  match p with
  | Rejected _ => true
  | _ => false
  end.

(** A character of a name: a plain character, or the [/] between two
    segments. *)
Definition nameChar (c : ascii) : bool := Url.plainChar c || Ascii.eqb c "/".

(** The segments of a name, the parts between its slashes; [cur] is the
    segment that is open. *)
Fixpoint segmentsFrom (cur s : string) : list string :=
  match s with
  | EmptyString => [cur]
  | String c r =>
      if Ascii.eqb c "/" then cur :: segmentsFrom EmptyString r
      else segmentsFrom (cur ++ String c EmptyString) r
  end.

Definition segments (s : string) : list string := segmentsFrom EmptyString s.

Definition notDotSegment (x : string) : bool :=
  negb (String.eqb x ".") && negb (String.eqb x "..").

(** A name made of plain characters and slashes, none of whose segments is
    [.] or [..]. *)
Definition plainName (s : string) : bool :=
  allChars nameChar s && forallb notDotSegment (segments s).

(** The events of the transport: those of the session and the errors of
    its streams. *)
Definition isTransportEvent (ev : Event) : bool :=
  match ev with
  | ClientSocketError _ | ClientError _ | ClientClose | ClientTimeout
  | UploadStreamError _ | StatusStreamError _ | DownloadStreamError _ _ => true
  | _ => false
  end.

(** The state after an empty manifest in the example build. *)
Definition afterEmptyManifest : Manager :=
  stateAfter exampleConfig (untilWatching ++ [StatusEvent (manifest [])]).

(** ** JSON values that come out of [JSON.parse]

    For the round trip of [JSON.stringify] and [JSON.parse] on the values
    of the model. *)
Module JsonValues.

Import Json.

(** A character of a parsed string: not a control character, or one of the
    five that have a short escape. *)
Definition okChar (c : ascii) : bool :=
  let n := code c in
  (32 <=? n) || (n =? 8) || (n =? 9) || (n =? 10) || (n =? 12) || (n =? 13).

Definition okKey (k : string) : bool := allChars okChar k && negb (isIndexKey k).

Fixpoint hasKey {A : Type} (key : string) (l : list (string * A)) : bool :=
  match l with
  | [] => false
  | (k, _) :: r => String.eqb k key || hasKey key r
  end.

Fixpoint uniqueKeys {A : Type} (l : list (string * A)) : bool :=
  match l with
  | [] => true
  | (k, _) :: r => negb (hasKey k r) && uniqueKeys r
  end.

(** The values of the model: integers below 2^53 in absolute value,
    strings of such characters, objects whose keys are distinct and not
    array indices. *)
Fixpoint wf (v : json) : bool :=
  match v with
  | JNull | JBool _ => true
  | JNumber n => ((- 2 ^ 53 <? n) && (n <? 2 ^ 53))%Z
  | JString s => allChars okChar s
  | JArray items =>
      (fix all (l : list json) : bool :=
         match l with
         | [] => true
         | x :: r => wf x && all r
         end) items
  | JObject members =>
      (fix all (l : list (string * json)) : bool :=
         match l with
         | [] => true
         | (k, x) :: r => okKey k && wf x && all r
         end) members
      && uniqueKeys members
  end.

Definition wfItems (l : list json) : bool := forallb wf l.

Definition wfMembers (l : list (string * json)) : bool :=
  forallb (fun kv => okKey (fst kv) && wf (snd kv)) l.

(** Fuel that is enough for [parseValue] to read the text of a value. *)
Fixpoint fuelFor (v : json) : nat :=
  match v with
  | JArray items =>
      S ((fix sum (l : list json) : nat :=
            match l with
            | [] => 0
            | x :: r => S (fuelFor x + sum r)
            end) items)
  | JObject members =>
      S ((fix sum (l : list (string * json)) : nat :=
            match l with
            | [] => 0
            | (_, x) :: r => S (fuelFor x + sum r)
            end) members)
  | _ => 1
  end.

Fixpoint fuelForItems (l : list json) : nat :=
  match l with
  | [] => 0
  | x :: r => S (fuelFor x + fuelForItems r)
  end.

Fixpoint fuelForMembers (l : list (string * json)) : nat :=
  match l with
  | [] => 0
  | (_, x) :: r => S (fuelFor x + fuelForMembers r)
  end.

(** The items of an array after the first, and the members of an object
    after the first, as [serialize] writes them. *)
Fixpoint serItems (gap indent : string) (l : list json) : string :=
  match l with
  | [] => EmptyString
  | y :: l' => "," ++ newline ++ indent ++ serialize gap indent y ++ serItems gap indent l'
  end.

Fixpoint serMembers (gap indent : string) (l : list (string * json)) : string :=
  match l with
  | [] => EmptyString
  | (k', y) :: l' =>
      "," ++ newline ++ indent ++ quote k' ++ ": " ++ serialize gap indent y
      ++ serMembers gap indent l'
  end.

(** What may follow a value in a text: nothing, or a character that
    cannot continue a number. *)
Definition endsValue (rest : string) : bool :=
  match rest with
  | EmptyString => true
  | String c _ => negb (isDigit c) && negb (startsFraction rest)
  end.

End JsonValues.

(** * Properties *)

(** ** Strings *)

Lemma append_nil_r (s : string) : s ++ EmptyString = s.
Proof. induction s as [|c s IH]; simpl; [reflexivity | now rewrite IH]. Qed.

Lemma append_assoc (a b c : string) : (a ++ b) ++ c = a ++ (b ++ c).
Proof. induction a as [|x a IH]; simpl; [reflexivity | now rewrite IH]. Qed.

Lemma allChars_app (p : ascii -> bool) (a b : string) :
  allChars p (a ++ b) = allChars p a && allChars p b.
Proof.
  induction a as [|x a IH]; simpl; [reflexivity|].
  rewrite IH. now rewrite andb_assoc.
Qed.

Lemma filterChars_all (p : ascii -> bool) (s : string) :
  allChars p s = true -> filterChars p s = s.
Proof.
  induction s as [|c s IH]; simpl; [reflexivity|].
  intros H. apply andb_prop in H as [Hc Hs].
  rewrite Hc. now rewrite IH.
Qed.

Lemma allChars_weaken (p q : ascii -> bool) (s : string) :
  (forall c, p c = true -> q c = true) -> allChars p s = true -> allChars q s = true.
Proof.
  intros Hpq. induction s as [|c s IH]; simpl; [reflexivity|].
  intros H. apply andb_prop in H as [Hc Hs].
  now rewrite (Hpq _ Hc), IH.
Qed.

Lemma prefix_app (p r : string) : String.prefix p (p ++ r) = true.
Proof.
  induction p as [|c p IH]; simpl.
  - now destruct r.
  - destruct (ascii_dec c c) as [_|N]; [exact IH | now elim N].
Qed.

Lemma prefix_inv (p s : string) : String.prefix p s = true -> exists r, s = p ++ r.
Proof.
  revert s. induction p as [|c p IH]; intros s H.
  - now exists s.
  - destruct s as [|d s]; simpl in H; [discriminate|].
    destruct (ascii_dec c d) as [->|_]; [|discriminate].
    destruct (IH s H) as [r ->]. now exists r.
Qed.

(** ** The compression level *)

(** C8, as stated, fails: [https://localhost], the endpoint of a server on
    this machine at the default port, is a localhost endpoint, and without
    an override it gets the high level. *)
Lemma zstd_level_local_endpoint_high :
  loopbackOrLocalhost_spec "https://localhost" = true
  /\ getZstdCompressionLevel None "https://localhost" = "19".
Proof. split; reflexivity. Qed.

Lemma includes_prefix (needle r s : string) :
  String.prefix (needle ++ r) s = true -> includes needle s = true.
Proof.
  intros H. apply prefix_inv in H as [q ->]. rewrite append_assoc.
  pose proof (prefix_app needle (r ++ q)) as P.
  destruct (needle ++ r ++ q); cbn [includes]; rewrite P; reflexivity.
Qed.

(** C8, amended: an override is used whatever the endpoint; without one
    the level is the low one for every endpoint whose text begins with
    [https://127.0.0.1:] or [https://localhost:], and the high one for
    every other endpoint in which [[::1]] does not occur.  Nothing is said
    here of the endpoints that name the IPv6 loopback. *)
Theorem zstd_level_by_prefix (env : option string) (endpoint : string) :
  (forall v, env = Some v -> getZstdCompressionLevel env endpoint = v)
  /\ (env = None ->
      (exists rest, endpoint = "https://127.0.0.1:" ++ rest
                    \/ endpoint = "https://localhost:" ++ rest) ->
      getZstdCompressionLevel env endpoint = "3")
  /\ (env = None -> includes "[::1]" endpoint = false ->
      (forall rest, endpoint <> "https://127.0.0.1:" ++ rest
                    /\ endpoint <> "https://localhost:" ++ rest) ->
      getZstdCompressionLevel env endpoint = "19").
Proof.
  split; [|split].
  - intros v ->. reflexivity.
  - intros -> [rest H]. unfold getZstdCompressionLevel, startsWith.
    destruct H as [-> | ->].
    + now rewrite prefix_app.
    + rewrite (prefix_app "https://localhost:"). now rewrite orb_true_r.
  - intros -> N H. unfold getZstdCompressionLevel, startsWith.
    destruct (String.prefix "https://127.0.0.1:" endpoint) eqn:E1.
    { apply prefix_inv in E1 as [r E]. now destruct (H r) as [K _]. }
    destruct (String.prefix "https://localhost:" endpoint) eqn:E2.
    { apply prefix_inv in E2 as [r E]. now destruct (H r) as [_ K]. }
    destruct (String.prefix "[::1]:" endpoint) eqn:E3.
    { rewrite (includes_prefix "[::1]" ":" endpoint E3) in N. discriminate N. }
    reflexivity.
Qed.

Lemma zstd_level_by_prefix_witness :
  getZstdCompressionLevel (Some "7") "https://localhost:8443" = "7"
  /\ getZstdCompressionLevel None "https://localhost:8443" = "3"
  /\ getZstdCompressionLevel None "https://build.example.org:443" = "19".
Proof.
  split; [|split].
  - apply (proj1 (zstd_level_by_prefix (Some "7") "https://localhost:8443")).
    reflexivity.
  - apply (proj1 (proj2 (zstd_level_by_prefix None "https://localhost:8443"))).
    + reflexivity.
    + exists "8443". right. reflexivity.
  - apply (proj2 (proj2 (zstd_level_by_prefix None "https://build.example.org:443"))).
    + reflexivity.
    + reflexivity.
    + intros rest. split; discriminate.
Defined.

(** ** The download path *)

Section UrlProperties.

Import Url.

Ltac each_char c := destruct c as [[|] [|] [|] [|] [|] [|] [|] [|]].

Lemma plainChar_tests (c : ascii) :
  plainChar c = true ->
  Ascii.eqb c "?" || Ascii.eqb c "#" = false
  /\ Ascii.eqb c "/" = false
  /\ Ascii.eqb c "%" = false
  /\ isTabOrNewline c = false.
Proof. intros H. each_char c; try discriminate H; repeat split; reflexivity. Qed.

Lemma decode_encodeChar (c : ascii) (s : string) :
  Ascii.eqb c "%" = false ->
  percentDecode (encodeChar c ++ s) = String c (percentDecode s).
Proof. intros H. each_char c; try discriminate H; reflexivity. Qed.

Lemma decode_encodeString (x s : string) :
  allChars plainChar x = true ->
  percentDecode (encodeString x ++ s) = x ++ percentDecode s.
Proof.
  induction x as [|c x IH]; simpl; intros H; [reflexivity|].
  apply andb_prop in H as [Hc Hx].
  rewrite append_assoc, decode_encodeChar by apply (plainChar_tests c Hc).
  now rewrite IH.
Qed.

(** What the encoding of a plain character looks like: the character
    itself, or an escape that is not the escape of a dot. *)
Lemma encodeChar_shape (c : ascii) :
  plainChar c = true ->
  (encodeChar c = String c EmptyString
   /\ Ascii.eqb (lowerChar c) "%" = false
   /\ (Ascii.eqb (lowerChar c) "." = true -> c = "."%char))
  \/ (exists h1 h2,
        encodeChar c = String "%" (String h1 (String h2 EmptyString))
        /\ Ascii.eqb (lowerChar h1) "2" && Ascii.eqb (lowerChar h2) "e" = false).
Proof.
  intros Hp. each_char c; try discriminate Hp;
    first [ left; split; [reflexivity | split; [reflexivity |
              intros H; first [discriminate H | reflexivity]]]
          | right; eexists; eexists; split; reflexivity ].
Qed.

Lemma lower_app (a b : string) : lower (a ++ b) = lower a ++ lower b.
Proof. induction a as [|c a IH]; simpl; [reflexivity | now rewrite IH]. Qed.

Lemma lower_encodeString_nil (x : string) :
  lower (encodeString x) = EmptyString -> x = EmptyString.
Proof.
  destruct x as [|c x]; [reflexivity|].
  simpl. unfold encodeChar. destruct (inPathPercentEncodeSet c); simpl; discriminate.
Qed.

Lemma singleDot_plain (x : string) :
  allChars plainChar x = true -> isSingleDot (encodeString x) = true -> x = ".".
Proof.
  destruct x as [|c r]; [discriminate|].
  simpl. intros H. apply andb_prop in H as [Hc Hr].
  unfold isSingleDot. rewrite lower_app.
  destruct (encodeChar_shape c Hc) as [(E & Np & Dot) | (h1 & h2 & E & Nh)]; rewrite E; simpl.
  - rewrite Np. simpl. rewrite orb_false_r. intros H.
    apply andb_prop in H as [H1 H2].
    apply String.eqb_eq in H2. apply lower_encodeString_nil in H2.
    now rewrite (Dot H1), H2.
  - destruct (Ascii.eqb (lowerChar h1) "2"), (Ascii.eqb (lowerChar h2) "e");
      simpl in *; try discriminate.
Qed.

Lemma doubleDot_plain (x : string) :
  allChars plainChar x = true -> isDoubleDot (encodeString x) = true -> x = "..".
Proof.
  destruct x as [|c r]; [discriminate|].
  simpl. intros H. apply andb_prop in H as [Hc Hr].
  unfold isDoubleDot. rewrite lower_app.
  destruct (encodeChar_shape c Hc) as [(E & Np & Dot) | (h1 & h2 & E & Nh)]; rewrite E; simpl.
  - rewrite Np. simpl. rewrite !orb_false_r. intros H.
    assert (Hd : Ascii.eqb (lowerChar c) "." = true /\ isSingleDot (encodeString r) = true).
    { unfold isSingleDot. destruct (Ascii.eqb (lowerChar c) "."); simpl in H; [|discriminate].
      split; [reflexivity | exact H]. }
    destruct Hd as [H1 H2].
    now rewrite (Dot H1), (singleDot_plain r Hr H2).
  - destruct (Ascii.eqb (lowerChar h1) "2"), (Ascii.eqb (lowerChar h2) "e");
      simpl in *; try discriminate.
Qed.

Lemma endSegment_plain (x : string) (path : list string) (slash : bool) :
  plainSegment x = true -> endSegment (encodeString x) path slash = (path ++ [encodeString x])%list.
Proof.
  unfold plainSegment. intros H.
  apply andb_prop in H as [H N2]. apply andb_prop in H as [Hp N1].
  unfold endSegment.
  destruct (isDoubleDot (encodeString x)) eqn:D.
  { rewrite (doubleDot_plain x Hp D) in N2. discriminate. }
  destruct (isSingleDot (encodeString x)) eqn:S1.
  { rewrite (singleDot_plain x Hp S1) in N1. discriminate. }
  reflexivity.
Qed.

Lemma pathState_plain (x rest buffer : string) (path : list string) :
  allChars plainChar x = true ->
  pathState (x ++ rest) buffer path = pathState rest (buffer ++ encodeString x) path.
Proof.
  revert buffer. induction x as [|c x IH]; simpl; intros buffer H.
  - now rewrite append_nil_r.
  - apply andb_prop in H as [Hc Hx].
    destruct (plainChar_tests c Hc) as (Q & S1 & _ & _).
    rewrite Q, S1, IH by exact Hx. now rewrite append_assoc.
Qed.

Lemma trimEnd_clean (s : string) : noTrailingBlank s = true -> trimEnd s = s.
Proof.
  induction s as [|c r IH]; [reflexivity|].
  intros H. simpl.
  destruct r as [|d r'].
  - simpl in *. apply negb_true_iff in H. now rewrite H.
  - rewrite IH by exact H. reflexivity.
Qed.

Lemma noTrailingBlank_app (a b : string) :
  b <> EmptyString -> noTrailingBlank b = true -> noTrailingBlank (a ++ b) = true.
Proof.
  intros Hb H. induction a as [|c a IH]; [exact H|].
  simpl. destruct (a ++ b) eqn:E; [|exact IH].
  destruct a; simpl in E; [now elim Hb | discriminate].
Qed.

Lemma pathname_plain (id file : string) :
  id <> EmptyString -> plainSegment id = true -> plainSegment file = true ->
  noTrailingBlank file = true ->
  pathname ("f:/" ++ id ++ "/" ++ file)
  = Some ("/" ++ encodeString id ++ "/" ++ encodeString file).
Proof.
  intros Hne Hid Hfile Hend.
  assert (Pid : allChars plainChar id = true).
  { unfold plainSegment in Hid. apply andb_prop in Hid as [H _].
    now apply andb_prop in H as [H _]. }
  assert (Pfile : allChars plainChar file = true).
  { unfold plainSegment in Hfile. apply andb_prop in Hfile as [H _].
    now apply andb_prop in H as [H _]. }
  assert (Hkeep : forall c, plainChar c = true -> negb (isTabOrNewline c) = true).
  { intros c Hc. destruct (plainChar_tests c Hc) as (_ & _ & _ & T). now rewrite T. }
  set (rest := id ++ "/" ++ file).
  assert (E1 : removeTabNewline (trimEnd (trimStart ("f:/" ++ rest))) = "f:/" ++ rest).
  { replace (trimStart ("f:/" ++ rest)) with ("f:/" ++ rest) by reflexivity.
    rewrite trimEnd_clean.
    - apply filterChars_all. unfold rest.
      rewrite !allChars_app.
      rewrite (allChars_weaken _ _ id Hkeep Pid), (allChars_weaken _ _ file Hkeep Pfile).
      reflexivity.
    - unfold rest. rewrite <- append_assoc.
      apply noTrailingBlank_app; [discriminate|].
      destruct file; [reflexivity | exact Hend]. }
  unfold pathname. fold rest. rewrite E1.
  assert (E2 : pathState rest EmptyString [] = [encodeString id; encodeString file]).
  { unfold rest. rewrite pathState_plain by exact Pid.
    cbn [pathState append Ascii.eqb Bool.eqb orb].
    rewrite endSegment_plain by exact Hid.
    rewrite <- (append_nil_r file) at 1.
    rewrite pathState_plain by exact Pfile.
    cbn [pathState append]. now rewrite endSegment_plain by exact Hfile. }
  cbn [append]. unfold rest at 1.
  destruct id as [|c id']; [now elim Hne|].
  cbn [append].
  simpl in Pid. apply andb_prop in Pid as [Hc _].
  destruct (plainChar_tests c Hc) as (_ & S1 & _ & _). rewrite S1.
  fold (String c id' ++ "/" ++ file). fold rest. rewrite E2.
  cbn [serializePath append]. now rewrite append_nil_r.
Qed.

End UrlProperties.

(** ** The path when the job id leaves no authority *)

Section WithoutAuthority.

Import Url.

Lemma filterChars_app (p : ascii -> bool) (a b : string) :
  filterChars p (a ++ b) = filterChars p a ++ filterChars p b.
Proof.
  induction a as [|c a IH]; [reflexivity|].
  cbn [append filterChars]. destruct (p c); cbn [append]; now rewrite IH.
Qed.

Lemma trimEnd_app (a b : string) :
  trimEnd b <> EmptyString -> trimEnd (a ++ b) = a ++ trimEnd b.
Proof.
  intros Hb. induction a as [|c a IH]; [reflexivity|].
  cbn [append trimEnd]. rewrite IH.
  destruct (a ++ trimEnd b) eqn:E; [|reflexivity].
  destruct a; cbn [append] in E; [now elim Hb | discriminate E].
Qed.

Lemma trimEnd_slash (s : string) : trimEnd (String "/" s) = String "/" (trimEnd s).
Proof. cbn [trimEnd]. now destruct (trimEnd s). Qed.

(** The parser reaches the path state for the job ids of [hasNoAuthority],
    whatever the file name. *)
Lemma pathname_defined (id file : string) :
  hasNoAuthority id = true ->
  exists p, pathname ("f:/" ++ id ++ "/" ++ file) = Some p.
Proof.
  unfold hasNoAuthority. intros H.
  destruct (removeTabNewline id) as [|c r] eqn:E; [discriminate|].
  apply negb_true_iff in H.
  assert (T : removeTabNewline (trimEnd (trimStart ("f:/" ++ id ++ "/" ++ file)))
              = "f:/" ++ String c (r ++ removeTabNewline (String "/" (trimEnd file)))).
  { replace (trimStart ("f:/" ++ id ++ "/" ++ file)) with ("f:/" ++ id ++ "/" ++ file)
      by reflexivity.
    rewrite <- (append_assoc "f:/" id ("/" ++ file)).
    change ("/" ++ file) with (String "/" file).
    rewrite trimEnd_app by (rewrite trimEnd_slash; discriminate).
    rewrite trimEnd_slash. unfold removeTabNewline in *.
    rewrite !filterChars_app, E. reflexivity. }
  unfold pathname. rewrite T. cbn [append]. rewrite H. eauto.
Qed.

End WithoutAuthority.

(** ** Names with several segments *)

Section NamesWithSegments.

Import Url.

Ltac char_cases c := destruct c as [[|] [|] [|] [|] [|] [|] [|] [|]].

Lemma nameChar_tests (c : ascii) :
  nameChar c = true ->
  Ascii.eqb c "?" || Ascii.eqb c "#" = false
  /\ Ascii.eqb c "%" = false
  /\ isTabOrNewline c = false
  /\ (Ascii.eqb c "/" = false -> plainChar c = true).
Proof.
  intros H. char_cases c; try discriminate H; repeat split;
    first [reflexivity | intros K; discriminate K].
Qed.

Lemma encodeString_app (a b : string) :
  encodeString (a ++ b) = encodeString a ++ encodeString b.
Proof.
  induction a as [|c a IH]; [reflexivity|].
  cbn [append encodeString]. now rewrite IH, append_assoc.
Qed.

Lemma allChars_snoc (p : ascii -> bool) (s : string) (c : ascii) :
  allChars p s = true -> p c = true -> allChars p (s ++ String c EmptyString) = true.
Proof. intros Hs Hc. rewrite allChars_app, Hs. cbn [allChars]. now rewrite Hc. Qed.

Lemma segmentsFrom_app (cur a b : string) :
  segmentsFrom cur (a ++ String "/" b)
  = (segmentsFrom cur a ++ segmentsFrom EmptyString b)%list.
Proof.
  revert cur. induction a as [|c a IH]; intros cur; [reflexivity|].
  cbn [append segmentsFrom].
  destruct (Ascii.eqb c "/"); [now rewrite IH | apply IH].
Qed.

Lemma plainSegment_notDot (x : string) :
  allChars plainChar x = true -> notDotSegment x = true -> plainSegment x = true.
Proof.
  unfold plainSegment, notDotSegment. intros Hx Hd.
  apply andb_prop in Hd as [H1 H2]. now rewrite Hx, H1, H2.
Qed.

Lemma pathState_segments (s cur : string) (path : list string) :
  allChars nameChar s = true -> allChars plainChar cur = true ->
  forallb notDotSegment (segmentsFrom cur s) = true ->
  pathState s (encodeString cur) path
  = (path ++ map encodeString (segmentsFrom cur s))%list.
Proof.
  revert cur path. induction s as [|c s IH]; intros cur path Hs Hcur Hd.
  - cbn [segmentsFrom forallb] in Hd. rewrite andb_true_r in Hd.
    cbn [pathState segmentsFrom map]. apply endSegment_plain.
    now apply plainSegment_notDot.
  - cbn [allChars] in Hs. apply andb_prop in Hs as [Hc Hs].
    destruct (nameChar_tests c Hc) as (Q & _ & _ & P).
    cbn [pathState segmentsFrom] in *. rewrite Q.
    destruct (Ascii.eqb c "/") eqn:Sl.
    + cbn [forallb] in Hd. apply andb_prop in Hd as [Hd1 Hd2].
      rewrite endSegment_plain by (now apply plainSegment_notDot).
      change EmptyString with (encodeString EmptyString).
      rewrite (IH EmptyString _ Hs eq_refl Hd2).
      cbn [map]. now rewrite <- app_assoc.
    + replace (encodeString cur ++ encodeChar c)
        with (encodeString (cur ++ String c EmptyString))
        by (rewrite encodeString_app; cbn [encodeString]; now rewrite append_nil_r).
      apply IH; [exact Hs | | exact Hd].
      apply allChars_snoc; [exact Hcur | now apply P].
Qed.

Lemma serializePath_segments (s cur : string) :
  serializePath (map encodeString (segmentsFrom cur s))
  = "/" ++ encodeString cur ++ encodeString s.
Proof.
  revert cur. induction s as [|c s IH]; intros cur.
  - cbn [segmentsFrom map serializePath encodeString append].
    now rewrite !append_nil_r.
  - cbn [segmentsFrom]. destruct (Ascii.eqb c "/") eqn:Sl.
    + apply Ascii.eqb_eq in Sl. subst c.
      cbn [map serializePath]. rewrite IH.
      cbn [encodeString append]. reflexivity.
    + rewrite IH, encodeString_app. cbn [encodeString].
      rewrite append_nil_r, append_assoc. reflexivity.
Qed.

Lemma decode_encodeName (x s : string) :
  allChars nameChar x = true ->
  percentDecode (encodeString x ++ s) = x ++ percentDecode s.
Proof.
  induction x as [|c x IH]; simpl; intros H; [reflexivity|].
  apply andb_prop in H as [Hc Hx].
  destruct (nameChar_tests c Hc) as (_ & Np & _).
  rewrite append_assoc, decode_encodeChar by exact Np.
  now rewrite IH.
Qed.

Lemma hasNoAuthority_head (id : string) :
  hasNoAuthority id = true -> allChars nameChar id = true ->
  exists c r, id = String c r /\ Ascii.eqb c "/" = false.
Proof.
  intros H N. unfold hasNoAuthority, removeTabNewline in H.
  rewrite filterChars_all in H.
  - destruct id as [|c r]; [discriminate|].
    exists c, r. split; [reflexivity|]. now apply negb_true_iff.
  - apply (allChars_weaken nameChar); [|exact N].
    intros c Hc. destruct (nameChar_tests c Hc) as (_ & _ & T & _). now rewrite T.
Qed.

Lemma pathname_name (id file : string) :
  hasNoAuthority id = true -> plainName id = true -> plainName file = true ->
  noTrailingBlank file = true ->
  pathname ("f:/" ++ id ++ "/" ++ file)
  = Some ("/" ++ encodeString (id ++ "/" ++ file)).
Proof.
  intros Ha Hid Hfile Hend.
  unfold plainName in Hid, Hfile.
  apply andb_prop in Hid as [Nid Did]. apply andb_prop in Hfile as [Nfile Dfile].
  destruct (hasNoAuthority_head id Ha Nid) as (c & id' & Eid & Sl).
  set (rest := id ++ "/" ++ file).
  assert (Nrest : allChars nameChar rest = true).
  { unfold rest. rewrite !allChars_app, Nid, Nfile. reflexivity. }
  assert (Hkeep : forall c, nameChar c = true -> negb (isTabOrNewline c) = true).
  { intros c0 Hc. destruct (nameChar_tests c0 Hc) as (_ & _ & T & _). now rewrite T. }
  assert (E1 : removeTabNewline (trimEnd (trimStart ("f:/" ++ rest))) = "f:/" ++ rest).
  { replace (trimStart ("f:/" ++ rest)) with ("f:/" ++ rest) by reflexivity.
    rewrite trimEnd_clean.
    - apply filterChars_all.
      change (allChars (fun c => negb (isTabOrNewline c)) ("f:/" ++ rest) = true).
      rewrite allChars_app, (allChars_weaken _ _ rest Hkeep Nrest). reflexivity.
    - unfold rest. rewrite <- append_assoc.
      apply noTrailingBlank_app; [discriminate|].
      destruct file; [reflexivity | exact Hend]. }
  assert (E2 : pathState rest EmptyString []
               = map encodeString (segmentsFrom EmptyString rest)).
  { change (pathState rest EmptyString [])
      with (pathState rest (encodeString EmptyString) []).
    rewrite pathState_segments; [reflexivity | exact Nrest | reflexivity |].
    unfold rest. change (id ++ "/" ++ file) with (id ++ String "/" file).
    rewrite segmentsFrom_app, forallb_app.
    unfold segments in Did, Dfile. now rewrite Did, Dfile. }
  unfold pathname. rewrite E1. cbn [append].
  assert (E3 : rest = String c (id' ++ "/" ++ file)) by (unfold rest; now rewrite Eid).
  rewrite E3 at 1. rewrite Sl.
  rewrite E2, serializePath_segments. reflexivity.
Qed.

End NamesWithSegments.

(** C7 fails on the code: the name [Test App ß#1.exe] has spaces and a
    non-ASCII character (ß is the bytes 195 159), and the path built for it
    does not decode to it.  [new URL] reads the name as URL text, so its
    [#] starts a fragment and the path has lost the end of the name,
    although line 209 says the URL is there to encode the path properly. *)
Lemma download_path_loses_fragment :
  let eszett := String "195" (String "159" EmptyString) in
  let file := "Test App " ++ eszett ++ "#1.exe" in
  downloadPath "job1" file = Some "/v1/download/job1/Test%20App%20%C3%9F"
  /\ option_map Url.percentDecode (downloadPath "job1" file)
     = Some ("/v1/download/job1/Test App " ++ eszett)
  /\ option_map Url.percentDecode (downloadPath "job1" file)
     <> Some ("/v1/download/job1/" ++ file).
Proof. split; [reflexivity | split; [reflexivity | discriminate]]. Qed.

(** ** The state machine *)

(** ** Promises and lists *)

Lemma resolveP_settled (p : Promise) (v : option StatusData) :
  settled p = true -> resolveP p v = p.
Proof. now destruct p. Qed.

Lemma rejectP_settled (p : Promise) (e : JsError) :
  settled p = true -> rejectP p e = p.
Proof. now destruct p. Qed.

Lemma settled_resolveP (p : Promise) (v : option StatusData) : settled (resolveP p v) = true.
Proof. now destruct p. Qed.

Lemma settled_rejectP (p : Promise) (e : JsError) : settled (rejectP p e) = true.
Proof. now destruct p. Qed.

Lemma checkStatus_eq (status : nat) (s : Manager) :
  checkStatus status s
  = (status =? HTTP_STATUS_OK,
     if status =? HTTP_STATUS_OK then s else watchReject (HttpError status None) s).
Proof. unfold checkStatus. now destruct (status =? HTTP_STATUS_OK). Qed.

Lemma Manager_ext (s t : Manager) :
  files s = files t -> finishedStreamCount s = finishedStreamCount t ->
  handled s = handled t -> job s = job t -> finallyRan s = finallyRan t ->
  destroyCalls s = destroyCalls t -> closeArmed s = closeArmed t ->
  timeoutArmed s = timeoutArmed t -> requests s = requests t ->
  uploadStream s = uploadStream t -> pipeline s = pipeline t -> spawned s = spawned t ->
  timer s = timer t -> jobId s = jobId t -> watch s = watch t -> chained s = chained t ->
  resolveCalls s = resolveCalls t -> statusStream s = statusStream t ->
  downloads s = downloads t -> logs s = logs t -> dispatched s = dispatched t ->
  disk s = disk t -> uncaught s = uncaught t -> s = t.
Proof. destruct s, t; simpl; intros; subst; reflexivity. Qed.

(** The loop of [statusEvent] in closed form. *)
Lemma downloadAll_eq (cfg : Config) (id : string) (l : list ArtifactInfo) (s : Manager) :
  downloadAll cfg id l s
  = set_logs (logs s ++ map (fun a => ("Downloading " ++ file a)%string) l)%list
      (set_requests (requests s ++ map (fun a => Get (downloadPath id (file a))) l)%list
         (set_downloads (downloads s ++ map (newDownload cfg) l)%list s)).
Proof.
  revert s. induction l as [|a l IH]; intros s.
  - apply Manager_ext; simpl; rewrite ?app_nil_r; reflexivity.
  - simpl downloadAll. rewrite IH.
    apply Manager_ext; simpl; rewrite <- ?app_assoc; reflexivity.
Qed.

(** One tactic for the state after a handler: the handlers that only
    assign fields are unfolded, projections are computed. *)
Ltac state_simpl :=
  unfold listenEvents, startPipeline, downloadEnd, fileWritten in *;
  unfold jobReject, jobResolve, watchReject, watchResolve, throw, log, request,
    setDownload in *;
  rewrite ?downloadAll_eq in *;
  cbn [files finishedStreamCount handled job finallyRan destroyCalls closeArmed
       timeoutArmed requests uploadStream pipeline spawned timer jobId watch chained
       resolveCalls statusStream downloads logs dispatched disk uncaught
       set_files set_finishedStreamCount set_handled set_job set_finallyRan
       set_destroyCalls set_closeArmed set_timeoutArmed set_requests set_uploadStream
       set_pipeline set_spawned set_timer set_jobId set_watch set_chained
       set_resolveCalls set_statusStream set_downloads set_logs set_dispatched
       set_disk set_uncaught] in *.

Ltac inv_some :=
  match goal with
  | H : Some _ = Some _ |- _ => injection H as <-
  | H : None = Some _ |- _ => discriminate H
  end.

Ltac inv_checkStatus :=
  match goal with
  | H : checkStatus _ _ = (_, _) |- _ =>
      rewrite checkStatus_eq in H; injection H as ? ?; subst
  end;
  repeat match goal with
         | H : (?a =? ?b) = _ |- context [?a =? ?b] => rewrite H
         end.

(** *** What an event can do to the two promises and to the session *)

Definition rejectedOrSame (p p' : Promise) : Prop :=
  p' = p \/ exists e, p' = rejectP p e.

Definition settledOrSame (p p' : Promise) : Prop :=
  p' = p \/ (exists e, p' = rejectP p e) \/ (exists v, p' = resolveP p v).

(** The effect of every handler but the two promise callbacks. *)
Definition plainEffect (s s' : Manager) : Prop :=
  destroyCalls s' = destroyCalls s /\ finallyRan s' = finallyRan s
  /\ chained s' = chained s /\ handled s' = handled s
  /\ rejectedOrSame (job s) (job s') /\ settledOrSame (watch s) (watch s').

Ltac solve_plainEffect :=
  unfold plainEffect, rejectedOrSame, settledOrSame; state_simpl;
  repeat split;
  first [ reflexivity
        | left; reflexivity
        | right; eexists; reflexivity
        | right; left; eexists; reflexivity
        | right; right; eexists; reflexivity ].

Lemma stepDownload_plainEffect (i : nat) (ev : Event) (d : Download) (s s' : Manager) :
  stepDownload i ev d s = Some s' -> plainEffect s s'.
Proof.
  apply stepDownload_cases; intros; try discriminate; inv_some;
    unfold downloadResponse; rewrite ?checkStatus_eq; state_simpl;
    repeat match goal with
           | |- context [match ?x with _ => _ end] => destruct x
           end; solve_plainEffect.
Qed.

Lemma uploadEnd_plainEffect (status : nat) (data : string) (s s' : Manager) :
  uploadEnd status data s = Some s' -> plainEffect s s'.
Proof.
  apply uploadEnd_cases; intros; try discriminate; inv_some; solve_plainEffect.
Qed.

Lemma statusEvent_plainEffect (cfg : Config) (id : string) (data : StatusData) (s : Manager) :
  plainEffect s (statusEvent cfg id data s).
Proof. apply statusEvent_cases; intros; solve_plainEffect. Qed.

Lemma step_effect (cfg : Config) (s : Manager) (ev : Event) (s' : Manager) :
  step cfg s ev = Some s' ->
  (ev = JobFinally /\ settled (job s) = true /\ finallyRan s = false
   /\ finallyRan s' = true /\ destroyCalls s' = S (destroyCalls s)
   /\ job s' = job s /\ watch s' = watch s
   /\ chained s' = chained s /\ handled s' = handled s)
  \/ (ev = WatchSettled /\ chained s = false /\ chained s' = true
      /\ watch s' = watch s
      /\ destroyCalls s' = destroyCalls s /\ finallyRan s' = finallyRan s
      /\ ((exists v, watch s = Fulfilled v /\ handled s' = true
                      /\ job s' = resolveP (job s) v)
          \/ (exists e, watch s = Rejected e /\ handled s' = handled s
                        /\ job s' = rejectP (job s) e)))
  \/ plainEffect s s'.
Proof.
  apply step_cases; intros; try discriminate.
  all: try (right; right; eapply stepDownload_plainEffect; eassumption).
  all: try (right; right; eapply uploadEnd_plainEffect; eassumption).
  all: inv_some; try inv_checkStatus.
  all: try (right; right; apply statusEvent_plainEffect).
  all: try (right; right; solve_plainEffect).
  - (* JobFinally *)
    left. match goal with H : _ && _ = true |- _ => apply andb_prop in H as [H1 H2] end.
    apply negb_true_iff in H2. state_simpl. repeat split; assumption || reflexivity.
  - (* WatchSettled, fulfilled *)
    right; left. state_simpl. repeat split; try assumption; try reflexivity.
    left. eexists. repeat split; first [eassumption | reflexivity].
  - (* WatchSettled, rejected *)
    right; left. state_simpl. repeat split; try assumption; try reflexivity.
    right. eexists. repeat split; first [eassumption | reflexivity].
Qed.

(** *** The invariant *)

Lemma step_job_settled (cfg : Config) (s : Manager) (ev : Event) (s' : Manager) :
  step cfg s ev = Some s' -> settled (job s) = true -> job s' = job s.
Proof.
  intros H Hs. destruct (step_effect cfg s ev s' H) as [E | [E | E]].
  - tauto.
  - destruct E as (_ & _ & _ & _ & _ & _ & [(v & _ & _ & ->) | (e & _ & _ & ->)]).
    + now apply resolveP_settled.
    + now apply rejectP_settled.
  - destruct E as (_ & _ & _ & _ & [-> | [e ->]] & _); [reflexivity|].
    now apply rejectP_settled.
Qed.

Lemma step_SessionOk (cfg : Config) (s : Manager) (ev : Event) (s' : Manager) :
  step cfg s ev = Some s' -> SessionOk s -> SessionOk s'.
Proof.
  intros H [D F]. unfold SessionOk.
  destruct (step_effect cfg s ev s' H) as [E | [E | E]].
  - destruct E as (_ & Hs & F0 & -> & -> & -> & _).
    rewrite D, F0. split; [reflexivity | intros _; exact Hs].
  - destruct E as (_ & _ & _ & _ & -> & -> & J).
    split; [exact D|]. intros Hf. specialize (F Hf).
    destruct J as [(v & _ & _ & ->) | (e & _ & _ & ->)];
      [now rewrite resolveP_settled | now rewrite rejectP_settled].
  - destruct E as (-> & -> & _ & _ & J & _).
    split; [exact D|]. intros Hf. specialize (F Hf).
    destruct J as [-> | [e ->]]; [exact F | now rewrite rejectP_settled].
Qed.

Lemma rejectP_fulfilled (p : Promise) (e : JsError) (v : option StatusData) :
  rejectP p e = Fulfilled v -> p = Fulfilled v.
Proof. destruct p; simpl; congruence. Qed.

Lemma step_ChainOk (cfg : Config) (s : Manager) (ev : Event) (s' : Manager) :
  step cfg s ev = Some s' -> ChainOk s -> ChainOk s'.
Proof.
  intros H (C & Hd & J). unfold ChainOk.
  destruct (step_effect cfg s ev s' H) as [E | [E | E]].
  - destruct E as (_ & _ & _ & _ & _ & -> & -> & -> & ->). auto.
  - destruct E as (_ & C0 & -> & -> & _ & _ & K).
    destruct K as [(v & W & -> & ->) | (e & W & -> & ->)]; rewrite W.
    + split; [reflexivity|]. split; [intros _; apply settled_resolveP|].
      intros v0 Hj. destruct (job s) eqn:Ej; simpl in Hj.
      * injection Hj as <-. auto.
      * destruct (J _ eq_refl) as (_ & C1 & _). congruence.
      * discriminate.
    + split; [reflexivity|]. split.
      * intros Hh. rewrite rejectP_settled; auto.
      * intros v0 Hj. apply rejectP_fulfilled in Hj.
        destruct (J _ Hj) as (_ & C1 & _). congruence.
  - destruct E as (_ & _ & -> & -> & Jb & W).
    assert (Ws : settled (watch s) = true -> watch s' = watch s).
    { intros Hw. destruct W as [-> | [[e ->] | [v ->]]];
        [reflexivity | now apply rejectP_settled | now apply resolveP_settled]. }
    assert (Js : forall v, job s' = Fulfilled v -> job s = Fulfilled v).
    { intros v Hj. destruct Jb as [<- | [e E]]; [assumption|].
      rewrite E in Hj. now apply rejectP_fulfilled in Hj. }
    split; [|split].
    + intros Hc. rewrite Ws; auto.
    + intros Hh. specialize (Hd Hh).
      destruct Jb as [-> | [e ->]]; [exact Hd | now rewrite rejectP_settled].
    + intros v Hj. destruct (J _ (Js _ Hj)) as (Wv & C1 & H1).
      rewrite Ws; [auto | now rewrite Wv].
Qed.

(** *** Lists of downloads *)

Lemma map_replaceAt {A B : Type} (f : A -> B) (i : nat) (d d' : A) (l : list A) :
  nth_error l i = Some d -> f d' = f d -> map f (replaceAt i d' l) = map f l.
Proof.
  revert i. induction l as [|x l IH]; intros [|i] H E; simpl in *; try discriminate.
  - injection H as ->. now rewrite E.
  - now rewrite (IH i H E).
Qed.

Lemma Forall_replaceAt {A : Type} (P : A -> Prop) (i : nat) (d' : A) (l : list A) :
  Forall P l -> P d' -> Forall P (replaceAt i d' l).
Proof.
  revert i. induction l as [|x l IH]; intros i H Hd; [destruct i; constructor|].
  inversion H; subst. destruct i; simpl; constructor; auto.
Qed.

Lemma nth_error_replaceAt {A : Type} (i : nat) (d d' : A) (l : list A) :
  nth_error l i = Some d -> nth_error (replaceAt i d' l) i = Some d'.
Proof.
  revert i. induction l as [|x l IH]; intros [|i] H; simpl in *; try discriminate; auto.
Qed.

Lemma doneCount_replaceAt_same (i : nat) (d d' : Download) (l : list Download) :
  nth_error l i = Some d -> isDone d' = isDone d ->
  doneCount (replaceAt i d' l) = doneCount l.
Proof.
  unfold doneCount.
  revert i. induction l as [|x l IH]; intros [|i] H E; simpl in *; try discriminate.
  - injection H as ->. rewrite E. now destruct (isDone d).
  - specialize (IH i H E). destruct (isDone x); simpl; congruence.
Qed.

Lemma doneCount_replaceAt_done (i : nat) (d d' : Download) (l : list Download) :
  nth_error l i = Some d -> isDone d = false -> isDone d' = true ->
  doneCount (replaceAt i d' l) = S (doneCount l).
Proof.
  unfold doneCount.
  revert i. induction l as [|x l IH]; intros [|i] H E E'; simpl in *; try discriminate.
  - injection H as ->. now rewrite E, E'.
  - specialize (IH i H E E'). destruct (isDone x); simpl; congruence.
Qed.

Lemma doneCount_le (l : list Download) : doneCount l <= List.length l.
Proof. unfold doneCount. apply filter_length_le. Qed.

Lemma doneCount_new (cfg : Config) (l : list ArtifactInfo) :
  doneCount (map (newDownload cfg) l) = 0.
Proof. unfold doneCount. induction l; simpl; auto. Qed.

Lemma map_artifact_new (cfg : Config) (l : list ArtifactInfo) :
  map artifact (map (newDownload cfg) l) = l.
Proof. induction l as [|a l IH]; simpl; [reflexivity | now rewrite IH]. Qed.

Lemma Forall_RecordOk_new (cfg : Config) (l : list ArtifactInfo) :
  Forall (RecordOk cfg) (map (newDownload cfg) l).
Proof.
  induction l as [|a l IH]; simpl; constructor; auto.
  split; reflexivity.
Qed.

Lemma replaceAt_length {A : Type} (i : nat) (x : A) (l : list A) :
  List.length (replaceAt i x l) = List.length l.
Proof. revert i. induction l; intros [|i]; simpl; auto. Qed.

(** The arithmetic of [fileWritten]: with [count] finished downloads out
    of the [n] of the manifest and one more finishing, [resolve] is called
    exactly when the last one finishes. *)
Lemma expectedResolveCalls_step (l : list ArtifactInfo) (count : nat) :
  S count <= List.length l ->
  expectedResolveCalls l count = 0
  /\ expectedResolveCalls l (S count)
     = (if List.length l <=? S count then 1 else 0).
Proof.
  intros Hle. unfold expectedResolveCalls.
  destruct l as [|a l]; [simpl in Hle; lia|].
  destruct (count =? List.length (a :: l)) eqn:E1;
    [apply Nat.eqb_eq in E1; lia|].
  split; [reflexivity|].
  destruct (S count =? List.length (a :: l)) eqn:E2,
           (List.length (a :: l) <=? S count) eqn:E3; try reflexivity.
  - apply Nat.eqb_eq in E2. apply Nat.leb_gt in E3. lia.
  - apply Nat.eqb_neq in E2. apply Nat.leb_le in E3. lia.
Qed.

Lemma PhaseOk_frame (s s' : Manager) :
  uploadStream s' = uploadStream s -> timer s' = timer s ->
  statusStream s' = statusStream s -> jobId s' = jobId s ->
  statusStream s = StDestroyed ->
  PhaseOk s -> PhaseOk s'.
Proof.
  unfold PhaseOk. intros -> -> -> -> E. rewrite E. auto.
Qed.

Lemma DownloadsOk_started (s : Manager) (i : nat) (d : Download) :
  nth_error (downloads s) i = Some d -> PhaseOk s -> DownloadsOk s ->
  statusStream s = StDestroyed /\ exists l, files s = Some l.
Proof.
  intros Hn (_ & _ & P) D. unfold DownloadsOk in D.
  destruct (files s) as [l|] eqn:F.
  - split; [|now exists l].
    destruct (statusStream s); try reflexivity; exfalso; intuition congruence.
  - destruct D as [D _]. rewrite D in Hn. destruct i; discriminate.
Qed.

(** A step of a download that does not finish it. *)
Lemma DownloadsOk_update (s s' : Manager) :
  files s' = files s -> finishedStreamCount s' = finishedStreamCount s ->
  resolveCalls s' = resolveCalls s ->
  map artifact (downloads s') = map artifact (downloads s) ->
  doneCount (downloads s') = doneCount (downloads s) ->
  rejectedOrSame (watch s) (watch s') ->
  (exists l, files s = Some l) ->
  DownloadsOk s -> DownloadsOk s'.
Proof.
  unfold DownloadsOk. intros -> -> -> -> -> W [l F]. rewrite F.
  intros (M & C & R & K).
  split; [exact M|]. split; [exact C|]. split; [exact R|].
  intros v Hw. apply K.
  destruct W as [E | [e E]]; rewrite E in Hw;
    [exact Hw | now apply rejectP_fulfilled in Hw].
Qed.

(** The step that finishes a download: [fileWritten]. *)
Lemma DownloadsOk_finish (s s' : Manager) (l : list ArtifactInfo) :
  files s = Some l -> files s' = files s ->
  finishedStreamCount s' = S (finishedStreamCount s) ->
  map artifact (downloads s') = map artifact (downloads s) ->
  doneCount (downloads s') = S (doneCount (downloads s)) ->
  (if List.length l <=? S (finishedStreamCount s)
   then resolveCalls s' = S (resolveCalls s) /\ watch s' = resolveP (watch s) None
   else resolveCalls s' = resolveCalls s /\ watch s' = watch s) ->
  DownloadsOk s -> DownloadsOk s'.
Proof.
  unfold DownloadsOk. intros F -> -> EM ED HR. rewrite F.
  intros (M & C & R & K).
  assert (Hle : S (finishedStreamCount s) <= List.length l).
  { rewrite C, <- ED, <- M, <- EM, length_map. apply doneCount_le. }
  destruct (expectedResolveCalls_step l _ Hle) as [R0 R1].
  assert (Hnot : forall v, watch s <> Fulfilled v).
  { intros v Hw. destruct (K _ Hw) as (_ & Hc & _). lia. }
  rewrite EM, ED, R1. split; [exact M|]. split; [now rewrite C|].
  destruct (List.length l <=? S (finishedStreamCount s)) eqn:E.
  - destruct HR as [-> ->]. split; [now rewrite R, R0|].
    intros v Hw. apply Nat.leb_le in E.
    destruct (watch s) eqn:Ew; simpl in Hw.
    + injection Hw as <-. repeat split; [lia|].
      intros ->. simpl in Hle. lia.
    + now elim (Hnot result).
    + discriminate.
  - destruct HR as [-> ->]. split; [now rewrite R, R0|].
    intros v Hw. now elim (Hnot v).
Qed.

Lemma replaceAt_same {A : Type} (i : nat) (d : A) (l : list A) :
  nth_error l i = Some d -> replaceAt i d l = l.
Proof.
  revert i. induction l as [|x l IH]; intros [|i] H; simpl in *; try discriminate.
  - now injection H as ->.
  - now rewrite IH.
Qed.

Lemma RecordOk_nth (cfg : Config) (l : list Download) (i : nat) (d : Download) :
  Forall (RecordOk cfg) l -> nth_error l i = Some d -> RecordOk cfg d.
Proof.
  intros F H. rewrite Forall_forall in F. apply F. eapply nth_error_In; eauto.
Qed.

(** [fileWritten], field by field. *)
Lemma fileWritten_fields (d : Download) (s : Manager) (l : list ArtifactInfo) :
  files s = Some l ->
  files (fileWritten d s) = files s
  /\ finishedStreamCount (fileWritten d s) = S (finishedStreamCount s)
  /\ downloads (fileWritten d s) = downloads s
  /\ dispatched (fileWritten d s) = (dispatched s ++ [artifactCreatedEvent d])%list
  /\ disk (fileWritten d s) = disk s
  /\ job (fileWritten d s) = job s
  /\ (if List.length l <=? S (finishedStreamCount s)
      then resolveCalls (fileWritten d s) = S (resolveCalls s)
           /\ watch (fileWritten d s) = resolveP (watch s) None
      else resolveCalls (fileWritten d s) = resolveCalls s
           /\ watch (fileWritten d s) = watch s).
Proof.
  intros F. unfold fileWritten. state_simpl. rewrite F.
  destruct (List.length l <=? S (finishedStreamCount s)); state_simpl;
    repeat split; first [reflexivity | assumption].
Qed.

Ltac solve_list_premise :=
  state_simpl;
  first [ reflexivity
        | eapply map_replaceAt; [eassumption | reflexivity]
        | eapply doneCount_replaceAt_same; [eassumption | unfold isDone; simpl;
            match goal with H : dlState _ = _ |- _ => rewrite H end; reflexivity]
        | eapply doneCount_replaceAt_done; [eassumption | unfold isDone;
            match goal with H : dlState _ = _ |- _ => rewrite H end; reflexivity
            | reflexivity ]
        | left; reflexivity
        | right; eexists; reflexivity ].

Lemma stepDownload_Inv (cfg : Config) (i : nat) (ev : Event) (d : Download)
      (s s' : Manager) :
  stepDownload i ev d s = Some s' ->
  nth_error (downloads s) i = Some d ->
  PhaseOk s -> DownloadsOk s -> Forall (RecordOk cfg) (downloads s) ->
  PhaseOk s' /\ DownloadsOk s' /\ Forall (RecordOk cfg) (downloads s').
Proof.
  revert s'. apply stepDownload_cases; clear ev d s; intros; try discriminate; inv_some;
    match goal with
    | Hn : nth_error (downloads ?s) i = Some ?d, P : PhaseOk ?s, D : DownloadsOk ?s,
      R : Forall _ _ |- _ =>
        destruct (DownloadsOk_started s i d Hn P D) as [Es [l F]];
        pose proof (RecordOk_nth cfg _ _ _ R Hn) as [Rl Re]
    end;
    unfold downloadResponse; rewrite ?checkStatus_eq.
  all: split; [eapply PhaseOk_frame; [| | | | exact Es | eassumption]; state_simpl;
                 repeat match goal with
                        | |- context [match ?x with _ => _ end] => destruct x
                        end; reflexivity |].
  all: repeat match goal with x := _ |- _ => subst x end.
  all: try (destruct (status =? HTTP_STATUS_OK); [destruct (isMetadataFile _)|]).
  all: split.
  (* the records *)
  all: try (match goal with |- Forall _ _ => idtac end;
            unfold fileWritten; state_simpl; rewrite ?F;
            try destruct (List.length l <=? _); state_simpl;
            first [ assumption
                  | apply Forall_replaceAt; [assumption|];
                    split; [exact Rl|]; cbn;
                    repeat match goal with
                           | H : dlState _ = _ |- _ => rewrite H in Re; clear H
                           end;
                    first [exact I | exact Re | rewrite Re; reflexivity] ]).
  (* the counter *)
  all: try (match goal with
            | D : DownloadsOk ?s |- _ =>
                eapply (DownloadsOk_update s);
                [ solve_list_premise | solve_list_premise | solve_list_premise
                | solve_list_premise | solve_list_premise | solve_list_premise
                | eexists; eassumption | eassumption ]
            end).
  all: match goal with
       | D : DownloadsOk ?s |- DownloadsOk (fileWritten ?d ?t) =>
           destruct (fileWritten_fields d t l F) as (E1 & E2 & E3 & _ & _ & _ & E4);
           eapply (DownloadsOk_finish s _ l); [ exact F | | | | | | eassumption ];
           rewrite ?E1, ?E2, ?E3; try exact E4; solve_list_premise
       end.
Qed.

Ltac solve_phase s :=
  unfold PhaseOk, DownloadsOk in *; state_simpl;
  destruct (statusStream s) eqn:?; destruct (files s) eqn:?;
  repeat match goal with
         | H : _ /\ _ |- _ => destruct H
         end;
  repeat split; intros; subst; try congruence; try assumption;
  try (match goal with H : _ -> _ /\ _ |- _ => destruct H; congruence end).

Lemma uploadEnd_Inv (cfg : Config) (status : nat) (data : string) (s s' : Manager) :
  uploadEnd status data s = Some s' ->
  uploadStream s = UpReceiving status data ->
  PhaseOk s -> DownloadsOk s -> Forall (RecordOk cfg) (downloads s) ->
  PhaseOk s' /\ DownloadsOk s' /\ Forall (RecordOk cfg) (downloads s').
Proof.
  revert s'. apply uploadEnd_cases; intros; try discriminate; inv_some;
    repeat match goal with x := _ |- _ => subst x end.
  all: match goal with P : PhaseOk ?s |- _ =>
         assert (Hu : uploadStream s <> UpEnded) by congruence;
         pose proof P as (P1 & P2 & P3); destruct (P1 Hu) as [T0 S0]; rewrite S0 in P3
       end.
  all: split; [|split; [|state_simpl; assumption]].
  all: try (unfold PhaseOk; state_simpl; rewrite S0;
            repeat split; intros; try congruence; try tauto).
  all: try (unfold DownloadsOk in *; state_simpl; assumption).
Qed.

Lemma PhaseOk_later (s : Manager) :
  PhaseOk s -> statusStream s <> StNotOpened ->
  uploadStream s = UpEnded /\ timer s = None.
Proof.
  intros (P1 & P2 & _) N. split.
  - destruct (uploadStream s) eqn:E; try reflexivity;
      (assert (H : uploadStream s <> UpEnded) by congruence; rewrite <- E in P1;
       destruct (P1 H); contradiction).
  - destruct (timer s) as [id|] eqn:E; [|reflexivity].
    now elim N; apply (P2 id).
Qed.

Ltac solve_PhaseOk :=
  match goal with
  | |- PhaseOk _ =>
      unfold PhaseOk; state_simpl;
      repeat match goal with
             | H : statusStream _ = _ |- _ => rewrite H
             | H : uploadStream _ = _ |- _ => rewrite H
             | H : timer _ = _ |- _ => rewrite H
             end;
      repeat split; intros; try congruence; try tauto
  end.

Lemma statusEvent_Inv (cfg : Config) (id : string) (data : StatusData) (s : Manager) :
  statusStream s = StWatching ->
  PhaseOk s -> DownloadsOk s -> Forall (RecordOk cfg) (downloads s) ->
  PhaseOk (statusEvent cfg id data s)
  /\ DownloadsOk (statusEvent cfg id data s)
  /\ Forall (RecordOk cfg) (downloads (statusEvent cfg id data s)).
Proof.
  intros Es P D R.
  destruct (PhaseOk_later s P) as [U T]; [congruence|].
  pose proof P as (_ & _ & P3). rewrite Es in P3.
  destruct P3 as (J & F & R0 & W).
  assert (D0 : downloads s = [] /\ finishedStreamCount s = 0).
  { unfold DownloadsOk in D. now rewrite F in D. }
  destruct D0 as [D1 D2].
  apply statusEvent_cases; intros.
  all: repeat match goal with x := _ |- _ => subst x end.
  all: split; [solve_PhaseOk | split].
  all: try (match goal with |- DownloadsOk _ => idtac end;
            unfold DownloadsOk in *; state_simpl; rewrite ?F, ?D1, ?D2 in *; state_simpl;
            try tauto).
  all: try (match goal with |- Forall _ _ => idtac end;
            state_simpl; rewrite ?D1; simpl; first [assumption | constructor
            | apply Forall_RecordOk_new]).
  (* the manifest *)
  cbn [app]. rewrite map_artifact_new, doneCount_new.
  split; [reflexivity|]. split; [reflexivity|]. split.
  - rewrite R0. unfold expectedResolveCalls. now destruct l.
  - intros v Hw. now elim (W v).
Qed.

Ltac solve_DownloadsOk :=
  match goal with
  | D : DownloadsOk ?s |- DownloadsOk _ =>
      unfold DownloadsOk in *; state_simpl;
      first [ exact D
            | destruct (files s) eqn:?;
              [ match goal with
                | P : PhaseOk s |- _ =>
                    unfold PhaseOk in P;
                    repeat match goal with
                           | H : statusStream s = _ |- _ => rewrite H in P
                           end;
                    exfalso; intuition congruence
                end
              | exact D ] ]
  end.

Lemma PhaseOk_same (s s' : Manager) :
  uploadStream s' = uploadStream s -> timer s' = timer s ->
  statusStream s' = statusStream s -> jobId s' = jobId s ->
  watch s' = watch s -> chained s' = chained s ->
  files s' = files s -> resolveCalls s' = resolveCalls s ->
  PhaseOk s -> PhaseOk s'.
Proof. unfold PhaseOk. now intros -> -> -> -> -> -> -> ->. Qed.

Ltac solve_PhaseOk_cases :=
  match goal with
  | P : PhaseOk ?s |- PhaseOk _ =>
      unfold PhaseOk in *; state_simpl;
      destruct P as (P1 & P2 & P3);
      try match goal with
          | H : timer s = Some _ |- _ => pose proof (P2 _ H)
          end;
      destruct (statusStream s) eqn:Es; try discriminate;
      repeat match goal with
             | H : _ /\ _ |- _ => destruct H
             end;
      repeat split; intros;
      repeat match goal with
             | H : uploadStream s = _ |- _ => rewrite H in *
             | H : watch s = _ |- _ => rewrite H in *
             end;
      try discriminate; try congruence; try tauto; eauto;
      try (intros Hx; apply rejectP_fulfilled in Hx; eapply P3; eassumption);
      try (intros Hx; apply rejectP_fulfilled in Hx;
           match goal with W : forall v, watch s <> Fulfilled v |- _ =>
             eapply W; eassumption end);
      try solve [exfalso; intuition congruence];
      try solve [destruct P1 as [? ?]; [discriminate | assumption]];
      try solve [match goal with
                 | H : _ <> UpEnded |- _ => destruct (P1 H); discriminate
                 end];
      try solve [match goal with
                 | H : timer s = Some _ |- _ => pose proof (P2 _ H); discriminate
                 end]
  end.

Lemma step_Inv3 (cfg : Config) (s : Manager) (ev : Event) (s' : Manager) :
  step cfg s ev = Some s' ->
  PhaseOk s -> DownloadsOk s -> Forall (RecordOk cfg) (downloads s) ->
  PhaseOk s' /\ DownloadsOk s' /\ Forall (RecordOk cfg) (downloads s').
Proof.
  revert s'. apply step_cases; intros; try discriminate.
  all: try (eapply stepDownload_Inv; eassumption).
  all: try (eapply uploadEnd_Inv; eassumption).
  all: inv_some; try inv_checkStatus.
  all: try (apply statusEvent_Inv; assumption).
  all: split; [|split; [solve_DownloadsOk | state_simpl; assumption]].
  all: try (eapply PhaseOk_same; [ | | | | | | | | eassumption]; state_simpl; reflexivity).
  all: try solve_PhaseOk_cases.
Qed.

Lemma step_Inv (cfg : Config) (s : Manager) (ev : Event) (s' : Manager) :
  step cfg s ev = Some s' -> Inv cfg s -> Inv cfg s'.
Proof.
  intros H (S1 & C1 & P & D & R).
  destruct (step_Inv3 cfg s ev s' H P D R) as (P' & D' & R').
  split; [eapply step_SessionOk; eassumption|].
  split; [eapply step_ChainOk; eassumption|].
  split; [exact P'|]. split; [exact D' | exact R'].
Qed.

Lemma build_Inv (cfg : Config) (customHeaders : list (string * string)) :
  Inv cfg (build cfg customHeaders).
Proof.
  unfold build, upload, uploadUnpackedAppArchive.
  destruct (String.eqb (buildResourcesDir cfg) (projectDir cfg));
    unfold Inv, SessionOk, ChainOk, PhaseOk, DownloadsOk; state_simpl; simpl;
    repeat split; intros; try discriminate; try congruence; constructor.
Qed.

Lemma run_app (cfg : Config) (s : Manager) (t1 t2 : list Event) :
  run cfg s (t1 ++ t2)
  = match run cfg s t1 with Some s1 => run cfg s1 t2 | None => None end.
Proof.
  revert s. induction t1 as [|ev t1 IH]; intros s; simpl; [reflexivity|].
  destruct (step cfg s ev); [apply IH | reflexivity].
Qed.

Lemma run_Inv (cfg : Config) (trace : list Event) (s s' : Manager) :
  run cfg s trace = Some s' -> Inv cfg s -> Inv cfg s'.
Proof.
  revert s. induction trace as [|ev tr IH]; intros s H I; simpl in H.
  - now injection H as <-.
  - destruct (step cfg s ev) as [s1|] eqn:E; [|discriminate].
    eapply IH; [eassumption|]. eapply step_Inv; eassumption.
Qed.

Lemma Reachable_Inv (cfg : Config) (s : Manager) : Reachable cfg s -> Inv cfg s.
Proof.
  intros (h & tr & H). eapply run_Inv; [eassumption | apply build_Inv].
Qed.

Lemma Reachable_run (cfg : Config) (s s' : Manager) (trace : list Event) :
  Reachable cfg s -> run cfg s trace = Some s' -> Reachable cfg s'.
Proof.
  intros (h & tr & H) H'. exists h, (tr ++ trace)%list. now rewrite run_app, H.
Qed.

Lemma Reachable_step (cfg : Config) (s s' : Manager) (ev : Event) :
  Reachable cfg s -> step cfg s ev = Some s' -> Reachable cfg s'.
Proof.
  intros R H. apply (Reachable_run cfg s s' [ev] R). simpl. now rewrite H.
Qed.

(** *** The fields a handler leaves alone *)

Lemma stepDownload_frame (i : nat) (ev : Event) (d : Download) (s s' : Manager) :
  stepDownload i ev d s = Some s' ->
  files s' = files s /\ handled s' = handled s /\ job s' = job s
  /\ finallyRan s' = finallyRan s /\ destroyCalls s' = destroyCalls s
  /\ closeArmed s' = closeArmed s /\ timeoutArmed s' = timeoutArmed s
  /\ requests s' = requests s /\ uploadStream s' = uploadStream s
  /\ pipeline s' = pipeline s /\ spawned s' = spawned s /\ timer s' = timer s
  /\ jobId s' = jobId s /\ chained s' = chained s
  /\ statusStream s' = statusStream s /\ uncaught s' = uncaught s
  /\ List.length (downloads s') = List.length (downloads s).
Proof.
  revert s'. apply stepDownload_cases; intros; try discriminate; inv_some;
    repeat match goal with x := _ |- _ => subst x end;
    unfold downloadResponse; rewrite ?checkStatus_eq; state_simpl;
    repeat match goal with
           | |- context [match ?x with _ => _ end] => destruct x eqn:?
           end; state_simpl; rewrite ?replaceAt_length; repeat split;
    first [reflexivity | congruence].
Qed.

Lemma uploadEnd_frame (status : nat) (data : string) (s s' : Manager) :
  uploadEnd status data s = Some s' ->
  files s' = files s /\ finishedStreamCount s' = finishedStreamCount s
  /\ handled s' = handled s /\ finallyRan s' = finallyRan s
  /\ destroyCalls s' = destroyCalls s /\ closeArmed s' = closeArmed s
  /\ timeoutArmed s' = timeoutArmed s /\ requests s' = requests s
  /\ pipeline s' = pipeline s /\ spawned s' = spawned s /\ jobId s' = jobId s
  /\ watch s' = watch s /\ chained s' = chained s
  /\ resolveCalls s' = resolveCalls s /\ statusStream s' = statusStream s
  /\ downloads s' = downloads s /\ dispatched s' = dispatched s /\ disk s' = disk s
  /\ uploadStream s' = UpEnded.
Proof.
  revert s'. apply uploadEnd_cases; intros; try discriminate; inv_some;
    repeat match goal with x := _ |- _ => subst x end;
    state_simpl; repeat split; reflexivity.
Qed.

Lemma statusEvent_frame (cfg : Config) (id : string) (data : StatusData) (s : Manager) :
  let s' := statusEvent cfg id data s in
  finishedStreamCount s' = finishedStreamCount s
  /\ handled s' = handled s /\ job s' = job s /\ finallyRan s' = finallyRan s
  /\ destroyCalls s' = destroyCalls s /\ closeArmed s' = closeArmed s
  /\ timeoutArmed s' = timeoutArmed s /\ uploadStream s' = uploadStream s
  /\ pipeline s' = pipeline s /\ spawned s' = spawned s /\ timer s' = timer s
  /\ jobId s' = jobId s /\ chained s' = chained s
  /\ dispatched s' = dispatched s /\ disk s' = disk s.
Proof.
  apply statusEvent_cases; intros;
    repeat match goal with x := _ |- _ => subst x end;
    state_simpl; repeat split; reflexivity.
Qed.

(** ** The guard on the build-resources directory *)

Lemma step_pipeline_idle (cfg : Config) (s : Manager) (ev : Event) (s' : Manager) :
  step cfg s ev = Some s' -> pipeline s = PipeNotStarted ->
  pipeline s' = PipeNotStarted /\ spawned s' = spawned s.
Proof.
  revert s'. apply step_cases; intros; try discriminate; try congruence.
  all: try (inv_some; try inv_checkStatus; state_simpl; split; first [assumption | reflexivity]).
  all: try (match goal with
            | H : stepDownload _ _ _ _ = Some _ |- _ =>
                destruct (stepDownload_frame _ _ _ _ _ H)
                  as (_ & _ & _ & _ & _ & _ & _ & _ & _ & -> & -> & _)
            | H : uploadEnd _ _ _ = Some _ |- _ =>
                destruct (uploadEnd_frame _ _ _ _ H)
                  as (_ & _ & _ & _ & _ & _ & _ & _ & -> & -> & _)
            end; split; [assumption | reflexivity]).
  all: inv_some.
  all: match goal with
       | |- context [statusEvent ?c ?i ?d ?s] =>
           destruct (statusEvent_frame c i d s)
             as (_ & _ & _ & _ & _ & _ & _ & _ & -> & -> & _)
       end; split; [assumption | reflexivity].
Qed.

Lemma run_pipeline_idle (cfg : Config) (trace : list Event) (s s' : Manager) :
  run cfg s trace = Some s' -> pipeline s = PipeNotStarted ->
  pipeline s' = PipeNotStarted /\ spawned s' = spawned s.
Proof.
  revert s. induction trace as [|ev tr IH]; intros s H P; simpl in H.
  - injection H as <-. auto.
  - destruct (step cfg s ev) as [s1|] eqn:E; [|discriminate].
    destruct (step_pipeline_idle cfg s ev s1 E P) as [P1 S1].
    destruct (IH s1 H P1) as [P2 S2]. split; congruence.
Qed.

Lemma run_job_settled (cfg : Config) (trace : list Event) (s s' : Manager) :
  run cfg s trace = Some s' -> settled (job s) = true -> job s' = job s.
Proof.
  revert s. induction trace as [|ev tr IH]; intros s H P; simpl in H.
  - now injection H as <-.
  - destruct (step cfg s ev) as [s1|] eqn:E; [|discriminate].
    pose proof (step_job_settled cfg s ev s1 E P) as J.
    rewrite <- J. apply IH; [exact H | now rewrite J].
Qed.

(** C2, as stated, fails: with the build-resources directory equal to the
    project directory the job is rejected, but the [/v1/upload] request
    stream is among the streams [build] has opened. *)
Lemma upload_stream_opened_before_guard :
  buildResourcesDir sameDirConfig = projectDir sameDirConfig
  /\ job (build sameDirConfig []) = Rejected (Error sameDirMessage)
  /\ existsb isUploadRequest (requests (build sameDirConfig [])) = true.
Proof. repeat split; reflexivity. Qed.

(** C2, amended: if the build-resources directory equals the project
    directory, [build] rejects the job at once with the error of the guard,
    having opened the upload request stream and nothing else; the pipeline
    is not started then and never later, so no process is spawned and
    nothing is piped into that stream, and the job stays rejected with that
    error. *)
Theorem same_dir_rejected_before_compression
        (cfg : Config) (customHeaders : list (string * string)) :
  buildResourcesDir cfg = projectDir cfg ->
  job (build cfg customHeaders) = Rejected (Error sameDirMessage)
  /\ requests (build cfg customHeaders) = [Post (uploadHeaders cfg customHeaders)]
  /\ spawned (build cfg customHeaders) = []
  /\ pipeline (build cfg customHeaders) = PipeNotStarted
  /\ forall trace s',
       run cfg (build cfg customHeaders) trace = Some s' ->
       job s' = Rejected (Error sameDirMessage)
       /\ spawned s' = [] /\ pipeline s' = PipeNotStarted.
Proof.
  intros E.
  assert (B : job (build cfg customHeaders) = Rejected (Error sameDirMessage)
              /\ requests (build cfg customHeaders) = [Post (uploadHeaders cfg customHeaders)]
              /\ spawned (build cfg customHeaders) = []
              /\ pipeline (build cfg customHeaders) = PipeNotStarted).
  { unfold build, upload, uploadUnpackedAppArchive.
    rewrite E, String.eqb_refl. state_simpl. repeat split; reflexivity. }
  destruct B as (J & R & S0 & P). repeat split; try assumption.
  - rewrite <- J. eapply run_job_settled; [eassumption | now rewrite J].
  - destruct (run_pipeline_idle cfg trace _ s' H P) as [_ S1]. congruence.
  - now destruct (run_pipeline_idle cfg trace _ s' H P) as [P1 _].
Qed.

Lemma same_dir_rejected_before_compression_witness :
  job (build sameDirConfig []) = Rejected (Error sameDirMessage)
  /\ spawned (stateAfter sameDirConfig [UploadResponse 200; ClientClose]) = [].
Proof.
  pose proof (same_dir_rejected_before_compression sameDirConfig [] eq_refl)
    as (J & _ & _ & _ & T).
  split; [exact J|].
  refine (proj1 (proj2 (T [UploadResponse 200; ClientClose] _ _))).
  vm_compute. reflexivity.
Defined.

(** ** Failures of the compression processes *)

(** C6, as stated, fails: both processes exit with a non-zero code and the
    job is still pending, the session not destroyed. *)
Lemma nonzero_exit_is_not_observed :
  let s := stateAfter exampleConfig
             [InfoFileResolved "/tmp/project-info.json"; ZstdExit 1; TarExit 2] in
  run exampleConfig (build exampleConfig [])
      [InfoFileResolved "/tmp/project-info.json"; ZstdExit 1; TarExit 2] = Some s
  /\ job s = Pending /\ destroyCalls s = 0 /\ uncaught s = [].
Proof. vm_compute. repeat split; reflexivity. Qed.

(** C6, amended: while the pipeline runs and the job is pending, an
    [error] event of the block compressor process (as when it cannot be
    spawned) or of the output stream of the archive packer rejects the job
    with that error, and the [finally] callback then destroys the session;
    the exit of either process, whatever its code, changes nothing. *)
Theorem compressor_error_rejects_exit_ignored
        (cfg : Config) (s : Manager) (e : JsError) :
  pipeline s = PipeRunning -> job s = Pending -> finallyRan s = false ->
  (forall ev, ev = ZstdProcessError e \/ ev = TarStdoutError e ->
     exists s1 s2,
       step cfg s ev = Some s1 /\ job s1 = Rejected e
       /\ step cfg s1 JobFinally = Some s2
       /\ job s2 = Rejected e /\ destroyCalls s2 = S (destroyCalls s))
  /\ (forall exitCode,
        step cfg s (TarExit exitCode) = Some s
        /\ step cfg s (ZstdExit exitCode) = Some s).
Proof.
  intros P J F. split.
  - intros ev [-> | ->];
      exists (jobReject e s),
             (set_destroyCalls (S (destroyCalls s)) (set_finallyRan true (jobReject e s)));
      unfold step; rewrite P; state_simpl; rewrite J, F; repeat split; reflexivity.
  - intros exitCode. unfold step. now rewrite P.
Qed.

Lemma compressor_error_rejects_exit_ignored_witness :
  let s := stateAfter exampleConfig [InfoFileResolved "/tmp/project-info.json"] in
  (exists s1 s2,
     step exampleConfig s (ZstdProcessError (RuntimeError "spawn zstd ENOENT")) = Some s1
     /\ job s1 = Rejected (RuntimeError "spawn zstd ENOENT")
     /\ step exampleConfig s1 JobFinally = Some s2
     /\ job s2 = Rejected (RuntimeError "spawn zstd ENOENT")
     /\ destroyCalls s2 = 1)
  /\ step exampleConfig s (TarExit 2) = Some s.
Proof.
  assert (P : pipeline (stateAfter exampleConfig [InfoFileResolved "/tmp/project-info.json"])
              = PipeRunning) by (vm_compute; reflexivity).
  assert (J : job (stateAfter exampleConfig [InfoFileResolved "/tmp/project-info.json"])
              = Pending) by (vm_compute; reflexivity).
  assert (F : finallyRan (stateAfter exampleConfig [InfoFileResolved "/tmp/project-info.json"])
              = false) by (vm_compute; reflexivity).
  pose proof (compressor_error_rejects_exit_ignored exampleConfig _
                (RuntimeError "spawn zstd ENOENT") P J F) as [A B].
  split.
  - exact (A _ (or_introl eq_refl)).
  - exact (proj1 (B 2)).
Defined.

(** ** The upload response *)

Lemma set_uploadStream_twice (a b : UploadStream) (s : Manager) :
  set_uploadStream a (set_uploadStream b s) = set_uploadStream a s.
Proof. apply Manager_ext; reflexivity. Qed.

Lemma set_uploadStream_same (s : Manager) (a : UploadStream) :
  uploadStream s = a -> set_uploadStream a s = s.
Proof. intros <-. apply Manager_ext; reflexivity. Qed.

(** The [data] listener appends every chunk (lines 117-119). *)
Lemma run_upload_data (cfg : Config) (chunks : list string) (rest : list Event)
      (s : Manager) (status : nat) (data : string) :
  uploadStream s = UpReceiving status data ->
  run cfg s (map UploadData chunks ++ rest)
  = run cfg (set_uploadStream (UpReceiving status (data ++ bufferConcat chunks)) s) rest.
Proof.
  revert s data. induction chunks as [|c chunks IH]; intros s data H.
  - cbn [map app bufferConcat]. rewrite append_nil_r.
    now rewrite set_uploadStream_same.
  - cbn [map app run step bufferConcat]. rewrite H.
    rewrite (IH _ (data ++ c)) by reflexivity.
    now rewrite set_uploadStream_twice, append_assoc.
Qed.

Lemma parseBody_badConfig :
  parseBody badConfigBody = Json.Parsed badConfigValue EmptyString.
Proof. vm_compute. reflexivity. Qed.

Lemma stringify2_badConfig : Json.stringify2 badConfigValue = badConfigPayload.
Proof. vm_compute. reflexivity. Qed.

(** C5: a response with the bad-request status whose body, in whatever
    chunks it arrives, is [{"message":"bad config"}] rejects the pending job
    with an [HttpError] of that status whose description is the diagnostic
    serialized by [JSON.stringify(result, null, 2)]; that text denotes the
    same JSON value as the body, nothing of the diagnostic is lost.  No
    timer is started and no further stream is opened. *)
Theorem bad_request_rejects_with_diagnostic
        (cfg : Config) (s : Manager) (chunks : list string) :
  uploadStream s = UpAwaitingResponse -> job s = Pending ->
  bufferConcat chunks = badConfigBody ->
  exists s',
    run cfg s (UploadResponse HTTP_STATUS_BAD_REQUEST :: map UploadData chunks ++ [UploadEnd])
    = Some s'
    /\ job s' = Rejected (HttpError HTTP_STATUS_BAD_REQUEST (Some badConfigPayload))
    /\ job s' = Rejected (HttpError HTTP_STATUS_BAD_REQUEST
                            (Some (Json.stringify2 badConfigValue)))
    /\ Json.parse badConfigBody = Json.Parsed badConfigValue EmptyString
    /\ Json.parse badConfigPayload = Json.Parsed badConfigValue EmptyString
    /\ timer s' = timer s /\ requests s' = requests s.
Proof.
  intros U J B.
  eexists. split.
  - cbn [run step]. rewrite U. cbn [negb Nat.eqb HTTP_STATUS_OK HTTP_STATUS_BAD_REQUEST andb].
    rewrite (run_upload_data cfg chunks [UploadEnd] _ HTTP_STATUS_BAD_REQUEST EmptyString)
      by reflexivity.
    cbn [run step uploadStream set_uploadStream append]. rewrite B.
    unfold uploadEnd. rewrite parseBody_badConfig.
    cbn [Nat.eqb HTTP_STATUS_BAD_REQUEST]. reflexivity.
  - rewrite stringify2_badConfig. state_simpl. rewrite J.
    repeat split; try reflexivity; vm_compute; reflexivity.
Qed.

Lemma bad_request_rejects_with_diagnostic_witness :
  exists s',
    run exampleConfig (build exampleConfig [])
        [UploadResponse 400; UploadData "{"; UploadData (String dq "message");
         UploadData (String dq ":" ++ String dq "bad config" ++ String dq "}"); UploadEnd]
    = Some s'
    /\ job s' = Rejected (HttpError 400 (Some badConfigPayload)).
Proof.
  destruct (bad_request_rejects_with_diagnostic exampleConfig (build exampleConfig [])
              ["{"; String dq "message";
               String dq ":" ++ String dq "bad config" ++ String dq "}"]
              eq_refl eq_refl eq_refl) as (s' & R & J & _).
  exists s'. split; [exact R | exact J].
Defined.

(** ** The error event of the status stream *)

(** C3, as stated, fails: after an event with an [error] field the job
    promise is fulfilled with that event, not rejected. *)
Lemma error_event_fulfils_job :
  let trace := (untilWatching ++ [StatusEvent errorEvent; WatchSettled])%list in
  run exampleConfig (build exampleConfig []) trace
  = Some (stateAfter exampleConfig trace)
  /\ job (stateAfter exampleConfig trace) = Fulfilled (Some errorEvent)
  /\ (forall e, job (stateAfter exampleConfig trace) <> Rejected e)
  /\ statusStream (stateAfter exampleConfig trace) = StDestroyed.
Proof. vm_compute. repeat split; try reflexivity. discriminate. Qed.

(** C3, amended: when a decoded event of the watched status stream has an
    [error] field, the stream is destroyed at once (no further event is
    delivered, no download is started) and [resolve] is called with the
    event: the pending promise of [listenEvents] is fulfilled with it, and
    the callback chained to it sets [handled] and fulfils the pending job
    promise with the same event.  The error is the result of the job, not
    a rejection. *)
Theorem error_event_resolves_with_event
        (cfg : Config) (s : Manager) (data : StatusData) (e : string) :
  Reachable cfg s -> statusStream s = StWatching -> data_error data = Some e ->
  exists s1,
    step cfg s (StatusEvent data) = Some s1
    /\ statusStream s1 = StDestroyed
    /\ (forall data', step cfg s1 (StatusEvent data') = None)
    /\ requests s1 = requests s /\ downloads s1 = []
    /\ watch s1 = resolveP (watch s) (Some data)
    /\ (watch s = Pending ->
        exists s2,
          step cfg s1 WatchSettled = Some s2
          /\ handled s2 = true
          /\ job s2 = resolveP (job s) (Some data)
          /\ (job s = Pending -> job s2 = Fulfilled (Some data))).
Proof.
  intros R Es E.
  destruct (Reachable_Inv cfg s R) as (_ & (C & _) & P & D & _).
  pose proof P as (_ & _ & P3). rewrite Es in P3. destruct P3 as (J & F & _).
  destruct (jobId s) as [id|] eqn:Ej; [|now elim J].
  assert (D1 : downloads s = []).
  { unfold DownloadsOk in D. rewrite F in D. tauto. }
  exists (statusEvent cfg id data s).
  assert (X : statusEvent cfg id data s
              = watchResolve (Some data) (set_statusStream StDestroyed s)).
  { unfold statusEvent. now rewrite E. }
  split; [cbn [step]; now rewrite Es, Ej|].
  rewrite X. state_simpl.
  split; [reflexivity|]. split; [reflexivity|]. split; [reflexivity|].
  split; [exact D1|]. split; [reflexivity|].
  intros W. rewrite W. cbn [resolveP].
  assert (C0 : chained s = false).
  { destruct (chained s); [|reflexivity]. specialize (C eq_refl). now rewrite W in C. }
  eexists. split.
  - cbn [step]. state_simpl. rewrite C0. reflexivity.
  - state_simpl. split; [reflexivity|]. split; [reflexivity|].
    intros ->. reflexivity.
Qed.

Lemma error_event_resolves_with_event_witness :
  exists s1,
    step exampleConfig (stateAfter exampleConfig untilWatching) (StatusEvent errorEvent)
    = Some s1
    /\ statusStream s1 = StDestroyed
    /\ watch s1 = Fulfilled (Some errorEvent).
Proof.
  assert (R : Reachable exampleConfig (stateAfter exampleConfig untilWatching)).
  { exists [], untilWatching. vm_compute. reflexivity. }
  assert (Es : statusStream (stateAfter exampleConfig untilWatching) = StWatching)
    by (vm_compute; reflexivity).
  destruct (error_event_resolves_with_event exampleConfig _ errorEvent "build failed"
              R Es eq_refl) as (s1 & H & D & _ & _ & _ & W & _).
  exists s1. split; [exact H|]. split; [exact D|].
  rewrite W. vm_compute. reflexivity.
Defined.

(** ** The session *)

(** While the job is pending the two [once] listeners are registered. *)
Lemma step_listeners (cfg : Config) (s : Manager) (ev : Event) (s' : Manager) :
  step cfg s ev = Some s' -> ChainOk s ->
  (closeArmed s' = closeArmed s /\ timeoutArmed s' = timeoutArmed s)
  \/ settled (job s') = true.
Proof.
  intros H (_ & Hd & _). revert s' H. apply step_cases; intros; try discriminate.
  all: try (match goal with
            | H : stepDownload _ _ _ _ = Some _ |- _ =>
                destruct (stepDownload_frame _ _ _ _ _ H)
                  as (_ & _ & _ & _ & _ & -> & -> & _)
            | H : uploadEnd _ _ _ = Some _ |- _ =>
                destruct (uploadEnd_frame _ _ _ _ H)
                  as (_ & _ & _ & _ & _ & -> & -> & _)
            end; left; split; reflexivity).
  all: inv_some; try inv_checkStatus.
  all: try (match goal with
            | |- context [statusEvent ?c ?i ?d ?s] =>
                destruct (statusEvent_frame c i d s)
                  as (_ & _ & _ & _ & _ & -> & -> & _)
            end; left; split; reflexivity).
  all: try (left; state_simpl; split; reflexivity).
  all: right; state_simpl; try apply settled_rejectP.
  all: repeat match goal with
              | |- context [if ?b then _ else _] => destruct b eqn:?
              end; state_simpl;
       first [apply settled_rejectP | apply Hd; assumption].
Qed.

Lemma step_ListenersOk (cfg : Config) (s : Manager) (ev : Event) (s' : Manager) :
  step cfg s ev = Some s' -> ChainOk s -> ListenersOk s -> ListenersOk s'.
Proof.
  intros H C L J'.
  destruct (step_listeners cfg s ev s' H C) as [[-> ->] | Hs]; [|now rewrite J' in Hs].
  apply L. destruct (settled (job s)) eqn:Es; [|now destruct (job s)].
  rewrite <- (step_job_settled cfg s ev s' H Es), J' in Es. discriminate.
Qed.

Lemma run_ListenersOk (cfg : Config) (trace : list Event) (s s' : Manager) :
  run cfg s trace = Some s' -> Inv cfg s -> ListenersOk s -> ListenersOk s'.
Proof.
  revert s. induction trace as [|ev tr IH]; intros s H I L; simpl in H.
  - now injection H as <-.
  - destruct (step cfg s ev) as [s1|] eqn:E; [|discriminate].
    apply (IH s1 H); [eapply step_Inv; eassumption|].
    destruct I as (_ & C & _). eapply step_ListenersOk; eassumption.
Qed.

Lemma Reachable_ListenersOk (cfg : Config) (s : Manager) :
  Reachable cfg s -> ListenersOk s.
Proof.
  intros (h & tr & H). eapply run_ListenersOk; [exact H | apply build_Inv |].
  unfold build, upload, uploadUnpackedAppArchive.
  destruct (String.eqb (buildResourcesDir cfg) (projectDir cfg));
    intros J; state_simpl; try discriminate; split; reflexivity.
Qed.








(** ** One download, from the response to the end *)

Lemma step_download (cfg : Config) (s : Manager) (ev : Event) (i : nat) (d : Download) :
  downloadIndex ev = Some i -> nth_error (downloads s) i = Some d ->
  step cfg s ev = stepDownload i ev d s.
Proof.
  intros Hi Hn. destruct ev; simpl in Hi; try discriminate;
    injection Hi as ->; cbn [step downloadIndex]; now rewrite Hn.
Qed.

Lemma replaceAt_twice {A : Type} (i : nat) (x y : A) (l : list A) :
  replaceAt i x (replaceAt i y l) = replaceAt i x l.
Proof.
  revert i. induction l as [|z l IH]; intros [|i]; simpl; try reflexivity.
  now rewrite IH.
Qed.

Lemma setDownload_twice (i : nat) (x y : Download) (s : Manager) :
  setDownload i x (setDownload i y s) = setDownload i x s.
Proof.
  apply Manager_ext; try reflexivity.
  unfold setDownload. cbn [downloads set_downloads]. apply replaceAt_twice.
Qed.

Lemma setDownload_same (i : nat) (d : Download) (s : Manager) :
  nth_error (downloads s) i = Some d -> setDownload i d s = s.
Proof.
  intros H. apply Manager_ext; try reflexivity.
  unfold setDownload. cbn [downloads set_downloads]. now apply replaceAt_same.
Qed.

Lemma setDownload_nth (i : nat) (d x : Download) (s : Manager) :
  nth_error (downloads s) i = Some d ->
  nth_error (downloads (setDownload i x s)) i = Some x.
Proof.
  intros H. unfold setDownload. cbn [downloads set_downloads].
  eapply nth_error_replaceAt; eassumption.
Qed.

Lemma withState_same (d : Download) : withState (dlState d) d = d.
Proof. now destruct d. Qed.

Lemma withState_twice (a b : DownloadState) (d : Download) :
  withState a (withState b d) = withState a d.
Proof. reflexivity. Qed.

Lemma bufferConcat_app (a b : list string) :
  bufferConcat (a ++ b) = bufferConcat a ++ bufferConcat b.
Proof.
  induction a as [|x a IH]; simpl; [reflexivity|].
  now rewrite IH, append_assoc.
Qed.

(** [buffers.length === 1 ? buffers[0] : Buffer.concat(buffers)] is the
    concatenation in every case. *)
Lemma content_of_buffers (buffers : list string) :
  match buffers with [b] => b | _ => bufferConcat buffers end = bufferConcat buffers.
Proof.
  destruct buffers as [|b [|c r]]; try reflexivity.
  simpl. now rewrite append_nil_r.
Qed.

(** The chunks of a buffered download are collected (lines 246-248). *)
Lemma run_download_data_buffering (cfg : Config) (i : nat) (chunks : list string)
      (rest : list Event) (s : Manager) (d : Download) (buffers : list string) :
  nth_error (downloads s) i = Some d -> dlState d = DlBuffering buffers ->
  run cfg s (map (DownloadData i) chunks ++ rest)
  = run cfg (setDownload i (withState (DlBuffering (buffers ++ chunks)) d) s) rest.
Proof.
  revert s d buffers. induction chunks as [|c chunks IH]; intros s d buffers Hn Hd.
  - cbn [map app]. rewrite app_nil_r, <- Hd, withState_same.
    now rewrite setDownload_same.
  - cbn [map app run].
    rewrite (step_download cfg s (DownloadData i c) i d eq_refl Hn).
    cbn [stepDownload]. rewrite Hd.
    rewrite (IH _ (withState (DlBuffering (buffers ++ [c])) d) (buffers ++ [c])%list);
      [|eapply setDownload_nth; eassumption | reflexivity].
    now rewrite setDownload_twice, withState_twice, <- app_assoc.
Qed.

(** The chunks of a piped download go to the file (line 259). *)
Lemma run_download_data_piping (cfg : Config) (i : nat) (chunks : list string)
      (rest : list Event) (s : Manager) (d : Download) (written : string) :
  nth_error (downloads s) i = Some d -> dlState d = DlPiping written ->
  run cfg s (map (DownloadData i) chunks ++ rest)
  = run cfg (setDownload i (withState (DlPiping (written ++ bufferConcat chunks)) d) s) rest.
Proof.
  revert s d written. induction chunks as [|c chunks IH]; intros s d written Hn Hd.
  - cbn [map app bufferConcat]. rewrite append_nil_r, <- Hd, withState_same.
    now rewrite setDownload_same.
  - cbn [map app run bufferConcat].
    rewrite (step_download cfg s (DownloadData i c) i d eq_refl Hn).
    cbn [stepDownload]. rewrite Hd.
    rewrite (IH _ (withState (DlPiping (written ++ c)) d) (written ++ c));
      [|eapply setDownload_nth; eassumption | reflexivity].
    now rewrite setDownload_twice, withState_twice, append_assoc.
Qed.

Lemma run_metadataDownload (cfg : Config) (i : nat) (chunks : list string)
      (rest : list Event) (s : Manager) (d : Download) :
  nth_error (downloads s) i = Some d -> dlState d = DlAwaitingResponse ->
  isMetadataFile (file (artifact d)) = true ->
  run cfg s (metadataDownload i chunks ++ rest)
  = run cfg
      (fileWritten (writtenDownload d (bufferConcat chunks))
         (setDownload i (withState DlDone (writtenDownload d (bufferConcat chunks)))
            (set_disk (disk s ++ [(localFile d, bufferConcat chunks)])%list s)))
      rest.
Proof.
  intros Hn Hd Hm. unfold metadataDownload.
  cbn [app run].
  rewrite (step_download cfg s (DownloadResponse i HTTP_STATUS_OK) i d eq_refl Hn).
  cbn [stepDownload]. rewrite Hd. unfold downloadResponse.
  cbn [checkStatus Nat.eqb HTTP_STATUS_OK]. rewrite Hm.
  rewrite <- app_assoc.
  rewrite (run_download_data_buffering cfg i chunks _ _ (withState (DlBuffering []) d) []);
    [|eapply setDownload_nth; eassumption | reflexivity].
  rewrite setDownload_twice, withState_twice. cbn [app run].
  rewrite (step_download cfg _ (DownloadEnd i) i (withState (DlBuffering chunks) d) eq_refl);
    [|eapply setDownload_nth; eassumption].
  cbn [stepDownload dlState withState]. unfold downloadEnd.
  rewrite content_of_buffers. cbn [artifact localFile artifactCreatedEvent withState].
  fold (writtenDownload d (bufferConcat chunks)).
  rewrite setDownload_twice.
  rewrite (step_download cfg _ (OutputFileDone i) i
             (writtenDownload d (bufferConcat chunks)) eq_refl);
    [|eapply setDownload_nth; eassumption].
  cbn [stepDownload dlState writtenDownload].
  fold (writtenDownload d (bufferConcat chunks)).
  f_equal. f_equal.
  apply Manager_ext; try reflexivity.
  unfold setDownload. cbn [downloads set_downloads set_disk]. apply replaceAt_twice.
Qed.

Lemma run_streamedDownload (cfg : Config) (i : nat) (chunks : list string)
      (rest : list Event) (s : Manager) (d : Download) :
  nth_error (downloads s) i = Some d -> dlState d = DlAwaitingResponse ->
  isMetadataFile (file (artifact d)) = false ->
  run cfg s (streamedDownload i chunks ++ rest)
  = run cfg
      (fileWritten (withState (DlPiping (bufferConcat chunks)) d)
         (setDownload i (withState DlDone d)
            (set_disk (disk s ++ [(localFile d, bufferConcat chunks)])%list s)))
      rest.
Proof.
  intros Hn Hd Hm. unfold streamedDownload.
  cbn [app run].
  rewrite (step_download cfg s (DownloadResponse i HTTP_STATUS_OK) i d eq_refl Hn).
  cbn [stepDownload]. rewrite Hd. unfold downloadResponse.
  cbn [checkStatus Nat.eqb HTTP_STATUS_OK]. rewrite Hm.
  rewrite (step_download cfg _ (EnsureDirDone i) i (withState DlEnsuringDir d) eq_refl);
    [|eapply setDownload_nth; eassumption].
  cbn [stepDownload dlState withState]. fold (withState (DlPiping EmptyString) d).
  rewrite setDownload_twice, <- app_assoc.
  rewrite (run_download_data_piping cfg i chunks _ _ (withState (DlPiping EmptyString) d)
             EmptyString);
    [|eapply setDownload_nth; eassumption | reflexivity].
  rewrite setDownload_twice, withState_twice. cbn [append app run].
  rewrite (step_download cfg _ (FileStreamClose i) i
             (withState (DlPiping (bufferConcat chunks)) d) eq_refl);
    [|eapply setDownload_nth; eassumption].
  cbn [stepDownload dlState withState localFile].
  fold (withState (DlPiping (bufferConcat chunks)) d).
  fold (withState DlDone d).
  f_equal. f_equal.
  apply Manager_ext; try reflexivity.
  unfold setDownload. cbn [downloads set_downloads set_disk]. apply replaceAt_twice.
Qed.

Lemma run_nil_app (cfg : Config) (s : Manager) (trace : list Event) :
  run cfg s trace = run cfg s (trace ++ []).
Proof. now rewrite app_nil_r. Qed.

(** A finished download takes no further event but an error of its
    stream. *)
Lemma finished_download_is_final (cfg : Config) (s : Manager) (i : nat) (d : Download)
      (ev : Event) :
  nth_error (downloads s) i = Some d -> dlState d = DlDone ->
  downloadIndex ev = Some i -> carriesError ev = false ->
  step cfg s ev = None.
Proof.
  intros Hn Hd Hi He. rewrite (step_download cfg s ev i d Hi Hn).
  destruct ev; simpl in Hi, He; try discriminate; cbn [stepDownload]; now rewrite Hd.
Qed.

(** The state in which [fileWritten] leaves a download. *)
Lemma fileWritten_finishes (cfg : Config) (s : Manager) (i : nat) (d dw done : Download)
      (content : string) (l : list ArtifactInfo) :
  nth_error (downloads s) i = Some d -> files s = Some l -> dlState done = DlDone ->
  let s' := fileWritten dw (setDownload i done
                              (set_disk (disk s ++ [(localFile d, content)])%list s)) in
  finishedStreamCount s' = S (finishedStreamCount s)
  /\ dispatched s' = (dispatched s ++ [artifactCreatedEvent dw])%list
  /\ disk s' = (disk s ++ [(localFile d, content)])%list
  /\ nth_error (downloads s') i = Some done
  /\ (forall ev, downloadIndex ev = Some i -> carriesError ev = false ->
        step cfg s' ev = None).
Proof.
  intros Hn F Hd s'.
  destruct (fileWritten_fields dw
              (setDownload i done (set_disk (disk s ++ [(localFile d, content)])%list s))
              l F) as (_ & E2 & E3 & E4 & E5 & _).
  assert (N : nth_error (downloads s') i = Some done).
  { unfold s'. rewrite E3. eapply setDownload_nth.
    cbn [downloads set_disk]. eassumption. }
  split; [exact E2|]. split; [exact E4|]. split; [exact E5|]. split; [exact N|].
  intros ev Hi He. eapply finished_download_is_final; eassumption.
Qed.

(** ** Metadata files and other artifacts *)

(** C9: take any state of a build and any download of it that awaits its
    response; its event object is the one [downloadFile] built, without
    content, for the local file under the output directory.  If the name
    ends in [.yml] or [.json], the chunks of the body are collected in
    memory (nothing is on disk and nothing is counted before the end), the
    whole body is written with [outputFile], and the event dispatched
    carries the body as [fileContent].  Otherwise the chunks are written to
    the file stream as they come and the event dispatched carries no
    content.  In both cases the counter is one more at the end, and the
    finished download accepts no further event but a stream error, so it
    is counted once.  [latest.yml] is of the first kind, [app.exe] of the
    second. *)
Theorem metadata_buffered_binary_streamed
        (cfg : Config) (s : Manager) (i : nat) (d : Download) (chunks : list string) :
  Reachable cfg s -> nth_error (downloads s) i = Some d ->
  dlState d = DlAwaitingResponse ->
  artifactCreatedEvent d = baseEvent cfg d
  /\ fileContent (baseEvent cfg d) = None
  /\ createdFile (baseEvent cfg d) = path_join (outDir cfg) (file (artifact d))
  /\ (isMetadataFile (file (artifact d)) = true ->
      (exists s1,
         run cfg s (DownloadResponse i HTTP_STATUS_OK :: map (DownloadData i) chunks)
         = Some s1
         /\ option_map dlState (nth_error (downloads s1) i) = Some (DlBuffering chunks)
         /\ disk s1 = disk s
         /\ finishedStreamCount s1 = finishedStreamCount s)
      /\ exists s',
           run cfg s (metadataDownload i chunks) = Some s'
           /\ finishedStreamCount s' = S (finishedStreamCount s)
           /\ dispatched s'
              = (dispatched s ++ [withContent (bufferConcat chunks) (baseEvent cfg d)])%list
           /\ fileContent (withContent (bufferConcat chunks) (baseEvent cfg d))
              = Some (bufferConcat chunks)
           /\ disk s'
              = (disk s ++ [(path_join (outDir cfg) (file (artifact d)),
                             bufferConcat chunks)])%list
           /\ (forall ev, downloadIndex ev = Some i -> carriesError ev = false ->
                 step cfg s' ev = None))
  /\ (isMetadataFile (file (artifact d)) = false ->
      (exists s1,
         run cfg s (DownloadResponse i HTTP_STATUS_OK :: EnsureDirDone i
                    :: map (DownloadData i) chunks)
         = Some s1
         /\ option_map dlState (nth_error (downloads s1) i)
            = Some (DlPiping (bufferConcat chunks))
         /\ finishedStreamCount s1 = finishedStreamCount s)
      /\ exists s',
           run cfg s (streamedDownload i chunks) = Some s'
           /\ finishedStreamCount s' = S (finishedStreamCount s)
           /\ dispatched s' = (dispatched s ++ [baseEvent cfg d])%list
           /\ disk s'
              = (disk s ++ [(path_join (outDir cfg) (file (artifact d)),
                             bufferConcat chunks)])%list
           /\ (forall ev, downloadIndex ev = Some i -> carriesError ev = false ->
                 step cfg s' ev = None))
  /\ isMetadataFile "latest.yml" = true
  /\ isMetadataFile "app.exe" = false.
Proof.
  intros R Hn Hd.
  destruct (Reachable_Inv cfg s R) as (_ & _ & P & D & Rs).
  destruct (DownloadsOk_started s i d Hn P D) as [_ [l F]].
  destruct (RecordOk_nth cfg _ _ _ Rs Hn) as [Rl Re]. rewrite Hd in Re.
  split; [exact Re|]. split; [reflexivity|].
  split; [cbn; exact Rl|].
  split; [|split; [|split; reflexivity]].
  - intros Hm. split.
    + eexists. split.
      * cbn [run].
        rewrite (step_download cfg s (DownloadResponse i HTTP_STATUS_OK) i d eq_refl Hn).
        cbn [stepDownload]. rewrite Hd. unfold downloadResponse.
        cbn [checkStatus Nat.eqb HTTP_STATUS_OK]. rewrite Hm.
        rewrite (run_nil_app cfg _ (map (DownloadData i) chunks)).
        rewrite (run_download_data_buffering cfg i chunks [] _
                   (withState (DlBuffering []) d) []);
          [|eapply setDownload_nth; eassumption | reflexivity].
        rewrite setDownload_twice, withState_twice. reflexivity.
      * rewrite (setDownload_nth i d _ s Hn). state_simpl. repeat split; reflexivity.
    + eexists. split.
      * rewrite (run_nil_app cfg s (metadataDownload i chunks)).
        rewrite (run_metadataDownload cfg i chunks [] s d Hn Hd Hm). reflexivity.
      * destruct (fileWritten_finishes cfg s i d
                    (writtenDownload d (bufferConcat chunks))
                    (withState DlDone (writtenDownload d (bufferConcat chunks)))
                    (bufferConcat chunks) l Hn F eq_refl)
          as (E1 & E2 & E3 & _ & E5).
        rewrite E1, E2, E3. cbn [artifactCreatedEvent writtenDownload].
        rewrite Re, Rl. repeat split; try reflexivity.
        intros ev Hi He. rewrite <- Rl. now apply E5.
  - intros Hm. split.
    + eexists. split.
      * cbn [run].
        rewrite (step_download cfg s (DownloadResponse i HTTP_STATUS_OK) i d eq_refl Hn).
        cbn [stepDownload]. rewrite Hd. unfold downloadResponse.
        cbn [checkStatus Nat.eqb HTTP_STATUS_OK]. rewrite Hm.
        rewrite (step_download cfg _ (EnsureDirDone i) i (withState DlEnsuringDir d)
                   eq_refl); [|eapply setDownload_nth; eassumption].
        cbn [stepDownload dlState withState]. fold (withState (DlPiping EmptyString) d).
        rewrite setDownload_twice.
        rewrite (run_nil_app cfg _ (map (DownloadData i) chunks)).
        rewrite (run_download_data_piping cfg i chunks [] _
                   (withState (DlPiping EmptyString) d) EmptyString);
          [|eapply setDownload_nth; eassumption | reflexivity].
        rewrite setDownload_twice, withState_twice. reflexivity.
      * rewrite (setDownload_nth i d _ s Hn). state_simpl. repeat split; reflexivity.
    + eexists. split.
      * rewrite (run_nil_app cfg s (streamedDownload i chunks)).
        rewrite (run_streamedDownload cfg i chunks [] s d Hn Hd Hm). reflexivity.
      * destruct (fileWritten_finishes cfg s i d
                    (withState (DlPiping (bufferConcat chunks)) d)
                    (withState DlDone d)
                    (bufferConcat chunks) l Hn F eq_refl)
          as (E1 & E2 & E3 & _ & E5).
        rewrite E1, E2, E3. cbn [artifactCreatedEvent withState].
        rewrite Re, Rl. repeat split; try reflexivity.
        intros ev Hi He. rewrite <- Rl. now apply E5.
Qed.

(** ** After the manifest *)

(** Once the status stream is destroyed no stream is opened any more, and
    the manifest and the list of downloads stay as they are. *)
Lemma step_after_destroyed (cfg : Config) (s : Manager) (ev : Event) (s' : Manager) :
  step cfg s ev = Some s' -> Inv cfg s -> statusStream s = StDestroyed ->
  statusStream s' = StDestroyed /\ files s' = files s /\ requests s' = requests s
  /\ List.length (downloads s') = List.length (downloads s).
Proof.
  intros H (_ & _ & P & _) Es.
  destruct (PhaseOk_later s P) as [U T]; [congruence|].
  revert s' H. apply step_cases; intros; try discriminate; try congruence.
  all: try (match goal with
            | H : stepDownload _ _ _ _ = Some _ |- _ =>
                destruct (stepDownload_frame _ _ _ _ _ H)
                  as (-> & _ & _ & _ & _ & _ & _ & -> & _ & _ & _ & _ & _ & _ & -> & _ & ->)
            end; repeat split; first [assumption | reflexivity]).
  all: inv_some; state_simpl; repeat split; first [assumption | reflexivity].
Qed.

Lemma run_after_destroyed (cfg : Config) (trace : list Event) (s s' : Manager) :
  run cfg s trace = Some s' -> Inv cfg s -> statusStream s = StDestroyed ->
  Inv cfg s' /\ statusStream s' = StDestroyed /\ files s' = files s
  /\ requests s' = requests s
  /\ List.length (downloads s') = List.length (downloads s).
Proof.
  revert s. induction trace as [|ev tr IH]; intros s H I Es; simpl in H.
  - injection H as <-. split; [exact I|]. split; [exact Es|]. repeat split; reflexivity.
  - destruct (step cfg s ev) as [s1|] eqn:E; [|discriminate].
    destruct (step_after_destroyed cfg s ev s1 E I Es) as (E1 & E2 & E3 & E4).
    destruct (IH s1 H (step_Inv cfg s ev s1 E I) E1) as (I' & F1 & F2 & F3 & F4).
    split; [exact I'|]. split; [exact F1|]. split; [congruence|]. split; congruence.
Qed.

(** The counter moves by one, and only when a file is completely written. *)
Lemma step_counter (cfg : Config) (s : Manager) (ev : Event) (s' : Manager) :
  step cfg s ev = Some s' ->
  finishedStreamCount s' = finishedStreamCount s
  \/ (finishedStreamCount s' = S (finishedStreamCount s)
      /\ exists i, ev = OutputFileDone i \/ ev = FileStreamClose i).
Proof.
  revert s'. apply step_cases; intros; try discriminate.
  all: try (match goal with
            | H : uploadEnd _ _ _ = Some _ |- _ =>
                destruct (uploadEnd_frame _ _ _ _ H) as (_ & -> & _); now left
            end).
  all: try (inv_some; try inv_checkStatus;
            try match goal with
                | |- context [statusEvent ?c ?i ?d ?s] =>
                    destruct (statusEvent_frame c i d s) as (-> & _)
                end; state_simpl; now left).
  all: subst;
       match goal with
       | H : stepDownload _ _ _ _ = Some _ |- _ => revert H
       end; cbn [stepDownload];
       repeat match goal with
              | |- context [match ?x with _ => _ end] => destruct x eqn:?
              end; intros; try discriminate; inv_some;
       unfold downloadResponse; rewrite ?checkStatus_eq; state_simpl;
       repeat match goal with
              | |- context [match ?x with _ => _ end] => destruct x eqn:?
              end; state_simpl;
       first [ now left | right; split; [reflexivity | eexists; eauto] ].
Qed.

(** Without an error, a close or a timeout, nothing happens to the two
    promises while no download exists. *)
Lemma step_quiet_without_downloads (cfg : Config) (s : Manager) (ev : Event)
      (s' : Manager) :
  step cfg s ev = Some s' -> errorCloseOrTimeout ev = false ->
  Inv cfg s -> statusStream s = StDestroyed -> downloads s = [] ->
  watch s = Pending ->
  job s' = job s /\ watch s' = Pending /\ downloads s' = [].
Proof.
  intros H He (_ & _ & P & _) Es Hd Hw.
  destruct (PhaseOk_later s P) as [U T]; [congruence|].
  revert s' H He. apply step_cases; intros; try discriminate; try congruence.
  all: try (match goal with
            | H : nth_error (downloads ?t) ?i = Some _, Hd : downloads ?t = [] |- _ =>
                rewrite Hd in H; destruct i; discriminate
            end).
  all: inv_some; state_simpl; repeat split; first [assumption | reflexivity].
Qed.

Lemma run_quiet_without_downloads (cfg : Config) (trace : list Event) (s s' : Manager) :
  run cfg s trace = Some s' ->
  forallb (fun ev => negb (errorCloseOrTimeout ev)) trace = true ->
  Inv cfg s -> statusStream s = StDestroyed -> downloads s = [] ->
  watch s = Pending ->
  job s' = job s /\ watch s' = Pending.
Proof.
  revert s. induction trace as [|ev tr IH]; intros s H Hq I Es Hd Hw; simpl in H, Hq.
  - injection H as <-. auto.
  - destruct (step cfg s ev) as [s1|] eqn:E; [|discriminate].
    apply andb_prop in Hq as [Hq1 Hq2]. apply negb_true_iff in Hq1.
    destruct (step_quiet_without_downloads cfg s ev s1 E Hq1 I Es Hd Hw) as (J1 & W1 & D1).
    destruct (step_after_destroyed cfg s ev s1 E I Es) as (E1 & _).
    destruct (IH s1 H Hq2 (step_Inv cfg s ev s1 E I) E1 D1 W1) as (J2 & W2).
    split; congruence.
Qed.

(** A download event that reports no failure either leaves the counter and
    the promise alone, or is the completion of a file. *)
Lemma stepDownload_quiet (i : nat) (ev : Event) (d : Download) (s s' : Manager)
      (l : list ArtifactInfo) :
  stepDownload i ev d s = Some s' -> isFailure ev = false -> files s = Some l ->
  (finishedStreamCount s' = finishedStreamCount s /\ watch s' = watch s)
  \/ (finishedStreamCount s' = S (finishedStreamCount s)
      /\ watch s' = (if List.length l <=? S (finishedStreamCount s)
                     then resolveP (watch s) None else watch s)).
Proof.
  intros H Hf F. revert H. destruct ev; try discriminate; cbn [stepDownload];
    destruct (dlState d); intros H; try discriminate; inv_some.
  all: try (left; state_simpl; split; reflexivity).
  - (* the response, with status OK *)
    left. unfold isFailure in Hf. simpl in Hf. apply negb_false_iff in Hf.
    unfold downloadResponse. rewrite checkStatus_eq, Hf.
    destruct (isMetadataFile _); state_simpl; split; reflexivity.
  - right.
    match goal with |- context [fileWritten ?dw ?t] =>
      destruct (fileWritten_fields dw t l F) as (_ & E2 & _ & _ & _ & _ & E4)
    end.
    rewrite E2. cbn [finishedStreamCount setDownload set_downloads set_disk] in *.
    split; [reflexivity|].
    destruct (List.length l <=? S (finishedStreamCount s));
      destruct E4 as [_ E4]; exact E4.
  - right.
    match goal with |- context [fileWritten ?dw ?t] =>
      destruct (fileWritten_fields dw t l F) as (_ & E2 & _ & _ & _ & _ & E4)
    end.
    rewrite E2. cbn [finishedStreamCount setDownload set_downloads set_disk] in *.
    split; [reflexivity|].
    destruct (List.length l <=? S (finishedStreamCount s));
      destruct E4 as [_ E4]; exact E4.
Qed.

Lemma counter_le (cfg : Config) (s : Manager) (l : list ArtifactInfo) :
  Inv cfg s -> files s = Some l ->
  finishedStreamCount s = doneCount (downloads s)
  /\ finishedStreamCount s <= List.length l
  /\ List.length (downloads s) = List.length l.
Proof.
  intros (_ & _ & _ & D & _) F. unfold DownloadsOk in D. rewrite F in D.
  destruct D as (M & C & _). split; [exact C|].
  rewrite C, <- M, length_map. split; [apply doneCount_le | reflexivity].
Qed.

(** Without a failure the promise of [listenEvents] is fulfilled exactly
    when the counter has reached the length of the manifest, and the job
    promise exactly when the chained callback has run. *)
Lemma step_failure_free (cfg : Config) (s : Manager) (ev : Event) (s' : Manager)
      (l : list ArtifactInfo) :
  step cfg s ev = Some s' -> isFailure ev = false ->
  Inv cfg s -> statusStream s = StDestroyed -> files s = Some l ->
  finishedStreamCount s' <= List.length l ->
  watch s = (if finishedStreamCount s =? List.length l then Fulfilled None else Pending) ->
  job s = (if chained s then Fulfilled None else Pending) ->
  watch s' = (if finishedStreamCount s' =? List.length l then Fulfilled None else Pending)
  /\ job s' = (if chained s' then Fulfilled None else Pending).
Proof.
  intros H Hf (_ & _ & P & _) Es F.
  destruct (PhaseOk_later s P) as [U T]; [congruence|].
  revert s' H Hf. apply step_cases; intros; try discriminate; try congruence.
  all: try (match goal with
            | H : stepDownload _ _ _ _ = Some _ |- _ =>
                subst;
                destruct (stepDownload_frame _ _ _ _ _ H)
                  as (_ & _ & Ej & _ & _ & _ & _ & _ & _ & _ & _ & _ & _ & Ec & _);
                destruct (stepDownload_quiet _ _ _ _ _ l H) as [[E1 E2] | [E1 E2]];
                [assumption | assumption | |];
                rewrite Ej, Ec; (split; [|assumption])
            end).
  (* a download event that changes nothing *)
  all: try (rewrite E1, E2; assumption).
  (* the completion of a file *)
  all: try (rewrite E2; rewrite E1 in *;
            match goal with
            | Hw : watch _ = _ |- _ => rewrite Hw
            end;
            destruct (finishedStreamCount s =? List.length l) eqn:X1;
            [apply Nat.eqb_eq in X1; lia|];
            destruct (List.length l <=? S (finishedStreamCount s)) eqn:X2,
                     (S (finishedStreamCount s) =? List.length l) eqn:X3;
            try reflexivity;
            [ apply Nat.leb_le in X2; apply Nat.eqb_neq in X3; lia
            | apply Nat.leb_gt in X2; apply Nat.eqb_eq in X3; lia ]).
  all: inv_some.
  (* the chained callback *)
  all: try (match goal with
            | Hw : watch ?t = Fulfilled ?r, Hq : watch ?t = (if _ then _ else _),
              Hc : chained ?t = false, Hj : job ?t = _ |- _ =>
                rewrite Hw in Hq; rewrite Hc in Hj; state_simpl; rewrite Hj, Hw;
                destruct (finishedStreamCount t =? List.length l);
                [injection Hq as ->; split; reflexivity | discriminate]
            | Hw : watch ?t = Rejected _, Hq : watch ?t = (if _ then _ else _) |- _ =>
                rewrite Hw in Hq;
                destruct (finishedStreamCount t =? List.length l); discriminate
            end).
  all: state_simpl; split; assumption.
Qed.

Lemma run_failure_free (cfg : Config) (trace : list Event) (s s' : Manager)
      (l : list ArtifactInfo) :
  run cfg s trace = Some s' ->
  forallb (fun ev => negb (isFailure ev)) trace = true ->
  Inv cfg s -> statusStream s = StDestroyed -> files s = Some l ->
  watch s = (if finishedStreamCount s =? List.length l then Fulfilled None else Pending) ->
  job s = (if chained s then Fulfilled None else Pending) ->
  watch s' = (if finishedStreamCount s' =? List.length l then Fulfilled None else Pending)
  /\ job s' = (if chained s' then Fulfilled None else Pending).
Proof.
  revert s. induction trace as [|ev tr IH]; intros s H Hq I Es F Qw Qj; simpl in H, Hq.
  - injection H as <-. auto.
  - destruct (step cfg s ev) as [s1|] eqn:E; [|discriminate].
    apply andb_prop in Hq as [Hq1 Hq2]. apply negb_true_iff in Hq1.
    pose proof (step_Inv cfg s ev s1 E I) as I1.
    destruct (step_after_destroyed cfg s ev s1 E I Es) as (E1 & E2 & _).
    assert (F1 : files s1 = Some l) by congruence.
    destruct (counter_le cfg s1 l I1 F1) as (_ & Hle & _).
    destruct (step_failure_free cfg s ev s1 l E Hq1 I Es F Hle Qw Qj) as [Qw1 Qj1].
    exact (IH s1 H Hq2 I1 E1 F1 Qw1 Qj1).
Qed.

(** The state right after a manifest event. *)
Lemma manifest_step (cfg : Config) (s : Manager) (l : list ArtifactInfo) :
  Reachable cfg s -> statusStream s = StWatching ->
  exists id,
    jobId s = Some id
    /\ step cfg s (StatusEvent (manifest l))
       = Some (downloadAll cfg id l (set_files (Some l) (set_statusStream StDestroyed s)))
    /\ downloads s = [] /\ finishedStreamCount s = 0 /\ resolveCalls s = 0
    /\ (watch s = Pending -> chained s = false).
Proof.
  intros R Es.
  destruct (Reachable_Inv cfg s R) as (_ & (C & _) & P & D & _).
  pose proof P as (_ & _ & P3). rewrite Es in P3. destruct P3 as (J & F & R0 & _).
  destruct (jobId s) as [id|] eqn:Ej; [|now elim J].
  unfold DownloadsOk in D. rewrite F in D. destruct D as [D1 D2].
  exists id. split; [reflexivity|]. split; [cbn [step]; now rewrite Es, Ej|].
  split; [exact D1|]. split; [exact D2|]. split; [exact R0|].
  intros W. destruct (chained s); [|reflexivity].
  specialize (C eq_refl). now rewrite W in C.
Qed.

(** *** All downloads can finish *)

Lemma fileWritten_frame (d : Download) (s : Manager) (l : list ArtifactInfo) :
  files s = Some l ->
  chained (fileWritten d s) = chained s
  /\ handled (fileWritten d s) = handled s
  /\ finallyRan (fileWritten d s) = finallyRan s
  /\ destroyCalls (fileWritten d s) = destroyCalls s
  /\ statusStream (fileWritten d s) = statusStream s.
Proof.
  intros F. unfold fileWritten. state_simpl. rewrite F.
  destruct (List.length l <=? S (finishedStreamCount s)); state_simpl;
    repeat split; reflexivity.
Qed.

Lemma nth_error_middle {A : Type} (pre post : list A) (x : A) :
  nth_error (pre ++ x :: post) (List.length pre) = Some x.
Proof. induction pre; simpl; auto. Qed.

Lemma replaceAt_middle {A : Type} (pre post : list A) (x y : A) :
  replaceAt (List.length pre) y (pre ++ x :: post) = (pre ++ y :: post)%list.
Proof. induction pre as [|z pre IH]; simpl; [reflexivity | now rewrite IH]. Qed.

Lemma forallb_data_ok (i : nat) (chunks : list string) :
  forallb (fun ev => negb (isFailure ev)) (map (DownloadData i) chunks) = true.
Proof. induction chunks; simpl; auto. Qed.

Lemma completeAll_failure_free (l : list ArtifactInfo) (i : nat)
      (bodies : nat -> list string) :
  forallb (fun ev => negb (isFailure ev)) (completeAll i l bodies) = true.
Proof.
  revert i. induction l as [|a l IH]; intros i; [reflexivity|].
  cbn [completeAll]. rewrite forallb_app, IH, andb_true_r.
  destruct (isMetadataFile (file a)); unfold metadataDownload, streamedDownload;
    cbn [forallb app]; rewrite forallb_app, forallb_data_ok; reflexivity.
Qed.

Lemma run_completeAll (cfg : Config) (bodies : nat -> list string)
      (r : list ArtifactInfo) (pre : list Download) (s : Manager)
      (l : list ArtifactInfo) :
  files s = Some l ->
  downloads s = (pre ++ map (newDownload cfg) r)%list ->
  exists s',
    run cfg s (completeAll (List.length pre) r bodies) = Some s'
    /\ finishedStreamCount s' = finishedStreamCount s + List.length r
    /\ chained s' = chained s /\ job s' = job s
    /\ finallyRan s' = finallyRan s /\ destroyCalls s' = destroyCalls s.
Proof.
  revert pre s. induction r as [|a r IH]; intros pre s F D.
  - exists s. cbn [completeAll run List.length]. rewrite Nat.add_0_r.
    repeat split; reflexivity.
  - cbn [map] in D.
    assert (Hn : nth_error (downloads s) (List.length pre) = Some (newDownload cfg a)).
    { rewrite D. apply nth_error_middle. }
    cbn [completeAll].
    destruct (isMetadataFile (file a)) eqn:Hm.
    + rewrite (run_metadataDownload cfg _ _ _ s (newDownload cfg a) Hn eq_refl Hm).
      set (dw := writtenDownload (newDownload cfg a) (bufferConcat (bodies (List.length pre)))).
      set (t := setDownload (List.length pre) (withState DlDone dw) _).
      assert (Ft : files t = Some l) by exact F.
      destruct (fileWritten_fields dw t l Ft) as (E1 & E2 & E3 & _ & _ & E6 & _).
      destruct (fileWritten_frame dw t l Ft) as (G1 & _ & G3 & G4 & _).
      destruct (IH (pre ++ [withState DlDone dw])%list (fileWritten dw t)) as (s' & Hr & K).
      { now rewrite E1. }
      { rewrite E3. unfold t, setDownload. cbn [downloads set_downloads set_disk].
        rewrite D, replaceAt_middle, <- app_assoc. reflexivity. }
      rewrite length_app in Hr. cbn [List.length] in Hr. rewrite Nat.add_1_r in Hr.
      exists s'. split; [exact Hr|].
      destruct K as (K1 & K2 & K3 & K4 & K5).
      rewrite K1, K2, K3, K4, K5, E2, E6, G1, G3, G4.
      unfold t. state_simpl. cbn [List.length]. repeat split; try reflexivity. lia.
    + rewrite (run_streamedDownload cfg _ _ _ s (newDownload cfg a) Hn eq_refl Hm).
      set (dw := withState (DlPiping _) (newDownload cfg a)).
      set (t := setDownload (List.length pre) (withState DlDone (newDownload cfg a)) _).
      assert (Ft : files t = Some l) by exact F.
      destruct (fileWritten_fields dw t l Ft) as (E1 & E2 & E3 & _ & _ & E6 & _).
      destruct (fileWritten_frame dw t l Ft) as (G1 & _ & G3 & G4 & _).
      destruct (IH (pre ++ [withState DlDone (newDownload cfg a)])%list
                  (fileWritten dw t)) as (s' & Hr & K).
      { now rewrite E1. }
      { rewrite E3. unfold t, setDownload. cbn [downloads set_downloads set_disk].
        rewrite D, replaceAt_middle, <- app_assoc. reflexivity. }
      rewrite length_app in Hr. cbn [List.length] in Hr. rewrite Nat.add_1_r in Hr.
      exists s'. split; [exact Hr|].
      destruct K as (K1 & K2 & K3 & K4 & K5).
      rewrite K1, K2, K3, K4, K5, E2, E6, G1, G3, G4.
      unfold t. state_simpl. cbn [List.length]. repeat split; try reflexivity. lia.
Qed.

(** ** The empty manifest *)

(** C10, as stated, fails in its last clause: after an empty manifest the
    job is pending, and an error of the compressor process, which is no
    event of the transport, rejects it. *)
Lemma empty_manifest_job_ended_by_compressor :
  run exampleConfig (build exampleConfig [])
      (untilWatching ++ [StatusEvent (manifest [])]) = Some afterEmptyManifest
  /\ downloads afterEmptyManifest = [] /\ job afterEmptyManifest = Pending
  /\ isTransportEvent (ZstdProcessError (RuntimeError "EPIPE")) = false
  /\ exists s1,
       step exampleConfig afterEmptyManifest (ZstdProcessError (RuntimeError "EPIPE"))
       = Some s1
       /\ job s1 = Rejected (RuntimeError "EPIPE").
Proof.
  split; [vm_compute; reflexivity|].
  split; [vm_compute; reflexivity|]. split; [vm_compute; reflexivity|].
  split; [reflexivity|].
  exists (jobReject (RuntimeError "EPIPE") afterEmptyManifest).
  split; vm_compute; reflexivity.
Qed.

(** C10, amended: when the manifest event of a watched status stream lists no
    artifact, the handler destroys the stream and calls neither [resolve]
    nor [reject]: no download stream is opened and both promises are as
    they were.  From then on, whatever events follow, [resolve] is never
    called, so neither promise is ever fulfilled, no stream is opened and
    the counter stays at zero; and as long as no event reports an error
    (of the session, of a stream, of the compression processes or of the
    info file) and the session neither closes nor times out, a pending job
    stays pending. *)
Theorem empty_manifest_never_resolves (cfg : Config) (s : Manager) :
  Reachable cfg s -> statusStream s = StWatching ->
  exists s0,
    step cfg s (StatusEvent (manifest [])) = Some s0
    /\ statusStream s0 = StDestroyed
    /\ requests s0 = requests s /\ downloads s0 = []
    /\ watch s0 = watch s /\ job s0 = job s /\ resolveCalls s0 = 0
    /\ forall trace s',
         run cfg s0 trace = Some s' ->
         resolveCalls s' = 0
         /\ (forall v, watch s' <> Fulfilled v)
         /\ (forall v, job s' <> Fulfilled v)
         /\ requests s' = requests s /\ downloads s' = []
         /\ finishedStreamCount s' = 0
         /\ (watch s = Pending ->
             forallb (fun ev => negb (errorCloseOrTimeout ev)) trace = true ->
             job s' = job s /\ watch s' = Pending).
Proof.
  intros R Es.
  destruct (manifest_step cfg s [] R Es) as (id & Ej & H & D1 & D2 & R0 & _).
  cbn [downloadAll] in H.
  exists (set_files (Some []) (set_statusStream StDestroyed s)).
  split; [exact H|].
  pose proof (Reachable_step cfg s _ _ R H) as R1.
  pose proof (Reachable_Inv cfg _ R1) as I1.
  state_simpl.
  split; [reflexivity|]. split; [reflexivity|]. split; [exact D1|].
  split; [reflexivity|]. split; [reflexivity|]. split; [exact R0|].
  intros trace s' Hrun.
  destruct (run_after_destroyed cfg trace _ s' Hrun I1 eq_refl)
    as (I' & Es' & F' & Rq' & L').
  cbn [files requests downloads set_files set_statusStream] in F', Rq', L'.
  rewrite D1 in L'. apply length_zero_iff_nil in L'.
  destruct (counter_le cfg s' [] I' F') as (_ & Hc & _). simpl in Hc.
  destruct I' as (_ & (_ & _ & Cj) & _ & D' & _).
  unfold DownloadsOk in D'. rewrite F' in D'. destruct D' as (_ & _ & Rc & Wf).
  assert (Wn : forall v, watch s' <> Fulfilled v).
  { intros v Hw. destruct (Wf v Hw) as (_ & _ & N). now elim N. }
  split; [exact Rc|]. split; [exact Wn|].
  split; [intros v Hj; destruct (Cj v Hj) as (Hw & _); now elim (Wn v)|].
  split; [exact Rq'|]. split; [exact L'|]. split; [lia|].
  intros W Hq.
  apply (run_quiet_without_downloads cfg trace _ s' Hrun Hq I1 eq_refl D1 W).
Qed.

(** ** The completion barrier *)

(** C1: for a job id that leaves the download URLs without authority,
    the manifest event for [n >= 1] artifacts starts the [n] downloads, each
    requested at its path, and from then on, in every state the build can
    reach: the counter is the number of finished downloads
    and at most [n]; [fileWritten] has called [resolve] once if the counter
    is [n] and never otherwise; either promise, if fulfilled, is fulfilled
    with [null] and the counter is [n]; and every event leaves the counter
    as it is or, being the completion of one file, adds exactly one.  If
    both promises were pending at the manifest and no failure is reported,
    the promise of [listenEvents] is fulfilled exactly when the counter is
    [n], and the job promise is fulfilled exactly when the callback
    chained to it has run, which needs the counter to be [n].  And the
    build can get there: when every download runs to its end, whatever the
    bodies, the counter is [n], the chained callback fulfils the job with
    [null] and the [finally] callback destroys the session, once. *)
Theorem job_resolves_when_all_finished
        (cfg : Config) (s : Manager) (id : string) (l : list ArtifactInfo) :
  Reachable cfg s -> statusStream s = StWatching ->
  jobId s = Some id -> hasNoAuthority id = true -> l <> [] ->
  exists s0,
    step cfg s (StatusEvent (manifest l)) = Some s0
    /\ files s0 = Some l /\ finishedStreamCount s0 = 0
    /\ downloads s0 = map (newDownload cfg) l
    /\ (forall a, In a l ->
          exists p, downloadPath id (file a) = Some p
                    /\ In (Get (Some p)) (requests s0))
    /\ (forall trace s',
         run cfg s0 trace = Some s' ->
         finishedStreamCount s' = doneCount (downloads s')
         /\ finishedStreamCount s' <= List.length l
         /\ resolveCalls s'
            = (if finishedStreamCount s' =? List.length l then 1 else 0)
         /\ (forall v, watch s' = Fulfilled v ->
               v = None /\ finishedStreamCount s' = List.length l)
         /\ (forall v, job s' = Fulfilled v ->
               v = None /\ finishedStreamCount s' = List.length l)
         /\ (forall ev s'',
               step cfg s' ev = Some s'' ->
               finishedStreamCount s'' = finishedStreamCount s'
               \/ (finishedStreamCount s'' = S (finishedStreamCount s')
                   /\ exists i, ev = OutputFileDone i \/ ev = FileStreamClose i))
         /\ (watch s = Pending -> job s = Pending ->
             forallb (fun ev => negb (isFailure ev)) trace = true ->
             watch s'
             = (if finishedStreamCount s' =? List.length l
                then Fulfilled None else Pending)
             /\ job s' = (if chained s' then Fulfilled None else Pending)
             /\ (chained s' = true -> finishedStreamCount s' = List.length l)))
    /\ (watch s = Pending -> job s = Pending ->
        forall bodies,
        exists s',
          run cfg s0 (completeAll 0 l bodies ++ [WatchSettled; JobFinally]) = Some s'
          /\ finishedStreamCount s' = List.length l
          /\ job s' = Fulfilled None
          /\ destroyCalls s' = 1).
Proof.
  intros R Es Hid Ha Hl.
  destruct (manifest_step cfg s l R Es) as (id0 & Ej & H & D1 & D2 & R0 & C0).
  assert (id0 = id) by congruence. subst id0.
  rewrite downloadAll_eq in H.
  cbn [downloads logs requests set_files set_statusStream] in H.
  rewrite D1 in H. cbn [app] in H.
  eexists. split; [exact H|].
  pose proof (Reachable_step cfg s _ _ R H) as R1.
  pose proof (Reachable_Inv cfg _ R1) as I1.
  state_simpl.
  split; [reflexivity|]. split; [exact D2|]. split; [reflexivity|].
  split.
  { intros a Hin. destruct (pathname_defined id (file a) Ha) as [q Eq].
    exists ("/v1/download" ++ q). unfold downloadPath at 1. rewrite Eq.
    split; [reflexivity|].
    apply in_or_app. right. apply in_map_iff. exists a.
    split; [unfold downloadPath; now rewrite Eq | exact Hin]. }
  assert (N0 : (0 =? List.length l) = false).
  { destruct l; [now elim Hl | reflexivity]. }
  match goal with
  | |- (forall trace s', run cfg ?s0 trace = Some s' -> _) /\ _ => set (t0 := s0) in *
  end.
  assert (Safe : forall trace s',
             run cfg t0 trace = Some s' ->
             Inv cfg s' /\ files s' = Some l
             /\ (watch s = Pending -> job s = Pending ->
                 forallb (fun ev => negb (isFailure ev)) trace = true ->
                 watch s'
                 = (if finishedStreamCount s' =? List.length l
                    then Fulfilled None else Pending)
                 /\ job s' = (if chained s' then Fulfilled None else Pending))).
  { intros trace s' Hrun.
    destruct (run_after_destroyed cfg trace _ s' Hrun I1 eq_refl)
      as (I' & Es' & F' & _).
    split; [exact I'|]. split; [exact F'|].
    intros W J Hq.
    apply (run_failure_free cfg trace _ s' l Hrun Hq I1 eq_refl eq_refl).
    - unfold t0. state_simpl. now rewrite D2, N0.
    - unfold t0. state_simpl. now rewrite (C0 W). }
  split.
  2:{ intros W J bodies.
      destruct (run_completeAll cfg bodies l [] t0 l eq_refl eq_refl)
        as (sA & Hr & K1 & K2 & K3 & K4 & K5).
      cbn [List.length] in Hr.
      destruct (Safe _ _ Hr) as (_ & _ & Q).
      destruct (Q W J (completeAll_failure_free l 0 bodies)) as [Qw _].
      unfold t0 in K1, K2, K3, K4, K5.
      cbn [finishedStreamCount chained job finallyRan destroyCalls
           set_logs set_requests set_downloads set_files set_statusStream] in K1, K2, K3, K4, K5.
      rewrite D2 in K1. cbn [Nat.add] in K1.
      rewrite (C0 W) in K2. rewrite J in K3.
      rewrite K1, Nat.eqb_refl in Qw.
      destruct (Reachable_Inv cfg s R) as ((Sd & Sf) & _).
      assert (Hf : finallyRan s = false).
      { destruct (finallyRan s); [|reflexivity]. specialize (Sf eq_refl).
        now rewrite J in Sf. }
      rewrite Hf in K4, Sd. rewrite Sd in K5.
      eexists. split.
      - rewrite run_app, Hr. cbn [run step]. rewrite K2, Qw.
        cbn [job jobResolve set_job set_handled set_chained resolveP settled
             finallyRan negb andb].
        rewrite K3, K4. cbn [resolveP settled negb andb]. reflexivity.
      - cbn [finishedStreamCount job destroyCalls jobResolve set_destroyCalls
             set_finallyRan set_job set_handled set_chained].
        rewrite K1, K3, K5. repeat split; reflexivity. }
  intros trace s' Hrun.
  destruct (Safe trace s' Hrun) as (I' & F' & Q).
  destruct (counter_le cfg s' l I' F') as (Hc & Hle & _).
  pose proof I' as (_ & (Cc & _ & Cj) & _ & D' & _).
  unfold DownloadsOk in D'. rewrite F' in D'. destruct D' as (_ & _ & Rc & Wf).
  assert (Wn : forall v, watch s' = Fulfilled v ->
                         v = None /\ finishedStreamCount s' = List.length l).
  { intros v Hw. destruct (Wf v Hw) as (? & ? & _). auto. }
  split; [exact Hc|]. split; [exact Hle|].
  split; [rewrite Rc; unfold expectedResolveCalls; destruct l; [now elim Hl | reflexivity]|].
  split; [exact Wn|].
  split; [intros v Hj; destruct (Cj v Hj) as (Hw & _); now apply Wn|].
  split; [intros ev s''; apply step_counter|].
  intros W J Hq.
  destruct (Q W J Hq) as [Qw Qj].
  split; [exact Qw|]. split; [exact Qj|].
  intros Hch. specialize (Cc Hch). rewrite Qw in Cc.
  destruct (finishedStreamCount s' =? List.length l) eqn:X; [|discriminate].
  now apply Nat.eqb_eq in X.
Qed.

(** ** The properties on a concrete build *)

Lemma untilWatching_reachable :
  Reachable exampleConfig (stateAfter exampleConfig untilWatching)
  /\ statusStream (stateAfter exampleConfig untilWatching) = StWatching
  /\ watch (stateAfter exampleConfig untilWatching) = Pending
  /\ job (stateAfter exampleConfig untilWatching) = Pending.
Proof.
  split; [exists [], untilWatching; vm_compute; reflexivity|].
  vm_compute. repeat split; reflexivity.
Qed.

Lemma job_resolves_when_all_finished_witness :
  exists s0 s',
    step exampleConfig (stateAfter exampleConfig untilWatching)
         (StatusEvent (manifest exampleManifest)) = Some s0
    /\ files s0 = Some exampleManifest
    /\ run exampleConfig s0
           (completeAll 0 exampleManifest exampleBodies ++ [WatchSettled; JobFinally])
       = Some s'
    /\ finishedStreamCount s' = 2
    /\ job s' = Fulfilled None
    /\ destroyCalls s' = 1.
Proof.
  destruct untilWatching_reachable as (R & Es & W & J).
  destruct (job_resolves_when_all_finished exampleConfig _ "job1" exampleManifest R Es
              ltac:(vm_compute; reflexivity) eq_refl ltac:(discriminate))
    as (s0 & H & F & _ & _ & _ & _ & L).
  destruct (L W J exampleBodies) as (s' & Hr & C & Jr & D).
  exists s0, s'. repeat split; assumption.
Defined.

Lemma empty_manifest_never_resolves_witness :
  exists s0,
    step exampleConfig (stateAfter exampleConfig untilWatching) (StatusEvent (manifest []))
    = Some s0
    /\ downloads s0 = []
    /\ forall s',
         run exampleConfig s0 [ZstdStdoutEnd; TarExit 0; ZstdExit 0] = Some s' ->
         job s' = Pending /\ resolveCalls s' = 0.
Proof.
  destruct untilWatching_reachable as (R & Es & W & J).
  destruct (empty_manifest_never_resolves exampleConfig _ R Es)
    as (s0 & H & _ & _ & D & _ & _ & _ & T).
  exists s0. split; [exact H|]. split; [exact D|].
  intros s' Hr. destruct (T _ s' Hr) as (Rc & _ & _ & _ & _ & _ & Q).
  destruct (Q W eq_refl) as [Jq _]. split; [congruence | exact Rc].
Defined.


Lemma metadata_buffered_binary_streamed_witness :
  (exists s',
     run exampleConfig afterManifest (metadataDownload 0 ["ab"; "cd"]) = Some s'
     /\ finishedStreamCount s' = S (finishedStreamCount afterManifest)
     /\ disk s' = (disk afterManifest ++ [("/project/dist/latest.yml", "abcd")])%list)
  /\ (exists s',
        run exampleConfig afterManifest (streamedDownload 1 ["ab"; "cd"]) = Some s'
        /\ finishedStreamCount s' = S (finishedStreamCount afterManifest)
        /\ disk s' = (disk afterManifest ++ [("/project/dist/app.exe", "abcd")])%list).
Proof.
  assert (R : Reachable exampleConfig afterManifest).
  { exists [], (untilWatching ++ [StatusEvent (manifest exampleManifest)])%list.
    vm_compute. reflexivity. }
  split.
  - assert (Hn : nth_error (downloads afterManifest) 0
                 = Some (newDownload exampleConfig (exampleArtifact "latest.yml")))
      by (vm_compute; reflexivity).
    destruct (metadata_buffered_binary_streamed exampleConfig afterManifest 0 _
                ["ab"; "cd"] R Hn eq_refl) as (_ & _ & _ & M & _).
    destruct (M eq_refl) as (_ & s' & Hr & C & _ & _ & Dk & _).
    exists s'. repeat split; assumption.
  - assert (Hn : nth_error (downloads afterManifest) 1
                 = Some (newDownload exampleConfig (exampleArtifact "app.exe")))
      by (vm_compute; reflexivity).
    destruct (metadata_buffered_binary_streamed exampleConfig afterManifest 1 _
                ["ab"; "cd"] R Hn eq_refl) as (_ & _ & _ & _ & B & _).
    destruct (B eq_refl) as (_ & s' & Hr & C & _ & Dk & _).
    exists s'. repeat split; assumption.
Defined.

(** * Further properties of the build *)

(** ** The headers of the upload request *)

Lemma getKey_setKey {A : Type} (k k' : string) (v : A) (l : list (string * A)) :
  getKey k (setKey k' v l) = if String.eqb k' k then Some v else getKey k l.
Proof.
  induction l as [|[k0 w] l IH]; simpl.
  - reflexivity.
  - destruct (String.eqb k0 k') eqn:E0; simpl.
    + apply String.eqb_eq in E0. subst k0. now destruct (String.eqb k' k).
    + destruct (String.eqb k0 k) eqn:E1; [|exact IH].
      destruct (String.eqb k' k) eqn:E2; [|reflexivity].
      apply String.eqb_eq in E1, E2. subst. now rewrite String.eqb_refl in E0.
Qed.

Lemma getKey_app {A : Type} (k : string) (a b : list (string * A)) :
  getKey k (a ++ b) = match getKey k a with Some v => Some v | None => getKey k b end.
Proof.
  induction a as [|[k0 w] a IH]; simpl; [reflexivity|].
  now destruct (String.eqb k0 k).
Qed.

(** Assigning the entries of [l] one after the other: the last entry for a
    key decides. *)
Lemma getKey_assign {A : Type} (k : string) (l acc : list (string * A)) :
  getKey k (fold_left (fun acc kv => setKey (fst kv) (snd kv) acc) l acc)
  = match getKey k (rev l) with Some v => Some v | None => getKey k acc end.
Proof.
  revert acc. induction l as [|[k0 w] l IH]; intros acc; simpl; [reflexivity|].
  rewrite IH, getKey_app, getKey_setKey. simpl.
  destruct (getKey k (rev l)); [reflexivity|].
  now destruct (String.eqb k0 k).
Qed.

(** X1: whatever custom headers the caller gives, the upload request
    carries the compression level the class computed in
    [x-zstd-compression-level]; for every other header name the custom
    value wins over the fixed one ([:path], [:method], [content-type]), the
    last custom entry for a name deciding, and a name that is neither
    custom nor fixed is absent. *)
Theorem upload_headers_precedence
        (cfg : Config) (customHeaders : list (string * string)) (k : string) :
  getKey k (uploadHeaders cfg customHeaders)
  = if String.eqb k "x-zstd-compression-level"
    then Some (getZstdCompressionLevel (zstdEnv cfg) (buildServiceEndpoint cfg))
    else match getKey k (rev customHeaders) with
         | Some v => Some v
         | None =>
             if String.eqb k ":path" then Some "/v1/upload"
             else if String.eqb k ":method" then Some "POST"
             else if String.eqb k "content-type" then Some "application/octet-stream"
             else None
         end.
Proof.
  unfold uploadHeaders. rewrite getKey_assign.
  rewrite !rev_app_distr. cbn [rev app fst snd getKey]. rewrite (String.eqb_sym k).
  destruct (String.eqb "x-zstd-compression-level" k); [reflexivity|].
  rewrite getKey_app.
  destruct (getKey k (rev customHeaders)); [reflexivity|].
  cbn [getKey]. rewrite !(String.eqb_sym k).
  destruct (String.eqb "content-type" k) eqn:E1;
    destruct (String.eqb ":method" k) eqn:E2;
    destruct (String.eqb ":path" k) eqn:E3; try reflexivity;
    apply String.eqb_eq in E1 || apply String.eqb_eq in E2;
    subst; discriminate.
Qed.

(** ** The request path of a download, whatever the names *)

Section DownloadPath.

Import Url.

Ltac by_char c := destruct c as [[|] [|] [|] [|] [|] [|] [|] [|]].

Lemma encodeChar_safe (c : ascii) : allChars pathSafe (encodeChar c) = true.
Proof. by_char c; reflexivity. Qed.

Lemma safeSegments_removelast (path : list string) :
  safeSegments path -> safeSegments (removelast path).
Proof.
  induction path as [|x path IH]; intros H; [exact H|].
  inversion H; subst. simpl. destruct path; [constructor|].
  constructor; [assumption | now apply IH].
Qed.

Lemma endSegment_safe (buffer : string) (path : list string) (slash : bool) :
  allChars pathSafe buffer = true -> safeSegments path ->
  safeSegments (endSegment buffer path slash).
Proof.
  intros Hb Hp. unfold endSegment, shorten, safeSegments.
  destruct (isDoubleDot buffer); [|destruct (isSingleDot buffer)]; destruct slash;
    rewrite ?Forall_app; repeat split;
    try (apply safeSegments_removelast); try assumption;
    repeat constructor; assumption.
Qed.

Lemma endSegment_last (buffer : string) (path : list string) :
  endSegment buffer path false <> [].
Proof.
  unfold endSegment.
  destruct (isDoubleDot buffer); [|destruct (isSingleDot buffer)];
    intros H; apply app_eq_nil in H as [_ H]; discriminate.
Qed.

Lemma pathState_safe (input buffer : string) (path : list string) :
  allChars pathSafe buffer = true -> safeSegments path ->
  safeSegments (pathState input buffer path) /\ pathState input buffer path <> [].
Proof.
  revert buffer path. induction input as [|c rest IH]; intros buffer path Hb Hp; simpl.
  - split; [now apply endSegment_safe | apply endSegment_last].
  - destruct (Ascii.eqb c "?" || Ascii.eqb c "#").
    + split; [now apply endSegment_safe | apply endSegment_last].
    + destruct (Ascii.eqb c "/").
      * apply IH; [reflexivity | now apply endSegment_safe].
      * apply IH; [|exact Hp]. now rewrite allChars_app, Hb, encodeChar_safe.
Qed.

Lemma serializePath_safe (path : list string) :
  safeSegments path -> allChars pathSafe (serializePath path) = true.
Proof.
  induction 1 as [|seg path Hs _ IH]; [reflexivity|].
  cbn [serializePath]. change (String "/" seg ++ serializePath path)
    with (String "/" (seg ++ serializePath path)).
  cbn [allChars]. now rewrite allChars_app, Hs, IH.
Qed.

Lemma serializePath_slash (path : list string) :
  path <> [] -> exists r, serializePath path = String "/" r.
Proof. destruct path as [|seg path]; [congruence|]. intros _. simpl. eauto. Qed.

Lemma pathname_safe (input p : string) :
  pathname input = Some p ->
  allChars pathSafe p = true /\ exists r, p = String "/" r.
Proof.
  unfold pathname.
  destruct (removeTabNewline (trimEnd (trimStart input))) as [|c0 s0]; [discriminate|].
  destruct s0 as [|c1 s1]; [by_char c0; discriminate|].
  destruct s1 as [|c2 rest]; [by_char c0; try discriminate; by_char c1; discriminate|].
  by_char c0; try discriminate; by_char c1; try discriminate;
    by_char c2; try discriminate.
  intros H.
  assert (G : Some (serializePath (pathState rest EmptyString [])) = Some p).
  { destruct rest as [|c r]; [exact H|]. destruct (Ascii.eqb c "/"); [discriminate | exact H]. }
  injection G as <-.
  destruct (pathState_safe rest EmptyString [] eq_refl (Forall_nil _)) as [S N].
  split; [now apply serializePath_safe | now apply serializePath_slash].
Qed.

End DownloadPath.

(** X2: for a job id that leaves the URL of line 210 without authority
    (it is not empty and does not begin with [/]), whatever the id and the
    file name hold (spaces, non-ASCII characters, [?], [#], dot segments,
    anything), the download path is built, begins with [/v1/download/] and
    consists of printable ASCII characters outside the path percent-encode
    set only: no space, no control character, no byte of a non-ASCII
    character, no [?] and no [#] reaches the request. *)
Theorem download_path_is_escaped (id file : string) :
  hasNoAuthority id = true ->
  exists p, downloadPath id file = Some p
            /\ startsWith p "/v1/download/" = true /\ allChars pathSafe p = true.
Proof.
  unfold downloadPath. intros H.
  destruct (pathname_defined id file H) as [q E]. rewrite E.
  eexists. split; [reflexivity|].
  destruct (pathname_safe _ _ E) as (S & r & ->).
  split; [exact (prefix_app "/v1/download/" r)|].
  change (allChars pathSafe ("/v1/download" ++ String "/" r) = true).
  now rewrite allChars_app, S.
Qed.

Lemma download_path_is_escaped_witness :
  exists p,
    downloadPath "job 1" ("a " ++ String "195" (String "159" EmptyString) ++ "?x=1")
    = Some p
    /\ startsWith p "/v1/download/" = true /\ allChars pathSafe p = true.
Proof.
  apply (download_path_is_escaped "job 1"
           ("a " ++ String "195" (String "159" EmptyString) ++ "?x=1")).
  reflexivity.
Defined.

(** ** Dot segments in a file name *)

Lemma pathname_parent (id file : string) :
  id <> EmptyString -> Url.plainSegment id = true -> Url.plainSegment file = true ->
  Url.noTrailingBlank file = true ->
  Url.pathname ("f:/" ++ id ++ "/" ++ "../" ++ file) = Some ("/" ++ Url.encodeString file).
Proof.
  intros Hne Hid Hfile Hend.
  assert (Pid : allChars Url.plainChar id = true).
  { unfold Url.plainSegment in Hid. apply andb_prop in Hid as [H _].
    now apply andb_prop in H as [H _]. }
  assert (Pfile : allChars Url.plainChar file = true).
  { unfold Url.plainSegment in Hfile. apply andb_prop in Hfile as [H _].
    now apply andb_prop in H as [H _]. }
  assert (Hkeep : forall c, Url.plainChar c = true -> negb (Url.isTabOrNewline c) = true).
  { intros c Hc. destruct (plainChar_tests c Hc) as (_ & _ & _ & T). now rewrite T. }
  set (rest := id ++ "/" ++ "../" ++ file).
  assert (E1 : Url.removeTabNewline (Url.trimEnd (Url.trimStart ("f:/" ++ rest)))
               = "f:/" ++ rest).
  { replace (Url.trimStart ("f:/" ++ rest)) with ("f:/" ++ rest) by reflexivity.
    rewrite trimEnd_clean.
    - apply filterChars_all. unfold rest.
      change ("f:/" ++ id ++ "/" ++ "../" ++ file) with ("f:/" ++ id ++ "/../" ++ file).
      rewrite !allChars_app.
      rewrite (allChars_weaken _ _ id Hkeep Pid), (allChars_weaken _ _ file Hkeep Pfile).
      reflexivity.
    - unfold rest.
      change ("f:/" ++ id ++ "/" ++ "../" ++ file) with ("f:/" ++ id ++ "/.." ++ "/" ++ file).
      rewrite <- (append_assoc id "/.." ("/" ++ file)).
      rewrite <- (append_assoc "f:/" (id ++ "/..") ("/" ++ file)).
      apply noTrailingBlank_app; [discriminate|].
      destruct file; [reflexivity | exact Hend]. }
  unfold Url.pathname. fold rest. rewrite E1.
  assert (E2 : Url.pathState rest EmptyString [] = [Url.encodeString file]).
  { unfold rest. rewrite pathState_plain by exact Pid.
    cbn [Url.pathState append Ascii.eqb Bool.eqb orb].
    rewrite endSegment_plain by exact Hid.
    cbn [app Url.endSegment Url.isDoubleDot Url.lower Url.lowerChar].
    replace (Url.endSegment ".." [Url.encodeString id] true) with (@nil string)
      by reflexivity.
    rewrite <- (append_nil_r file) at 1.
    rewrite pathState_plain by exact Pfile.
    cbn [Url.pathState append]. now rewrite endSegment_plain by exact Hfile. }
  cbn [append]. unfold rest at 1.
  destruct id as [|c id']; [now elim Hne|].
  cbn [append].
  simpl in Pid. apply andb_prop in Pid as [Hc _].
  destruct (plainChar_tests c Hc) as (_ & S1 & _ & _). rewrite S1.
  fold (String c id' ++ "/" ++ "../" ++ file). fold rest. rewrite E2.
  cbn [Url.serializePath append]. now rewrite append_nil_r.
Qed.

(** X3: a file name is parsed as URL text, so its dot segments are
    resolved against the job id: for a file name [../NAME] the job id is
    dropped and the request path is [/v1/download/NAME], the path of a
    download outside the directory of the job. *)
Theorem download_path_parent_segment (id file : string) :
  id <> EmptyString ->
  Url.plainSegment id = true -> Url.plainSegment file = true ->
  Url.noTrailingBlank file = true ->
  downloadPath id ("../" ++ file) = Some ("/v1/download/" ++ Url.encodeString file).
Proof.
  intros Hne Hid Hfile Hend. unfold downloadPath.
  now rewrite pathname_parent.
Qed.

Lemma download_path_parent_segment_witness :
  downloadPath "job1" "../app.exe" = Some "/v1/download/app.exe".
Proof.
  exact (download_path_parent_segment "job1" "app.exe" ltac:(discriminate)
           eq_refl eq_refl eq_refl).
Defined.

(** ** Names with directories *)

(** X26: for a job id and a file name made of plain characters (none of
    [% ? #], tab, line feed, carriage return) and slashes, with no segment
    [.] or [..], the id not empty and not beginning with [/], the name not
    ending in a space or a control character: whatever spaces and bytes of
    non-ASCII characters they hold, and whatever directories the name has,
    the download path is [/v1/download/] followed by the id, [/] and the
    name, escaped byte by byte with the slashes kept, and percent-decoding
    it gives the id and the name back. *)
Theorem download_path_round_trip (id file : string) :
  hasNoAuthority id = true ->
  plainName id = true -> plainName file = true ->
  Url.noTrailingBlank file = true ->
  downloadPath id file
  = Some ("/v1/download/" ++ Url.encodeString (id ++ "/" ++ file))
  /\ option_map Url.percentDecode (downloadPath id file)
     = Some ("/v1/download/" ++ id ++ "/" ++ file).
Proof.
  intros Ha Hid Hfile Hend.
  assert (E : downloadPath id file
              = Some ("/v1/download/" ++ Url.encodeString (id ++ "/" ++ file))).
  { unfold downloadPath. now rewrite pathname_name. }
  split; [exact E|].
  rewrite E. cbn [option_map]. f_equal.
  change (Url.percentDecode ("/v1/download/" ++ Url.encodeString (id ++ "/" ++ file)))
    with ("/v1/download/" ++ Url.percentDecode (Url.encodeString (id ++ "/" ++ file))).
  f_equal.
  rewrite <- (append_nil_r (Url.encodeString (id ++ "/" ++ file))).
  rewrite decode_encodeName; [cbn [Url.percentDecode]; now rewrite append_nil_r|].
  unfold plainName in Hid, Hfile.
  apply andb_prop in Hid as [Nid _]. apply andb_prop in Hfile as [Nfile _].
  now rewrite !allChars_app, Nid, Nfile.
Qed.

Lemma download_path_round_trip_witness :
  let eszett := String "195" (String "159" EmptyString) in
  let file := "sub dir/boo-Test App " ++ eszett ++ "W.exe" in
  downloadPath "job1" file
  = Some ("/v1/download/job1/sub%20dir/boo-Test%20App%20%C3%9FW.exe")
  /\ option_map Url.percentDecode (downloadPath "job1" file)
     = Some ("/v1/download/job1/" ++ file).
Proof.
  exact (download_path_round_trip "job1"
           ("sub dir/boo-Test App " ++ String "195" (String "159" EmptyString) ++ "W.exe")
           eq_refl eq_refl eq_refl eq_refl).
Defined.

(** ** The streams of a build *)

Lemma step_requests (cfg : Config) (h : list (string * string))
      (s : Manager) (ev : Event) (s' : Manager) :
  step cfg s ev = Some s' -> Inv cfg s ->
  requests s = expectedRequests cfg h s -> requests s' = expectedRequests cfg h s'.
Proof.
  intros H (_ & _ & P & _) R. unfold expectedRequests in *.
  revert s' H. apply step_cases; intros; try discriminate.
  all: try (match goal with
            | H : stepDownload _ _ _ _ = Some _ |- _ =>
                destruct (stepDownload_frame _ _ _ _ _ H)
                  as (-> & _ & _ & _ & _ & _ & _ & -> & _ & _ & _ & _ & -> & _)
            | H : uploadEnd _ _ _ = Some _ |- _ =>
                destruct (uploadEnd_frame _ _ _ _ H)
                  as (-> & _ & _ & _ & _ & _ & _ & -> & _ & _ & -> & _)
            end; exact R).
  all: inv_some; try inv_checkStatus.
  all: try (state_simpl; exact R).
  - (* the timer fires: [listenEvents] *)
    destruct P as (_ & T & P3).
    match goal with Ht : timer s = Some _ |- _ => specialize (T _ Ht) end.
    rewrite T in P3. destruct P3 as (J & _ & _ & F & _).
    state_simpl. rewrite R, J, F. reflexivity.
  - (* an event of the status stream *)
    destruct P as (_ & _ & P3).
    match goal with Hs : statusStream s = StWatching |- _ => rewrite Hs in P3 end.
    destruct P3 as (_ & F & _).
    match goal with Hj : jobId s = Some _ |- _ => rewrite Hj in R end.
    rewrite F in R.
    apply statusEvent_cases; intros; state_simpl;
      match goal with Hj : jobId s = Some _ |- _ => rewrite Hj end;
      rewrite ?F, R; reflexivity.
Qed.

Lemma run_requests (cfg : Config) (h : list (string * string))
      (trace : list Event) (s s' : Manager) :
  run cfg s trace = Some s' -> Inv cfg s ->
  requests s = expectedRequests cfg h s -> requests s' = expectedRequests cfg h s'.
Proof.
  revert s. induction trace as [|ev tr IH]; intros s H I R; simpl in H.
  - now injection H as <-.
  - destruct (step cfg s ev) as [s1|] eqn:E; [|discriminate].
    apply (IH s1 H); [eapply step_Inv | eapply step_requests]; eassumption.
Qed.

Lemma build_requests (cfg : Config) (h : list (string * string)) :
  requests (build cfg h) = expectedRequests cfg h (build cfg h).
Proof.
  unfold build, upload, uploadUnpackedAppArchive, expectedRequests.
  destruct (String.eqb (buildResourcesDir cfg) (projectDir cfg)); state_simpl; reflexivity.
Qed.

(** X4: at every moment of a build at which the job has not been
    rejected, and for a job id that leaves the download URLs without
    authority, the streams opened on the session are exactly: the upload
    request with the merged headers; after it, once the timer has fired,
    the status request [/v1/status/ID] with the id as the server gave it;
    after it, once the manifest has come, one download request per
    artifact, in the order of the manifest, each with a path.  Nothing is
    requested twice and nothing else is requested. *)
Theorem requests_follow_the_phases
        (cfg : Config) (customHeaders : list (string * string))
        (trace : list Event) (s : Manager) :
  run cfg (build cfg customHeaders) trace = Some s ->
  isRejected (job s) = false -> pathsBuilt s = true ->
  requests s
  = Post (uploadHeaders cfg customHeaders)
    :: match jobId s with
       | None => []
       | Some id =>
           Get (Some ("/v1/status/" ++ id))
           :: match files s with
              | Some l => map (fun a => Get (downloadPath id (file a))) l
              | None => []
              end
       end
  /\ forall r, In r (requests s) -> r <> Get None.
Proof.
  intros H _ Pb.
  pose proof (run_requests cfg customHeaders trace _ s H (build_Inv cfg customHeaders)
                (build_requests cfg customHeaders)) as E.
  unfold expectedRequests in E. split; [exact E|].
  intros r Hin. rewrite E in Hin. unfold pathsBuilt in Pb.
  destruct Hin as [<- | Hin]; [discriminate|].
  destruct (jobId s) as [id|]; [|now elim Hin].
  destruct Hin as [<- | Hin]; [discriminate|].
  destruct (files s) as [l|]; [|now elim Hin].
  apply in_map_iff in Hin as (a & <- & _).
  destruct (pathname_defined id (file a) Pb) as [q Eq].
  unfold downloadPath. rewrite Eq. discriminate.
Qed.

Lemma requests_follow_the_phases_witness :
  requests (stateAfter exampleConfig wholeBuild)
  = [Post (uploadHeaders exampleConfig []);
     Get (Some "/v1/status/job1");
     Get (Some "/v1/download/job1/latest.yml");
     Get (Some "/v1/download/job1/app.exe")].
Proof.
  rewrite (proj1 (requests_follow_the_phases exampleConfig [] wholeBuild
                    (stateAfter exampleConfig wholeBuild)
                    ltac:(vm_compute; reflexivity) ltac:(vm_compute; reflexivity)
                    ltac:(vm_compute; reflexivity))).
  vm_compute. reflexivity.
Defined.

(** ** Close and timeout of the session *)

(** X5: at whatever moment of a build the job is still pending, the close
    of the session rejects it with [Closed unexpectedly], its timeout
    rejects it with [Timeout], and an error of the session or of its socket
    rejects it with that error; the [finally] callback then destroys the
    session.  So a pending build can always be ended from the transport,
    and it ends rejected. *)
Theorem pending_job_ends_with_the_session (cfg : Config) (s : Manager) :
  Reachable cfg s -> job s = Pending ->
  (exists s', step cfg s ClientClose = Some s'
              /\ job s' = Rejected (Error "Closed unexpectedly")
              /\ exists s'', step cfg s' JobFinally = Some s'' /\ destroyCalls s'' = 1)
  /\ (exists s', step cfg s ClientTimeout = Some s'
                 /\ job s' = Rejected (Error "Timeout")
                 /\ exists s'', step cfg s' JobFinally = Some s'' /\ destroyCalls s'' = 1)
  /\ (forall e,
        step cfg s (ClientError e) = Some (jobReject e s)
        /\ step cfg s (ClientSocketError e) = Some (jobReject e s)
        /\ job (jobReject e s) = Rejected e).
Proof.
  intros R J.
  destruct (Reachable_ListenersOk cfg s R J) as [Hc Ht].
  destruct (Reachable_Inv cfg s R) as ((D & F) & (_ & Hd & _) & _).
  assert (Hh : handled s = false).
  { destruct (handled s); [|reflexivity]. specialize (Hd eq_refl). now rewrite J in Hd. }
  assert (Hf : finallyRan s = false).
  { destruct (finallyRan s); [|reflexivity]. specialize (F eq_refl). now rewrite J in F. }
  rewrite Hf in D.
  split; [|split].
  - eexists. split; [cbn [step]; rewrite Hc; cbn [set_closeArmed handled]; rewrite Hh;
                     reflexivity|].
    state_simpl. rewrite J. split; [reflexivity|].
    eexists. split; [cbn [step]; state_simpl; rewrite ?J, ?Hf; reflexivity|].
    state_simpl. now rewrite D.
  - eexists. split; [cbn [step]; rewrite Ht; reflexivity|].
    state_simpl. rewrite J. split; [reflexivity|].
    eexists. split; [cbn [step]; state_simpl; rewrite ?J, ?Hf; reflexivity|].
    state_simpl. now rewrite D.
  - intros e. repeat split. state_simpl. now rewrite J.
Qed.

Lemma pending_job_ends_with_the_session_witness :
  exists s', step exampleConfig (stateAfter exampleConfig untilWatching) ClientClose = Some s'
             /\ job s' = Rejected (Error "Closed unexpectedly").
Proof.
  destruct untilWatching_reachable as (R & _ & _ & J).
  destruct (pending_job_ends_with_the_session exampleConfig _ R J)
    as ((s' & H & Hj & _) & _).
  exists s'. split; assumption.
Defined.

(** ** The compression processes *)

Lemma step_PipelineOk (cfg : Config) (s : Manager) (ev : Event) (s' : Manager) :
  step cfg s ev = Some s' -> PipelineOk cfg s -> PipelineOk cfg s'.
Proof.
  unfold PipelineOk. revert s'. apply step_cases; intros; try discriminate.
  all: try (match goal with
            | H : stepDownload _ _ _ _ = Some _ |- _ =>
                destruct (stepDownload_frame _ _ _ _ _ H)
                  as (_ & _ & _ & _ & _ & _ & _ & _ & _ & -> & -> & _)
            | H : uploadEnd _ _ _ = Some _ |- _ =>
                destruct (uploadEnd_frame _ _ _ _ H)
                  as (_ & _ & _ & _ & _ & _ & _ & _ & -> & -> & _)
            end; assumption).
  all: inv_some; try inv_checkStatus.
  all: try (match goal with
            | |- context [statusEvent ?c ?i ?d ?s] =>
                destruct (statusEvent_frame c i d s)
                  as (_ & _ & _ & _ & _ & _ & _ & _ & -> & -> & _)
            end; assumption).
  all: try (state_simpl; assumption).
  all: state_simpl;
       repeat match goal with x := _ |- _ => subst x end;
       match goal with
       | Hp : pipeline ?t = _, H : match pipeline ?t with _ => _ end |- _ =>
           rewrite Hp in H; destruct H as [Hg Hs]
       end;
       try (split; [exact Hg | exact Hs]).
  split; [exact Hg|]. eexists. rewrite Hs. reflexivity.
Qed.

Lemma run_PipelineOk (cfg : Config) (trace : list Event) (s s' : Manager) :
  run cfg s trace = Some s' -> PipelineOk cfg s -> PipelineOk cfg s'.
Proof.
  revert s. induction trace as [|ev tr IH]; intros s H P; simpl in H.
  - now injection H as <-.
  - destruct (step cfg s ev) as [s1|] eqn:E; [|discriminate].
    apply (IH s1 H). eapply step_PipelineOk; eassumption.
Qed.

Lemma build_PipelineOk (cfg : Config) (h : list (string * string)) :
  PipelineOk cfg (build cfg h).
Proof.
  unfold PipelineOk, build, upload, uploadUnpackedAppArchive.
  destruct (String.eqb (buildResourcesDir cfg) (projectDir cfg)) eqn:E;
    state_simpl; split; reflexivity.
Qed.

Lemma uploadHeaders_level (cfg : Config) (h : list (string * string)) :
  getKey "x-zstd-compression-level" (uploadHeaders cfg h)
  = Some (zstdCompressionLevel cfg).
Proof.
  unfold uploadHeaders. rewrite getKey_assign.
  rewrite !rev_app_distr. reflexivity.
Qed.

(** X6: in a build the two processes are spawned at most once, the packer
    before the compressor, with the arguments of lines 291-303, and never
    when the build-resources directory is the project directory.  The level
    the compressor is started with is the one the upload request announces
    in its [x-zstd-compression-level] header, whatever custom headers were
    given. *)
Theorem compressor_level_matches_header
        (cfg : Config) (customHeaders : list (string * string))
        (trace : list Event) (s : Manager) :
  run cfg (build cfg customHeaders) trace = Some s ->
  exists level headers rest,
    requests s = Post headers :: rest
    /\ getKey "x-zstd-compression-level" headers = Some level
    /\ level = getZstdCompressionLevel (zstdEnv cfg) (buildServiceEndpoint cfg)
    /\ (spawned s = []
        \/ (buildResourcesDir cfg <> projectDir cfg
            /\ exists infoFile,
                 spawned s
                 = [(path7za cfg, ["a"; "dummy"; "-ttar"; "-so";
                                   unpackedDirectory cfg; infoFile; buildResourcesDir cfg]);
                    ("zstd", ["-" ++ level; "--long"])])).
Proof.
  intros H.
  pose proof (run_requests cfg customHeaders trace _ s H (build_Inv cfg customHeaders)
                (build_requests cfg customHeaders)) as R.
  pose proof (run_PipelineOk cfg trace _ s H (build_PipelineOk cfg customHeaders)) as P.
  unfold expectedRequests in R.
  eexists. eexists. eexists. split; [exact R|].
  split; [apply uploadHeaders_level|]. split; [reflexivity|].
  unfold PipelineOk in P.
  destruct (pipeline s); destruct P as [G S]; try (left; exact S).
  right. split; [|exact S].
  intros E. rewrite E, String.eqb_refl in G. discriminate.
Qed.

Lemma compressor_level_matches_header_witness :
  exists level headers rest,
    requests (stateAfter exampleConfig untilWatching) = Post headers :: rest
    /\ getKey "x-zstd-compression-level" headers = Some level
    /\ level = "19"
    /\ spawned (stateAfter exampleConfig untilWatching)
       = [("7za", ["a"; "dummy"; "-ttar"; "-so"; "/project/dist/win-unpacked";
                   "/tmp/project-info.json"; "/project/build"]);
          ("zstd", ["-19"; "--long"])].
Proof.
  destruct (compressor_level_matches_header exampleConfig [] untilWatching
              (stateAfter exampleConfig untilWatching) ltac:(vm_compute; reflexivity))
    as (level & headers & rest & R & K & L & _).
  exists level, headers, rest. split; [exact R|]. split; [exact K|].
  split; [rewrite L; reflexivity | vm_compute; reflexivity].
Defined.

(** ** What is written and what is dispatched *)

Lemma fileWritten_output (d : Download) (s : Manager) :
  downloads (fileWritten d s) = downloads s
  /\ dispatched (fileWritten d s) = (dispatched s ++ [artifactCreatedEvent d])%list
  /\ disk (fileWritten d s) = disk s.
Proof.
  unfold fileWritten. state_simpl.
  destruct (files s) as [l|]; [destruct (List.length l <=? S (finishedStreamCount s))|];
    state_simpl; repeat split; reflexivity.
Qed.

Lemma filter_replaceAt_same (i : nat) (d d' : Download) (l : list Download) :
  nth_error l i = Some d -> isDone d = false -> isDone d' = false ->
  filter isDone (replaceAt i d' l) = filter isDone l.
Proof.
  revert i. induction l as [|x l IH]; intros [|i] H E E'; simpl in *; try discriminate.
  - injection H as ->. now rewrite E, E'.
  - now rewrite (IH i H E E').
Qed.

Lemma filter_replaceAt_done {B : Type} (f : Download -> B) (i : nat) (d d' : Download)
      (l : list Download) :
  nth_error l i = Some d -> isDone d = false -> isDone d' = true ->
  Permutation (f d' :: map f (filter isDone l)) (map f (filter isDone (replaceAt i d' l))).
Proof.
  revert i. induction l as [|x l IH]; intros [|i] H E E'; simpl in *; try discriminate.
  - injection H as ->. rewrite E, E'. apply Permutation_refl.
  - specialize (IH i H E E'). destruct (isDone x); simpl; [|exact IH].
    eapply perm_trans; [apply perm_swap|]. now apply perm_skip.
Qed.

Lemma Forall2_weaken {A B : Type} (P Q : A -> B -> Prop) (l : list A) (m : list B) :
  (forall x y, P x y -> Q x y) -> Forall2 P l m -> Forall2 Q l m.
Proof. intros H. induction 1; constructor; auto. Qed.

Lemma OutputOk_same (cfg : Config) (s s' : Manager) :
  downloads s' = downloads s -> disk s' = disk s -> dispatched s' = dispatched s ->
  OutputOk cfg s -> OutputOk cfg s'.
Proof.
  unfold OutputOk, writtenFor. intros -> -> ->. exact (fun H => H).
Qed.

(** A step of a download that does not finish it. *)
Lemma OutputOk_update (cfg : Config) (s s' : Manager) (i : nat) (d d' : Download) :
  nth_error (downloads s) i = Some d ->
  downloads s' = replaceAt i d' (downloads s) ->
  disk s' = disk s -> dispatched s' = dispatched s ->
  artifact d' = artifact d -> isDone d = false -> isDone d' = false -> KindOk d' ->
  OutputOk cfg s -> OutputOk cfg s'.
Proof.
  unfold OutputOk, writtenFor. intros Hn -> -> -> Ea Ed Ed' K (Ks & W & P).
  rewrite (map_replaceAt artifact i d d' _ Hn Ea).
  rewrite (filter_replaceAt_same i d d' _ Hn Ed Ed').
  split; [now apply Forall_replaceAt|]. split; assumption.
Qed.

(** The step that finishes a download. *)
Lemma OutputOk_finish (cfg : Config) (s s' : Manager) (i : nat) (d : Download)
      (content : string) :
  nth_error (downloads s) i = Some d ->
  downloads s' = replaceAt i (withState DlDone d) (downloads s) ->
  disk s' = (disk s ++ [(localFile d, content)])%list ->
  dispatched s' = (dispatched s ++ [artifactCreatedEvent d])%list ->
  isDone d = false ->
  localFile d = path_join (outDir cfg) (file (artifact d)) ->
  artifactCreatedEvent d = expectedEvent cfg (artifact d) content ->
  OutputOk cfg s -> OutputOk cfg s'.
Proof.
  unfold OutputOk, writtenFor. intros Hn -> -> -> Ed El Ee (Ks & W & P).
  rewrite (map_replaceAt artifact i d (withState DlDone d) _ Hn eq_refl).
  split; [apply Forall_replaceAt; [assumption | exact I]|]. split.
  - apply Forall2_app; [exact W|]. constructor; [|constructor].
    exists (artifact d). split; [|split; assumption].
    apply in_map. eapply nth_error_In; eassumption.
  - rewrite map_app. cbn [map fst].
    eapply perm_trans; [apply Permutation_app_comm|]. cbn [app].
    eapply perm_trans;
      [|apply (filter_replaceAt_done localFile i d (withState DlDone d) _ Hn Ed eq_refl)].
    cbn [localFile withState]. now apply perm_skip.
Qed.

Lemma KindOk_nth (l : list Download) (i : nat) (d : Download) :
  Forall KindOk l -> nth_error l i = Some d -> KindOk d.
Proof.
  intros F H. rewrite Forall_forall in F. apply F. eapply nth_error_In; eauto.
Qed.

Lemma stepDownload_OutputOk (cfg : Config) (i : nat) (ev : Event) (d : Download)
      (s s' : Manager) :
  stepDownload i ev d s = Some s' ->
  nth_error (downloads s) i = Some d ->
  Forall (RecordOk cfg) (downloads s) -> OutputOk cfg s -> OutputOk cfg s'.
Proof.
  intros H Hn R O.
  pose proof (RecordOk_nth cfg _ _ _ R Hn) as [Rl Re].
  pose proof (KindOk_nth _ _ _ (proj1 O) Hn) as K.
  unfold KindOk in K. unfold expectedEvent.
  revert H. destruct ev; try discriminate; cbn [stepDownload];
    destruct (dlState d) eqn:Es; intros H; try discriminate; inv_some.
  all: try (apply (OutputOk_same cfg s); [state_simpl; reflexivity .. | exact O]).
  all: try (unfold downloadResponse; rewrite checkStatus_eq;
            destruct (_ =? HTTP_STATUS_OK);
            [destruct (isMetadataFile (file (artifact d))) eqn:Em|]).
  all: try (eapply (OutputOk_update cfg s _ i d);
            [ exact Hn | state_simpl; reflexivity | state_simpl; reflexivity
            | state_simpl; reflexivity | reflexivity
            | unfold isDone; rewrite Es; reflexivity | reflexivity
            | unfold KindOk; cbn [dlState withState artifact]; first [exact I | assumption]
            | exact O ]).
  all: match goal with
       | |- context [fileWritten ?dw ?t] =>
           destruct (fileWritten_output dw t) as (E1 & E2 & E3);
           eapply (OutputOk_finish cfg s _ i d);
           [ exact Hn | rewrite E1; state_simpl; reflexivity
           | rewrite E3; state_simpl; reflexivity
           | rewrite E2; state_simpl; reflexivity
           | unfold isDone; rewrite Es; reflexivity | exact Rl
           | rewrite Re; unfold expectedEvent, baseEvent; rewrite K, <- Rl; reflexivity
           | exact O ]
       end.
Qed.

Lemma step_OutputOk (cfg : Config) (s : Manager) (ev : Event) (s' : Manager) :
  step cfg s ev = Some s' -> Inv cfg s -> OutputOk cfg s -> OutputOk cfg s'.
Proof.
  intros H (_ & _ & P & D & R) O.
  revert s' H. apply step_cases; intros; try discriminate.
  all: try (eapply stepDownload_OutputOk; eassumption).
  all: try (match goal with
            | H : uploadEnd _ _ _ = Some _ |- _ =>
                destruct (uploadEnd_frame _ _ _ _ H)
                  as (_ & _ & _ & _ & _ & _ & _ & _ & _ & _ & _ & _ & _ & _ & _
                      & E1 & E2 & E3 & _)
            end; now apply (OutputOk_same cfg s)).
  all: inv_some; try inv_checkStatus.
  all: try (apply (OutputOk_same cfg s); [state_simpl; reflexivity .. | exact O]).
  (* an event of the status stream: no download exists yet *)
  destruct P as (_ & _ & P3).
  match goal with Hs : statusStream s = StWatching |- _ => rewrite Hs in P3 end.
  destruct P3 as (_ & F & _).
  unfold DownloadsOk in D. rewrite F in D. destruct D as [D0 _].
  destruct O as (_ & W & Pm). rewrite D0 in Pm. cbn [filter map] in Pm.
  apply Permutation_sym, Permutation_nil, map_eq_nil in Pm.
  rewrite Pm in W. inversion W as [E0 E1|]; subst.
  apply statusEvent_cases; intros;
    try (apply (OutputOk_same cfg s);
         [state_simpl; reflexivity ..
         | unfold OutputOk; rewrite D0, Pm, <- E1; repeat split; constructor ]).
  unfold OutputOk. state_simpl. rewrite D0, Pm, <- E1. cbn [app].
  split; [|split; [constructor|]].
  - clear. induction l as [|a l IH]; simpl; constructor; [exact I | exact IH].
  - clear. induction l as [|a l IH]; simpl; [constructor | exact IH].
Qed.

Lemma run_OutputOk (cfg : Config) (trace : list Event) (s s' : Manager) :
  run cfg s trace = Some s' -> Inv cfg s -> OutputOk cfg s -> OutputOk cfg s'.
Proof.
  revert s. induction trace as [|ev tr IH]; intros s H I O; simpl in H.
  - now injection H as <-.
  - destruct (step cfg s ev) as [s1|] eqn:E; [|discriminate].
    apply (IH s1 H); [eapply step_Inv | eapply step_OutputOk]; eassumption.
Qed.

Lemma Reachable_OutputOk (cfg : Config) (s : Manager) :
  Reachable cfg s -> OutputOk cfg s.
Proof.
  intros (h & tr & H). eapply run_OutputOk; [exact H | apply build_Inv |].
  unfold OutputOk, build, upload, uploadUnpackedAppArchive.
  destruct (String.eqb (buildResourcesDir cfg) (projectDir cfg));
    state_simpl; repeat split; constructor.
Qed.

(** ** The result of a build *)

Lemma ResultOk_rejected (s s' : Manager) :
  files s' = files s -> rejectedOrSame (watch s) (watch s') -> ResultOk s -> ResultOk s'.
Proof.
  unfold ResultOk. intros -> W K v Hw. apply K.
  destruct W as [E | [e E]]; rewrite E in Hw;
    [exact Hw | now apply rejectP_fulfilled in Hw].
Qed.

Lemma fileWritten_watch (d : Download) (s : Manager) :
  files (fileWritten d s) = files s
  /\ (watch (fileWritten d s) = watch s
      \/ watch (fileWritten d s) = resolveP (watch s) None).
Proof.
  unfold fileWritten. state_simpl.
  destruct (files s) as [l|] eqn:F;
    [destruct (List.length l <=? S (finishedStreamCount s))|];
    state_simpl; (split; [now rewrite F|]);
    first [left; reflexivity | right; reflexivity].
Qed.

Lemma stepDownload_ResultOk (i : nat) (ev : Event) (d : Download) (s s' : Manager) :
  stepDownload i ev d s = Some s' -> files s <> None -> ResultOk s -> ResultOk s'.
Proof.
  intros H F K.
  assert (G : files s' = files s
              /\ (rejectedOrSame (watch s) (watch s') \/ watch s' = resolveP (watch s) None)).
  { revert H. destruct ev; try discriminate; cbn [stepDownload];
      destruct (dlState d); intros H; try discriminate; inv_some;
      unfold downloadResponse; rewrite ?checkStatus_eq;
      try match goal with
          | |- context [fileWritten ?dw ?t] =>
              destruct (fileWritten_watch dw t) as [-> [-> | ->]]
          end;
      repeat match goal with
             | |- context [if ?b then _ else _] => destruct b
             end; state_simpl;
      (split; [reflexivity|]);
      first [ left; left; reflexivity
            | left; right; eexists; reflexivity
            | right; reflexivity ]. }
  destruct G as [Ef [W | W]]; [now apply (ResultOk_rejected s)|].
  intros v Hw. rewrite W in Hw. rewrite Ef.
  destruct (watch s) eqn:Ew; simpl in Hw.
  - injection Hw as <-. exact F.
  - injection Hw as <-. apply K. exact Ew.
  - discriminate.
Qed.

Lemma step_ResultOk (cfg : Config) (s : Manager) (ev : Event) (s' : Manager) :
  step cfg s ev = Some s' -> Inv cfg s -> ResultOk s -> ResultOk s'.
Proof.
  intros H (_ & _ & P & D & _) K.
  revert s' H. apply step_cases; intros; try discriminate.
  all: try (eapply stepDownload_ResultOk; [eassumption | | exact K];
            match goal with
            | Hn : nth_error (downloads ?t) _ = Some _ |- _ =>
                destruct (DownloadsOk_started t _ _ Hn P D) as [_ [l ->]]; discriminate
            end).
  all: try (match goal with
            | H : uploadEnd _ _ _ = Some _ |- _ =>
                destruct (uploadEnd_frame _ _ _ _ H)
                  as (Ef & _ & _ & _ & _ & _ & _ & _ & _ & _ & _ & Ew & _)
            end; eapply ResultOk_rejected; [exact Ef | left; exact Ew | exact K]).
  all: inv_some; try inv_checkStatus.
  all: try (eapply ResultOk_rejected;
            [ state_simpl; reflexivity
            | state_simpl;
              repeat match goal with
                     | |- context [if ?b then _ else _] => destruct b
                     end; state_simpl;
              first [left; reflexivity | right; eexists; reflexivity]
            | exact K ]).
  (* an event of the status stream *)
  destruct P as (_ & _ & P3).
  match goal with Hs : statusStream s = StWatching |- _ => rewrite Hs in P3 end.
  destruct P3 as (_ & F & _ & Nf).
  apply statusEvent_cases; intros; unfold ResultOk; state_simpl; intros v Hw;
    try (now elim (Nf v)).
  destruct (watch s) eqn:Ew; simpl in Hw; try discriminate.
  - injection Hw as <-. split; [congruence | exact F].
  - now elim (Nf result).
Qed.

Lemma run_ResultOk (cfg : Config) (trace : list Event) (s s' : Manager) :
  run cfg s trace = Some s' -> Inv cfg s -> ResultOk s -> ResultOk s'.
Proof.
  revert s. induction trace as [|ev tr IH]; intros s H I K; simpl in H.
  - now injection H as <-.
  - destruct (step cfg s ev) as [s1|] eqn:E; [|discriminate].
    apply (IH s1 H); [eapply step_Inv | eapply step_ResultOk]; eassumption.
Qed.

Lemma Reachable_ResultOk (cfg : Config) (s : Manager) :
  Reachable cfg s -> ResultOk s.
Proof.
  intros (h & tr & H). eapply run_ResultOk; [exact H | apply build_Inv |].
  unfold ResultOk, build, upload, uploadUnpackedAppArchive.
  destruct (String.eqb (buildResourcesDir cfg) (projectDir cfg));
    state_simpl; intros v Hw; discriminate.
Qed.

Lemma filter_all_done (l : list Download) :
  doneCount l = List.length l -> filter isDone l = l.
Proof.
  unfold doneCount. induction l as [|d l IH]; simpl; [reflexivity|].
  destruct (isDone d) eqn:E; simpl; intros H.
  - f_equal. apply IH. now injection H.
  - pose proof (filter_length_le isDone l). lia.
Qed.

Lemma map_localFile (cfg : Config) (l : list Download) :
  Forall (RecordOk cfg) l ->
  map localFile l = map (fun a => path_join (outDir cfg) (file a)) (map artifact l).
Proof.
  induction 1 as [|d l [Rl _] _ IH]; simpl; [reflexivity|].
  now rewrite Rl, IH.
Qed.

Lemma Forall2_length_eq {A B : Type} (P : A -> B -> Prop) (l : list A) (m : list B) :
  Forall2 P l m -> List.length l = List.length m.
Proof. induction 1; simpl; congruence. Qed.

(** X7: at every moment of a build, the events given to
    [dispatchArtifactCreated] and the files whose writing has ended go together
    one to one, in the order of completion, and there are as many as the
    counter says: each event is the event of an artifact of the manifest
    for its file under the output directory, with exactly the bytes of that
    file as [fileContent] when the artifact is a metadata file and with no
    content otherwise; it is dispatched only when the writing of its file
    has ended. *)
Theorem dispatched_events_match_written_files (cfg : Config) (s : Manager) :
  Reachable cfg s ->
  List.length (disk s) = finishedStreamCount s
  /\ List.length (dispatched s) = finishedStreamCount s
  /\ Forall2
       (fun written e =>
          exists a, In a (match files s with Some l => l | None => [] end)
                    /\ fst written = path_join (outDir cfg) (file a)
                    /\ createdFile e = fst written
                    /\ fileContent e
                       = (if isMetadataFile (file a) then Some (snd written) else None)
                    /\ e = expectedEvent cfg a (snd written))
       (disk s) (dispatched s).
Proof.
  intros R.
  destruct (Reachable_Inv cfg s R) as (_ & _ & _ & D & _).
  destruct (Reachable_OutputOk cfg s R) as (_ & W & Pm).
  assert (L : List.length (disk s) = finishedStreamCount s).
  { apply Permutation_length in Pm. rewrite !length_map in Pm. rewrite Pm.
    unfold DownloadsOk in D. destruct (files s).
    - destruct D as (_ & -> & _). reflexivity.
    - destruct D as (-> & ->). reflexivity. }
  split; [exact L|]. split; [now rewrite <- (Forall2_length_eq _ _ _ W)|].
  eapply Forall2_weaken; [|exact W].
  intros written e (a & Ha & Hf & He). exists a.
  split.
  { unfold DownloadsOk in D. destruct (files s).
    - destruct D as (<- & _). exact Ha.
    - destruct D as (D0 & _). rewrite D0 in Ha. exact Ha. }
  split; [exact Hf|]. rewrite He, Hf. unfold expectedEvent.
  destruct (isMetadataFile (file a)); repeat split; reflexivity.
Qed.

(** X8: a job promise that is fulfilled is fulfilled in one of two ways.
    With [null]: then a manifest with at least one artifact was received,
    every download of it is finished, the files written are the local
    files of the artifacts of the manifest, each once, and one event was
    dispatched for each.  Or with an event that has an [error] field: then
    no manifest was received, no download was started, nothing was written
    and nothing dispatched. *)
Theorem fulfilled_job_has_every_artifact
        (cfg : Config) (s : Manager) (v : option StatusData) :
  Reachable cfg s -> job s = Fulfilled v ->
  (v = None
   /\ exists l, files s = Some l /\ l <> []
                /\ finishedStreamCount s = List.length l
                /\ Forall (fun d => dlState d = DlDone) (downloads s)
                /\ Permutation (map fst (disk s))
                     (map (fun a => path_join (outDir cfg) (file a)) l)
                /\ List.length (dispatched s) = List.length l)
  \/ (exists data, v = Some data /\ data_error data <> None
                   /\ files s = None /\ downloads s = []
                   /\ disk s = [] /\ dispatched s = []).
Proof.
  intros R J.
  destruct (Reachable_Inv cfg s R) as (_ & (_ & _ & C) & _ & D & Rc).
  destruct (Reachable_OutputOk cfg s R) as (_ & W & Pm).
  pose proof (Reachable_ResultOk cfg s R) as K.
  destruct (C v J) as (Hw & _). specialize (K v Hw).
  unfold DownloadsOk in D.
  destruct v as [data|].
  - right. destruct K as [He F]. rewrite F in D. destruct D as [D0 _].
    exists data. repeat split; try assumption.
    + rewrite D0 in Pm. cbn [filter map] in Pm.
      now apply Permutation_sym, Permutation_nil, map_eq_nil in Pm.
    + rewrite D0 in Pm. cbn [filter map] in Pm.
      apply Permutation_sym, Permutation_nil, map_eq_nil in Pm.
      rewrite Pm in W. now inversion W.
  - left. split; [reflexivity|].
    destruct (files s) as [l|]; [|now elim K]. destruct D as (M & Cn & _ & Kw).
    destruct (Kw None Hw) as (_ & Hc & Hne).
    assert (Hall : filter isDone (downloads s) = downloads s).
    { apply filter_all_done. rewrite <- Cn, Hc, <- M, length_map. reflexivity. }
    exists l. split; [reflexivity|]. split; [exact Hne|]. split; [exact Hc|].
    split; [|split].
    + rewrite <- Hall. apply Forall_forall. intros d Hd.
      apply filter_In in Hd as [_ Hd]. unfold isDone in Hd.
      destruct (dlState d); try discriminate. reflexivity.
    + rewrite Hall, (map_localFile cfg _ Rc), M in Pm. exact Pm.
    + rewrite <- (Forall2_length_eq _ _ _ W).
      apply Permutation_length in Pm. rewrite Hall, !length_map in Pm.
      rewrite Pm, <- M, length_map. reflexivity.
Qed.

Lemma wholeBuild_reachable :
  Reachable exampleConfig (stateAfter exampleConfig wholeBuild)
  /\ job (stateAfter exampleConfig wholeBuild) = Fulfilled None.
Proof.
  split; [exists [], wholeBuild; vm_compute; reflexivity | vm_compute; reflexivity].
Qed.

Lemma dispatched_events_match_written_files_witness :
  List.length (disk (stateAfter exampleConfig wholeBuild))
  = finishedStreamCount (stateAfter exampleConfig wholeBuild)
  /\ List.length (dispatched (stateAfter exampleConfig wholeBuild))
     = finishedStreamCount (stateAfter exampleConfig wholeBuild).
Proof.
  destruct wholeBuild_reachable as [R _].
  destruct (dispatched_events_match_written_files exampleConfig _ R) as (A & B & _).
  split; [exact A | exact B].
Defined.

Lemma fulfilled_job_has_every_artifact_witness :
  exists l,
    files (stateAfter exampleConfig wholeBuild) = Some l
    /\ Permutation (map fst (disk (stateAfter exampleConfig wholeBuild)))
         (map (fun a => path_join (outDir exampleConfig) (file a)) l).
Proof.
  destruct wholeBuild_reachable as [R J].
  destruct (fulfilled_job_has_every_artifact exampleConfig _ None R J)
    as [(_ & l & F & _ & _ & _ & P & _) | (data & E & _)]; [|discriminate E].
  exists l. split; [exact F | exact P].
Defined.

(** ** An upload that gives no job id *)

(** Once the upload response is over without a timer, the status stream is
    never opened. *)
Lemma step_never_watched (cfg : Config) (s : Manager) (ev : Event) (s' : Manager) :
  step cfg s ev = Some s' ->
  uploadStream s = UpUnread \/ uploadStream s = UpEnded ->
  timer s = None -> statusStream s = StNotOpened ->
  (uploadStream s' = UpUnread \/ uploadStream s' = UpEnded)
  /\ timer s' = None /\ statusStream s' = StNotOpened.
Proof.
  intros H U T Es. revert s' H. apply step_cases; intros; try discriminate.
  all: try (destruct U; congruence).
  all: try (match goal with
            | H : stepDownload _ _ _ _ = Some _ |- _ =>
                destruct (stepDownload_frame _ _ _ _ _ H)
                  as (_ & _ & _ & _ & _ & _ & _ & _ & -> & _ & _ & -> & _ & _ & -> & _)
            end; repeat split; assumption).
  all: inv_some; state_simpl; repeat split; assumption.
Qed.

Lemma run_never_watched (cfg : Config) (trace : list Event) (s s' : Manager) :
  run cfg s trace = Some s' ->
  uploadStream s = UpUnread \/ uploadStream s = UpEnded ->
  timer s = None -> statusStream s = StNotOpened ->
  (uploadStream s' = UpUnread \/ uploadStream s' = UpEnded)
  /\ timer s' = None /\ statusStream s' = StNotOpened.
Proof.
  revert s. induction trace as [|ev tr IH]; intros s H U T Es; simpl in H.
  - injection H as <-. auto.
  - destruct (step cfg s ev) as [s1|] eqn:E; [|discriminate].
    destruct (step_never_watched cfg s ev s1 E U T Es) as (U1 & T1 & E1).
    now apply (IH s1).
Qed.

(** What follows for a build in which the status stream is never opened:
    the job is never fulfilled and the upload stays the only stream. *)
Lemma never_watched_never_fulfilled (cfg : Config) (trace : list Event) (s s' : Manager) :
  Reachable cfg s -> run cfg s trace = Some s' ->
  uploadStream s = UpUnread \/ uploadStream s = UpEnded ->
  timer s = None -> statusStream s = StNotOpened ->
  statusStream s' = StNotOpened /\ timer s' = None
  /\ requests s' = requests s /\ (forall v, job s' <> Fulfilled v)
  /\ downloads s' = [].
Proof.
  intros R H U T Es.
  destruct (run_never_watched cfg trace s s' H U T Es) as (_ & T' & Es').
  pose proof (Reachable_Inv cfg s R) as I.
  pose proof (run_Inv cfg trace s s' H I) as I'.
  destruct R as (h & tr & Hb).
  pose proof (run_requests cfg h tr _ s Hb (build_Inv cfg h) (build_requests cfg h)) as Rq.
  pose proof (run_requests cfg h trace s s' H I Rq) as Rq'.
  destruct I as (_ & _ & (_ & _ & P) & _). rewrite Es in P.
  destruct I' as (_ & (_ & _ & C) & (_ & _ & P') & D' & _). rewrite Es' in P'.
  destruct P as (J & _). destruct P' as (J' & W' & _ & F' & _).
  unfold expectedRequests in Rq, Rq'. rewrite J in Rq. rewrite J' in Rq'.
  split; [exact Es'|]. split; [exact T'|]. split; [congruence|].
  split.
  - intros v Hj. destruct (C v Hj) as (Hw & _). congruence.
  - unfold DownloadsOk in D'. rewrite F' in D'. tauto.
Qed.

(** X9: an upload response whose status is neither OK nor bad request
    rejects the pending job with an [HttpError] of that status without a
    description.  No listener for the body is registered, so the body is
    never read; no timer is started; and whatever happens afterwards the
    job stays rejected with that error, the status stream is never opened
    and no other request is made. *)
Theorem upload_refused_ends_the_build (cfg : Config) (s : Manager) (status : nat) :
  Reachable cfg s -> uploadStream s = UpAwaitingResponse -> job s = Pending ->
  status <> HTTP_STATUS_OK -> status <> HTTP_STATUS_BAD_REQUEST ->
  exists s1,
    step cfg s (UploadResponse status) = Some s1
    /\ job s1 = Rejected (HttpError status None)
    /\ (forall chunk, step cfg s1 (UploadData chunk) = None)
    /\ step cfg s1 UploadEnd = None
    /\ forall trace s2,
         run cfg s1 trace = Some s2 ->
         job s2 = Rejected (HttpError status None)
         /\ statusStream s2 = StNotOpened /\ timer s2 = None
         /\ requests s2 = requests s /\ downloads s2 = [].
Proof.
  intros R U J N1 N2.
  apply Nat.eqb_neq in N1, N2.
  destruct (Reachable_Inv cfg s R) as (_ & _ & (P1 & _) & _).
  destruct P1 as [T Es]; [congruence|].
  assert (H : step cfg s (UploadResponse status)
              = Some (jobReject (HttpError status None) (set_uploadStream UpUnread s))).
  { cbn [step]. now rewrite U, N1, N2. }
  eexists. split; [exact H|].
  pose proof (Reachable_step cfg s _ _ R H) as R1.
  state_simpl. rewrite J in *. cbn [rejectP] in *.
  split; [reflexivity|]. split; [reflexivity|]. split; [reflexivity|].
  intros trace s2 Hr.
  destruct (never_watched_never_fulfilled cfg trace _ s2 R1 Hr)
    as (E1 & E2 & E3 & _ & E5);
    [left; reflexivity | exact T | exact Es |].
  pose proof (run_job_settled cfg trace _ s2 Hr eq_refl) as Hj.
  split; [exact Hj|]. repeat split; assumption.
Qed.

Lemma upload_refused_ends_the_build_witness :
  exists s1,
    step exampleConfig (build exampleConfig []) (UploadResponse 503) = Some s1
    /\ job s1 = Rejected (HttpError 503 None)
    /\ step exampleConfig s1 UploadEnd = None.
Proof.
  assert (R : Reachable exampleConfig (build exampleConfig [])) by (exists [], []; reflexivity).
  destruct (upload_refused_ends_the_build exampleConfig _ 503 R eq_refl eq_refl
              ltac:(discriminate) ltac:(discriminate))
    as (s1 & H & J & _ & E & _).
  exists s1. repeat split; assumption.
Defined.

(** X10: a response with an empty body is taken as the empty object.  With
    status OK the job is rejected with [Server didn't return id]; with the
    bad-request status it is rejected with an [HttpError] whose description
    is the text of the empty object.  The body is empty whether no chunk
    came or only empty ones.  In both cases no timer is started, and from
    then on the status stream is never opened and the job is never
    fulfilled. *)
Theorem upload_empty_body_is_empty_object
        (cfg : Config) (s : Manager) (chunks : list string) :
  Reachable cfg s -> uploadStream s = UpAwaitingResponse -> job s = Pending ->
  bufferConcat chunks = EmptyString ->
  (exists s1,
     run cfg s (UploadResponse HTTP_STATUS_OK :: map UploadData chunks ++ [UploadEnd])
     = Some s1
     /\ job s1 = Rejected (Error "Server didn't return id")
     /\ timer s1 = None
     /\ forall trace s2,
          run cfg s1 trace = Some s2 ->
          statusStream s2 = StNotOpened /\ requests s2 = requests s
          /\ forall v, job s2 <> Fulfilled v)
  /\ (exists s1,
        run cfg s (UploadResponse HTTP_STATUS_BAD_REQUEST
                   :: map UploadData chunks ++ [UploadEnd])
        = Some s1
        /\ job s1 = Rejected (HttpError HTTP_STATUS_BAD_REQUEST (Some "{}"))
        /\ timer s1 = None).
Proof.
  intros R U J B.
  destruct (Reachable_Inv cfg s R) as (_ & _ & (P1 & _) & _).
  destruct P1 as [T Es]; [congruence|].
  split.
  - assert (H : run cfg s (UploadResponse HTTP_STATUS_OK
                           :: map UploadData chunks ++ [UploadEnd])
                = Some (jobReject (Error "Server didn't return id")
                          (set_uploadStream UpEnded s))).
    { cbn [run step]. rewrite U. cbn [negb Nat.eqb HTTP_STATUS_OK andb].
      rewrite (run_upload_data cfg chunks [UploadEnd] _ HTTP_STATUS_OK EmptyString)
        by reflexivity.
      cbn [run step uploadStream set_uploadStream append]. rewrite B.
      unfold uploadEnd. cbn. rewrite set_uploadStream_twice. reflexivity. }
    eexists. split; [exact H|].
    pose proof (Reachable_run cfg s _ _ R H) as R1.
    state_simpl. rewrite J in *. cbn [rejectP] in *.
    split; [reflexivity|]. split; [exact T|].
    intros trace s2 Hr.
    destruct (never_watched_never_fulfilled cfg trace _ s2 R1 Hr)
      as (E1 & _ & E3 & E4 & _);
      [right; reflexivity | exact T | exact Es |].
    repeat split; assumption.
  - eexists. split.
    + cbn [run step]. rewrite U.
      cbn [negb Nat.eqb HTTP_STATUS_OK HTTP_STATUS_BAD_REQUEST andb].
      rewrite (run_upload_data cfg chunks [UploadEnd] _ HTTP_STATUS_BAD_REQUEST EmptyString)
        by reflexivity.
      cbn [run step uploadStream set_uploadStream append]. rewrite B.
      unfold uploadEnd. cbn. rewrite set_uploadStream_twice. reflexivity.
    + state_simpl. rewrite J. split; [reflexivity | exact T].
Qed.

Lemma upload_empty_body_is_empty_object_witness :
  exists s1,
    run exampleConfig (build exampleConfig [])
        [UploadResponse 200; UploadData EmptyString; UploadEnd] = Some s1
    /\ job s1 = Rejected (Error "Server didn't return id").
Proof.
  assert (R : Reachable exampleConfig (build exampleConfig [])) by (exists [], []; reflexivity).
  destruct (upload_empty_body_is_empty_object exampleConfig _ [EmptyString] R
              eq_refl eq_refl eq_refl)
    as ((s1 & H & J & _) & _).
  exists s1. split; assumption.
Defined.

(** X11: when the body of the upload response is not a JSON text,
    [JSON.parse] throws inside the [end] listener and nothing catches it:
    the job promise is neither resolved nor rejected by the response, for
    status OK and for the bad-request status alike.  No timer is started,
    so from then on the status stream is never opened and the job is never
    fulfilled: only an error, the close or the timeout of the session ends
    it. *)
Theorem upload_malformed_body_is_not_reported
        (cfg : Config) (s : Manager) (status : nat) (chunks : list string) :
  Reachable cfg s -> uploadStream s = UpAwaitingResponse ->
  status = HTTP_STATUS_OK \/ status = HTTP_STATUS_BAD_REQUEST ->
  bufferConcat chunks <> EmptyString ->
  Json.parse (bufferConcat chunks) = Json.SyntaxError ->
  exists s1,
    run cfg s (UploadResponse status :: map UploadData chunks ++ [UploadEnd]) = Some s1
    /\ job s1 = job s
    /\ uncaught s1 = (uncaught s ++ [RuntimeError "SyntaxError"])%list
    /\ timer s1 = None
    /\ forall trace s2,
         run cfg s1 trace = Some s2 ->
         statusStream s2 = StNotOpened /\ requests s2 = requests s
         /\ forall v, job s2 <> Fulfilled v.
Proof.
  intros R U St Ne Hp.
  destruct (Reachable_Inv cfg s R) as (_ & _ & (P1 & _) & _).
  destruct P1 as [T Es]; [congruence|].
  assert (H : run cfg s (UploadResponse status :: map UploadData chunks ++ [UploadEnd])
              = Some (throw (RuntimeError "SyntaxError") (set_uploadStream UpEnded s))).
  { cbn [run step]. rewrite U.
    assert (E : negb (status =? HTTP_STATUS_OK) && negb (status =? HTTP_STATUS_BAD_REQUEST)
                = false) by (destruct St; subst; reflexivity).
    rewrite E.
    rewrite (run_upload_data cfg chunks [UploadEnd] _ status EmptyString) by reflexivity.
    cbn [run step uploadStream set_uploadStream append].
    unfold uploadEnd, parseBody.
    destruct (bufferConcat chunks) as [|c r] eqn:B; [now elim Ne|].
    cbn [String.length Nat.eqb]. rewrite Hp. rewrite set_uploadStream_twice. reflexivity. }
  eexists. split; [exact H|].
  pose proof (Reachable_run cfg s _ _ R H) as R1.
  state_simpl.
  split; [reflexivity|]. split; [reflexivity|]. split; [exact T|].
  intros trace s2 Hr.
  destruct (never_watched_never_fulfilled cfg trace _ s2 R1 Hr)
    as (E1 & _ & E3 & E4 & _);
    [right; reflexivity | exact T | exact Es |].
  repeat split; assumption.
Qed.

Lemma upload_malformed_body_is_not_reported_witness :
  exists s1,
    run exampleConfig (build exampleConfig [])
        [UploadResponse 200; UploadData "<html>"; UploadEnd] = Some s1
    /\ job s1 = Pending
    /\ uncaught s1 = [RuntimeError "SyntaxError"].
Proof.
  assert (R : Reachable exampleConfig (build exampleConfig [])) by (exists [], []; reflexivity).
  destruct (upload_malformed_body_is_not_reported exampleConfig _ 200 ["<html>"] R
              eq_refl (or_introl eq_refl) ltac:(discriminate)
              ltac:(vm_compute; reflexivity))
    as (s1 & H & J & Uc & _).
  exists s1. split; [exact H|]. split; [exact J | exact Uc].
Defined.

(** ** From the job id to the status stream *)

(** X12: when the body of an OK upload response, in whatever chunks it
    arrives, is a JSON object whose [id] is not [null], nothing is requested
    at once: a timer is started that holds the id, converted to a string as a
    template literal does.  When the timer fires, and only then, the status
    stream [/v1/status/ID] is requested, with the id as it is (it is not
    escaped), and the timer is gone: it fires once.  The job promise is not
    touched by any of this. *)
Theorem accepted_upload_watches_after_timer
        (cfg : Config) (s : Manager) (chunks : list string)
        (members : list (string * json)) (v : json) :
  Reachable cfg s -> uploadStream s = UpAwaitingResponse ->
  Json.parse (bufferConcat chunks) = Json.Parsed (JObject members) EmptyString ->
  getKey "id" members = Some v -> v <> JNull ->
  exists s1 s2,
    run cfg s (UploadResponse HTTP_STATUS_OK :: map UploadData chunks ++ [UploadEnd])
    = Some s1
    /\ timer s1 = Some (Json.toString v)
    /\ requests s1 = requests s /\ statusStream s1 = StNotOpened /\ job s1 = job s
    /\ step cfg s1 GraceTimer = Some s2
    /\ requests s2 = (requests s ++ [Get (Some ("/v1/status/" ++ Json.toString v)%string)])%list
    /\ statusStream s2 = StAwaitingResponse /\ jobId s2 = Some (Json.toString v)
    /\ job s2 = job s
    /\ step cfg s2 GraceTimer = None.
Proof.
  intros R U Hp Hk Hv.
  destruct (Reachable_Inv cfg s R) as (_ & _ & (P1 & _) & _).
  destruct P1 as [T Es]; [congruence|].
  assert (Hid : idOf (JObject members) = IdIs (Json.toString v)).
  { unfold idOf. rewrite Hk. destruct v; try reflexivity. now elim Hv. }
  assert (H : run cfg s (UploadResponse HTTP_STATUS_OK
                         :: map UploadData chunks ++ [UploadEnd])
              = Some (set_timer (Some (Json.toString v)) (set_uploadStream UpEnded s))).
  { cbn [run step]. rewrite U. cbn [negb Nat.eqb HTTP_STATUS_OK andb].
    rewrite (run_upload_data cfg chunks [UploadEnd] _ HTTP_STATUS_OK EmptyString)
      by reflexivity.
    cbn [run step uploadStream set_uploadStream append].
    unfold uploadEnd, parseBody.
    destruct (bufferConcat chunks) as [|c r] eqn:B; [discriminate Hp|].
    cbn [String.length Nat.eqb]. rewrite Hp.
    cbn [Nat.eqb HTTP_STATUS_OK HTTP_STATUS_BAD_REQUEST]. rewrite Hid.
    rewrite set_uploadStream_twice. reflexivity. }
  eexists. eexists. split; [exact H|].
  state_simpl. split; [reflexivity|]. split; [reflexivity|]. split; [exact Es|].
  split; [reflexivity|].
  split; [cbn [step timer set_timer]; reflexivity|].
  state_simpl. repeat split; reflexivity.
Qed.

Lemma accepted_upload_watches_after_timer_witness :
  exists s1 s2,
    run exampleConfig (build exampleConfig [])
        [UploadResponse 200; UploadData (String "{" (String dq "id"));
         UploadData (String dq ": 42}"); UploadEnd] = Some s1
    /\ timer s1 = Some "42"
    /\ step exampleConfig s1 GraceTimer = Some s2
    /\ requests s2 = [Post (uploadHeaders exampleConfig []); Get (Some "/v1/status/42")].
Proof.
  assert (R : Reachable exampleConfig (build exampleConfig [])) by (exists [], []; reflexivity).
  destruct (accepted_upload_watches_after_timer exampleConfig _
              [String "{" (String dq "id"); String dq ": 42}"]
              [("id", JNumber 42)] (JNumber 42) R eq_refl
              ltac:(vm_compute; reflexivity) eq_refl ltac:(discriminate))
    as (s1 & s2 & H & T & _ & _ & _ & G & Rq & _).
  exists s1, s2. split; [exact H|]. split; [exact T|]. split; [exact G|].
  rewrite Rq. vm_compute. reflexivity.
Defined.

(** ** Progress events and the manifest that is null *)

Lemma set_logs_twice (a b : list string) (s : Manager) :
  set_logs a (set_logs b s) = set_logs a s.
Proof. apply Manager_ext; reflexivity. Qed.

(** X13: progress messages and unknown events, however many and in
    whatever order, change nothing but the log, one line each: the stream
    stays watched, no download is started, no promise is touched.  An event
    with a [state] is a progress message even when it also carries a list
    of files: that list is ignored. *)
Theorem progress_events_only_log
        (cfg : Config) (s : Manager) (events : list StatusData) :
  Reachable cfg s -> statusStream s = StWatching ->
  Forall isProgressEvent events ->
  exists s',
    run cfg s (map StatusEvent events) = Some s'
    /\ s' = set_logs (logs s') s
    /\ List.length (logs s') = List.length (logs s) + List.length events.
Proof.
  intros R Es F. revert s R Es. induction F as [|data events [He Hp] _ IH]; intros s R Es.
  - exists s. split; [reflexivity|]. split; [|simpl; lia].
    apply Manager_ext; reflexivity.
  - destruct (Reachable_Inv cfg s R) as (_ & _ & (_ & _ & P) & _).
    rewrite Es in P. destruct P as (J & _).
    destruct (jobId s) as [id|] eqn:Ej; [|now elim J].
    assert (H : exists msg, step cfg s (StatusEvent data) = Some (log msg s)).
    { cbn [step]. rewrite Es, Ej. unfold statusEvent. rewrite He.
      destruct (data_state data) as [st|]; [eexists; reflexivity|].
      destruct Hp as [Hp | Hp]; [now elim Hp|]. rewrite Hp. eexists; reflexivity. }
    destruct H as [msg H].
    destruct (IH (log msg s) (Reachable_step cfg s _ _ R H) Es) as (s' & Hr & E & L).
    exists s'. split; [cbn [map run]; rewrite H; exact Hr|].
    split.
    + rewrite E at 1. unfold log. apply set_logs_twice.
    + rewrite L. unfold log. cbn [logs set_logs]. rewrite length_app. simpl. lia.
Qed.

Lemma progress_events_only_log_witness :
  exists s',
    run exampleConfig (stateAfter exampleConfig untilWatching)
        [StatusEvent {| data_error := None; data_state := Some "added";
                        data_files := FilesAbsent |};
         StatusEvent {| data_error := None; data_state := Some "started";
                        data_files := FilesList exampleManifest |}] = Some s'
    /\ s' = set_logs (logs s') (stateAfter exampleConfig untilWatching)
    /\ logs s' = ["Compressing and uploading to remote build agent";
                  "Job added to build queue."; "Job started."].
Proof.
  destruct untilWatching_reachable as (R & Es & _).
  destruct (progress_events_only_log exampleConfig _
              [ {| data_error := None; data_state := Some "added";
                   data_files := FilesAbsent |};
                {| data_error := None; data_state := Some "started";
                   data_files := FilesList exampleManifest |} ] R Es)
    as (s' & H & E & _).
  { repeat (constructor; [split; [reflexivity | left; discriminate]|]). constructor. }
  exists s'. split; [exact H|]. split; [exact E|].
  cbn [map] in H.
  assert (G : option_map logs (Some s')
              = Some ["Compressing and uploading to remote build agent";
                      "Job added to build queue."; "Job started."]).
  { rewrite <- H. vm_compute. reflexivity. }
  now injection G.
Defined.

(** With the status stream destroyed and no download, nothing reaches the
    promise of [listenEvents] any more. *)
Lemma step_idle_without_downloads (cfg : Config) (s : Manager) (ev : Event)
      (s' : Manager) :
  step cfg s ev = Some s' -> Inv cfg s -> statusStream s = StDestroyed ->
  downloads s = [] ->
  watch s' = watch s /\ downloads s' = [].
Proof.
  intros H (_ & _ & P & _) Es Hd.
  destruct (PhaseOk_later s P) as [U T]; [congruence|].
  revert s' H. apply step_cases; intros; try discriminate; try congruence.
  all: try (match goal with
            | H : nth_error (downloads ?t) ?i = Some _, Hd : downloads ?t = [] |- _ =>
                rewrite Hd in H; destruct i; discriminate
            end).
  all: try (match goal with
            | H : uploadEnd _ _ _ = Some _ |- _ =>
                destruct (uploadEnd_frame _ _ _ _ H)
                  as (_ & _ & _ & _ & _ & _ & _ & _ & _ & _ & _ & -> & _ & _ & _ & -> & _)
            end; split; [reflexivity | assumption]).
  all: inv_some; state_simpl; repeat split; first [assumption | reflexivity].
Qed.

Lemma run_idle_without_downloads (cfg : Config) (trace : list Event) (s s' : Manager) :
  run cfg s trace = Some s' -> Inv cfg s -> statusStream s = StDestroyed ->
  downloads s = [] ->
  watch s' = watch s /\ downloads s' = [].
Proof.
  revert s. induction trace as [|ev tr IH]; intros s H I Es Hd; simpl in H.
  - injection H as <-. auto.
  - destruct (step cfg s ev) as [s1|] eqn:E; [|discriminate].
    destruct (step_idle_without_downloads cfg s ev s1 E I Es Hd) as (W1 & D1).
    destruct (step_after_destroyed cfg s ev s1 E I Es) as (E1 & _).
    destruct (IH s1 H (step_Inv cfg s ev s1 E I) E1 D1) as (W2 & D2).
    split; congruence.
Qed.

(** X14: a manifest event whose [files] is [null] destroys the status
    stream, and the loop over the files then throws; nothing catches it.
    No download is started and the two promises are as they were; from then
    on the promise of [listenEvents] never changes, no stream is opened,
    and the job is never fulfilled. *)
Theorem null_manifest_throws (cfg : Config) (s : Manager) :
  Reachable cfg s -> statusStream s = StWatching ->
  exists s0,
    step cfg s (StatusEvent nullManifest) = Some s0
    /\ statusStream s0 = StDestroyed
    /\ uncaught s0 = (uncaught s ++ [RuntimeError "TypeError"])%list
    /\ job s0 = job s
    /\ forall trace s',
         run cfg s0 trace = Some s' ->
         watch s' = watch s /\ downloads s' = [] /\ requests s' = requests s
         /\ finishedStreamCount s' = 0
         /\ forall v, job s' <> Fulfilled v.
Proof.
  intros R Es.
  pose proof (Reachable_Inv cfg s R) as I.
  destruct I as (_ & _ & (_ & _ & P) & D & _).
  rewrite Es in P. destruct P as (J & F & _ & Nf).
  destruct (jobId s) as [id|] eqn:Ej; [|now elim J].
  unfold DownloadsOk in D. rewrite F in D. destruct D as [D0 C0].
  assert (H : step cfg s (StatusEvent nullManifest)
              = Some (throw (RuntimeError "TypeError")
                        (set_files None (set_statusStream StDestroyed s)))).
  { cbn [step]. now rewrite Es, Ej. }
  eexists. split; [exact H|].
  pose proof (Reachable_step cfg s _ _ R H) as R1.
  pose proof (Reachable_Inv cfg _ R1) as I1.
  state_simpl.
  split; [reflexivity|]. split; [reflexivity|]. split; [reflexivity|].
  intros trace s' Hr.
  destruct (run_idle_without_downloads cfg trace _ s' Hr I1 eq_refl D0) as (W & D').
  destruct (run_after_destroyed cfg trace _ s' Hr I1 eq_refl) as (I' & _ & F' & Rq & _).
  state_simpl.
  split; [exact W|]. split; [exact D'|]. split; [exact Rq|].
  destruct I' as (_ & (_ & _ & C) & _ & Dk & _).
  split.
  - unfold DownloadsOk in Dk. rewrite F' in Dk. tauto.
  - intros v Hj. destruct (C v Hj) as (Hw & _). rewrite W in Hw. now elim (Nf v).
Qed.

Lemma null_manifest_throws_witness :
  exists s0,
    step exampleConfig (stateAfter exampleConfig untilWatching) (StatusEvent nullManifest)
    = Some s0
    /\ uncaught s0 = [RuntimeError "TypeError"]
    /\ job s0 = Pending.
Proof.
  destruct untilWatching_reachable as (R & Es & _ & J).
  destruct (null_manifest_throws exampleConfig _ R Es) as (s0 & H & _ & U & Hj & _).
  exists s0. split; [exact H|]. split; [rewrite U; vm_compute; reflexivity | congruence].
Defined.

(** ** A download that fails *)

Lemma nth_error_replaceAt_other {A : Type} (i j : nat) (x : A) (l : list A) :
  i <> j -> nth_error (replaceAt j x l) i = nth_error l i.
Proof.
  revert i j. induction l as [|y l IH]; intros i j N; [now destruct j|].
  destruct j, i; simpl; try reflexivity; [now elim N | apply IH; lia].
Qed.

Lemma stepDownload_downloads (j : nat) (ev : Event) (dj : Download) (s s' : Manager) :
  stepDownload j ev dj s = Some s' ->
  downloads s' = downloads s
  \/ (isStuck dj = false /\ exists d', downloads s' = replaceAt j d' (downloads s)).
Proof.
  intros H. revert H. destruct ev; try discriminate; cbn [stepDownload];
    destruct (dlState dj) eqn:Es; intros H; try discriminate; inv_some;
    unfold downloadResponse; rewrite ?checkStatus_eq;
    try match goal with
        | |- context [fileWritten ?dw ?t] =>
            destruct (fileWritten_output dw t) as (-> & _)
        end;
    repeat match goal with
           | |- context [if ?b then _ else _] => destruct b
           end; state_simpl;
    first [ left; reflexivity
          | right; split; [unfold isStuck; rewrite Es; reflexivity
                          | eexists; reflexivity] ].
Qed.

Lemma step_stuck (cfg : Config) (s : Manager) (ev : Event) (s' : Manager)
      (i : nat) (d : Download) :
  step cfg s ev = Some s' -> Inv cfg s ->
  nth_error (downloads s) i = Some d -> isStuck d = true ->
  nth_error (downloads s') i = Some d.
Proof.
  intros H (_ & _ & P & D & _) Hn Hs.
  destruct (DownloadsOk_started s i d Hn P D) as [Es _].
  destruct (PhaseOk_later s P) as [U T]; [congruence|].
  revert s' H. apply step_cases; intros; try discriminate; try congruence.
  all: try (match goal with
            | H : stepDownload ?j _ ?dj _ = Some _, Hj : nth_error _ ?j = Some ?dj |- _ =>
                destruct (stepDownload_downloads _ _ _ _ _ H) as [-> | (Sj & d' & ->)];
                [ exact Hn |];
                rewrite nth_error_replaceAt_other; [exact Hn|];
                intros ->; rewrite Hj in Hn; injection Hn as ->; congruence
            end).
  all: try (match goal with
            | H : uploadEnd _ _ _ = Some _ |- _ =>
                destruct (uploadEnd_frame _ _ _ _ H)
                  as (_ & _ & _ & _ & _ & _ & _ & _ & _ & _ & _ & _ & _ & _ & _ & -> & _)
            end; exact Hn).
  all: inv_some; state_simpl; exact Hn.
Qed.

Lemma run_stuck (cfg : Config) (trace : list Event) (s s' : Manager)
      (i : nat) (d : Download) :
  run cfg s trace = Some s' -> Inv cfg s ->
  nth_error (downloads s) i = Some d -> isStuck d = true ->
  nth_error (downloads s') i = Some d.
Proof.
  revert s. induction trace as [|ev tr IH]; intros s H I Hn Hs; simpl in H.
  - now injection H as <-.
  - destruct (step cfg s ev) as [s1|] eqn:E; [|discriminate].
    apply (IH s1 H); [eapply step_Inv; eassumption | | exact Hs].
    eapply step_stuck; eassumption.
Qed.

Lemma doneCount_lt (l : list Download) (i : nat) (d : Download) :
  nth_error l i = Some d -> isDone d = false -> doneCount l < List.length l.
Proof.
  unfold doneCount. revert i. induction l as [|x l IH]; intros [|i] H E; simpl in *;
    try discriminate.
  - injection H as ->. rewrite E. pose proof (filter_length_le isDone l). lia.
  - specialize (IH i H E). destruct (isDone x); simpl; lia.
Qed.

(** X15: when a download is answered with a status that is not OK, the
    promise of [listenEvents] is rejected with an [HttpError] of that
    status, the callback chained to it rejects the job with the same error
    without setting [handled], and the body of that download is never read.
    The other downloads are not cancelled, but whatever they do the counter
    never reaches the length of the manifest again: [resolve] is never
    called and the job is never fulfilled. *)
Theorem failed_download_fails_the_build
        (cfg : Config) (s : Manager) (i : nat) (d : Download) (status : nat) :
  Reachable cfg s -> nth_error (downloads s) i = Some d ->
  dlState d = DlAwaitingResponse -> status <> HTTP_STATUS_OK ->
  watch s = Pending -> job s = Pending ->
  exists s1 s2,
    step cfg s (DownloadResponse i status) = Some s1
    /\ watch s1 = Rejected (HttpError status None)
    /\ step cfg s1 WatchSettled = Some s2
    /\ job s2 = Rejected (HttpError status None) /\ handled s2 = false
    /\ forall trace s3,
         run cfg s1 trace = Some s3 ->
         (forall chunk, step cfg s3 (DownloadData i chunk) = None)
         /\ step cfg s3 (DownloadEnd i) = None
         /\ finishedStreamCount s3 < List.length (downloads s3)
         /\ resolveCalls s3 = 0
         /\ forall v, job s3 <> Fulfilled v.
Proof.
  intros R Hn Hd N W J.
  apply Nat.eqb_neq in N.
  destruct (Reachable_Inv cfg s R) as (_ & (C & Hh & _) & _).
  assert (C0 : chained s = false).
  { destruct (chained s); [|reflexivity]. specialize (C eq_refl). now rewrite W in C. }
  assert (H0 : handled s = false).
  { destruct (handled s); [|reflexivity]. specialize (Hh eq_refl). now rewrite J in Hh. }
  assert (H : step cfg s (DownloadResponse i status)
              = Some (setDownload i (withState DlUnread d)
                        (watchReject (HttpError status None) s))).
  { cbn [step downloadIndex]. rewrite Hn. cbn [stepDownload]. rewrite Hd.
    unfold downloadResponse. now rewrite checkStatus_eq, N. }
  set (s1 := setDownload i (withState DlUnread d) (watchReject (HttpError status None) s))
    in *.
  assert (W1 : watch s1 = Rejected (HttpError status None)).
  { unfold s1. state_simpl. now rewrite W. }
  assert (H2 : step cfg s1 WatchSettled
               = Some (jobReject (HttpError status None) (set_chained true s1))).
  { cbn [step]. rewrite W1. unfold s1. state_simpl. now rewrite C0. }
  exists s1, (jobReject (HttpError status None) (set_chained true s1)).
  split; [exact H|]. split; [exact W1|]. split; [exact H2|].
  split; [unfold s1; state_simpl; now rewrite J|].
  split; [unfold s1; state_simpl; exact H0|].
  pose proof (Reachable_step cfg s _ _ R H) as R1.
  pose proof (Reachable_Inv cfg _ R1) as I1.
  assert (Hn1 : nth_error (downloads s1) i = Some (withState DlUnread d)).
  { unfold s1. state_simpl. now apply (nth_error_replaceAt i d). }
  clearbody s1.
  intros trace s3 Hr.
  pose proof (run_stuck cfg trace _ s3 i _ Hr I1 Hn1 eq_refl) as Hn3.
  pose proof (run_Inv cfg trace _ s3 Hr I1) as I3.
  split; [intros chunk; cbn [step downloadIndex]; rewrite Hn3; reflexivity|].
  split; [cbn [step downloadIndex]; rewrite Hn3; reflexivity|].
  destruct I3 as (_ & (_ & _ & Cj) & P3 & D3 & _).
  destruct (DownloadsOk_started s3 i _ Hn3 P3 D3) as [_ [l F]].
  unfold DownloadsOk in D3. rewrite F in D3. destruct D3 as (M & Cn & Rc & Kw).
  assert (Lt : finishedStreamCount s3 < List.length (downloads s3)).
  { rewrite Cn. now apply (doneCount_lt _ i (withState DlUnread d)). }
  assert (Ll : List.length (downloads s3) = List.length l) by (now rewrite <- M, length_map).
  split; [exact Lt|]. split.
  - rewrite Rc. unfold expectedResolveCalls. destruct l; [reflexivity|].
    destruct (finishedStreamCount s3 =? List.length (a :: l)) eqn:E; [|reflexivity].
    apply Nat.eqb_eq in E. lia.
  - intros v Hj. destruct (Cj v Hj) as (Hw & _). destruct (Kw v Hw) as (_ & Hc & _). lia.
Qed.

Lemma failed_download_fails_the_build_witness :
  exists s1 s2,
    step exampleConfig afterManifest (DownloadResponse 1 404) = Some s1
    /\ step exampleConfig s1 WatchSettled = Some s2
    /\ job s2 = Rejected (HttpError 404 None).
Proof.
  assert (R : Reachable exampleConfig afterManifest).
  { exists [], (untilWatching ++ [StatusEvent (manifest exampleManifest)])%list.
    vm_compute. reflexivity. }
  destruct (failed_download_fails_the_build exampleConfig afterManifest 1
              (newDownload exampleConfig (exampleArtifact "app.exe")) 404 R
              ltac:(vm_compute; reflexivity) eq_refl ltac:(discriminate)
              ltac:(vm_compute; reflexivity) ltac:(vm_compute; reflexivity))
    as (s1 & s2 & H1 & _ & H2 & J & _).
  exists s1, s2. repeat split; assumption.
Defined.

(** ** A status stream that is refused *)

Lemma step_status_unread (cfg : Config) (s : Manager) (ev : Event) (s' : Manager) :
  step cfg s ev = Some s' -> Inv cfg s -> statusStream s = StUnread ->
  statusStream s' = StUnread /\ requests s' = requests s /\ downloads s' = [].
Proof.
  intros H (_ & _ & P & D & _) Es.
  destruct (PhaseOk_later s P) as [U T]; [congruence|].
  destruct P as (_ & _ & P3). rewrite Es in P3. destruct P3 as (_ & F & _).
  unfold DownloadsOk in D. rewrite F in D. destruct D as [D0 _].
  revert s' H. apply step_cases; intros; try discriminate; try congruence.
  all: try (match goal with
            | H : nth_error (downloads ?t) ?i = Some _, Hd : downloads ?t = [] |- _ =>
                rewrite Hd in H; destruct i; discriminate
            end).
  all: try (match goal with
            | H : uploadEnd _ _ _ = Some _ |- _ =>
                destruct (uploadEnd_frame _ _ _ _ H)
                  as (_ & _ & _ & _ & _ & _ & _ & -> & _ & _ & _ & _ & _ & _ & -> & -> & _)
            end; repeat split; assumption).
  all: inv_some; state_simpl; repeat split; first [assumption | reflexivity].
Qed.

Lemma run_status_unread (cfg : Config) (trace : list Event) (s s' : Manager) :
  run cfg s trace = Some s' -> Inv cfg s -> statusStream s = StUnread ->
  statusStream s' = StUnread /\ requests s' = requests s /\ downloads s' = [].
Proof.
  revert s. induction trace as [|ev tr IH]; intros s H I Es; simpl in H.
  - injection H as <-. destruct I as (_ & _ & (_ & _ & P3) & D & _).
    rewrite Es in P3. destruct P3 as (_ & F & _).
    unfold DownloadsOk in D. rewrite F in D. tauto.
  - destruct (step cfg s ev) as [s1|] eqn:E; [|discriminate].
    destruct (step_status_unread cfg s ev s1 E I Es) as (E1 & E2 & _).
    destruct (IH s1 H (step_Inv cfg s ev s1 E I) E1) as (F1 & F2 & F3).
    repeat split; congruence.
Qed.

(** X16: [checkStatus] accepts the status OK and nothing else, not even
    another status of success.  When the status stream is answered with
    any other status, the promise of [listenEvents] is rejected with an
    [HttpError] of that status and the chained callback rejects the job
    with it; no parser is attached to the stream, so no event of it is ever
    handled, no manifest is received, and no download is ever requested. *)
Theorem status_refused_fails_the_build (cfg : Config) (s : Manager) (status : nat) :
  Reachable cfg s -> statusStream s = StAwaitingResponse ->
  status <> HTTP_STATUS_OK -> watch s = Pending -> job s = Pending ->
  exists s1 s2,
    step cfg s (StatusResponse status) = Some s1
    /\ watch s1 = Rejected (HttpError status None)
    /\ step cfg s1 WatchSettled = Some s2
    /\ job s2 = Rejected (HttpError status None)
    /\ forall trace s3,
         run cfg s1 trace = Some s3 ->
         (forall data, step cfg s3 (StatusEvent data) = None)
         /\ requests s3 = requests s /\ downloads s3 = [] /\ files s3 = None.
Proof.
  intros R Es N W J.
  apply Nat.eqb_neq in N.
  destruct (Reachable_Inv cfg s R) as (_ & (C & _) & _).
  assert (C0 : chained s = false).
  { destruct (chained s); [|reflexivity]. specialize (C eq_refl). now rewrite W in C. }
  set (s1 := set_statusStream StUnread (watchReject (HttpError status None) s)).
  assert (H : step cfg s (StatusResponse status) = Some s1).
  { cbn [step]. now rewrite Es, checkStatus_eq, N. }
  assert (W1 : watch s1 = Rejected (HttpError status None)).
  { unfold s1. state_simpl. now rewrite W. }
  assert (H2 : step cfg s1 WatchSettled
               = Some (jobReject (HttpError status None) (set_chained true s1))).
  { cbn [step]. rewrite W1. unfold s1. state_simpl. now rewrite C0. }
  exists s1, (jobReject (HttpError status None) (set_chained true s1)).
  split; [exact H|]. split; [exact W1|]. split; [exact H2|].
  split; [unfold s1; state_simpl; now rewrite J|].
  pose proof (Reachable_step cfg s _ _ R H) as R1.
  pose proof (Reachable_Inv cfg _ R1) as I1.
  assert (E1 : statusStream s1 = StUnread) by reflexivity.
  assert (Rq : requests s1 = requests s) by reflexivity.
  clearbody s1.
  intros trace s3 Hr.
  destruct (run_status_unread cfg trace s1 s3 Hr I1 E1) as (E3 & Rq3 & D3).
  split; [intros data; cbn [step]; now rewrite E3|].
  split; [congruence|]. split; [exact D3|].
  destruct (run_Inv cfg trace s1 s3 Hr I1) as (_ & _ & (_ & _ & P3) & _).
  rewrite E3 in P3. tauto.
Qed.

Lemma status_refused_fails_the_build_witness :
  exists s1 s2,
    step exampleConfig
         (stateAfter exampleConfig
            [InfoFileResolved "/tmp/project-info.json"; UploadResponse 200;
             UploadData idBody; UploadEnd; GraceTimer])
         (StatusResponse 204) = Some s1
    /\ step exampleConfig s1 WatchSettled = Some s2
    /\ job s2 = Rejected (HttpError 204 None).
Proof.
  assert (R : Reachable exampleConfig
                (stateAfter exampleConfig
                   [InfoFileResolved "/tmp/project-info.json"; UploadResponse 200;
                    UploadData idBody; UploadEnd; GraceTimer])).
  { exists [], [InfoFileResolved "/tmp/project-info.json"; UploadResponse 200;
                UploadData idBody; UploadEnd; GraceTimer].
    vm_compute. reflexivity. }
  destruct (status_refused_fails_the_build exampleConfig _ 204 R
              ltac:(vm_compute; reflexivity) ltac:(discriminate)
              ltac:(vm_compute; reflexivity) ltac:(vm_compute; reflexivity))
    as (s1 & s2 & H1 & _ & H2 & J & _).
  exists s1, s2. repeat split; assumption.
Defined.

(** ** The info file *)

Lemma step_infoFile_failed (cfg : Config) (s : Manager) (ev : Event) (s' : Manager) :
  step cfg s ev = Some s' -> pipeline s = PipeInfoFileFailed ->
  pipeline s' = PipeInfoFileFailed /\ spawned s' = spawned s.
Proof.
  revert s'. apply step_cases; intros; try discriminate; try congruence.
  all: try (inv_some; try inv_checkStatus; state_simpl; split; first [assumption | reflexivity]).
  all: try (match goal with
            | H : stepDownload _ _ _ _ = Some _ |- _ =>
                destruct (stepDownload_frame _ _ _ _ _ H)
                  as (_ & _ & _ & _ & _ & _ & _ & _ & _ & -> & -> & _)
            | H : uploadEnd _ _ _ = Some _ |- _ =>
                destruct (uploadEnd_frame _ _ _ _ H)
                  as (_ & _ & _ & _ & _ & _ & _ & _ & -> & -> & _)
            end; split; [assumption | reflexivity]).
  all: inv_some.
  all: match goal with
       | |- context [statusEvent ?c ?i ?d ?s] =>
           destruct (statusEvent_frame c i d s)
             as (_ & _ & _ & _ & _ & _ & _ & _ & -> & -> & _)
       end; split; [assumption | reflexivity].
Qed.

Lemma run_infoFile_failed (cfg : Config) (trace : list Event) (s s' : Manager) :
  run cfg s trace = Some s' -> pipeline s = PipeInfoFileFailed ->
  pipeline s' = PipeInfoFileFailed /\ spawned s' = spawned s.
Proof.
  revert s. induction trace as [|ev tr IH]; intros s H P; simpl in H.
  - injection H as <-. auto.
  - destruct (step cfg s ev) as [s1|] eqn:E; [|discriminate].
    destruct (step_infoFile_failed cfg s ev s1 E P) as [P1 S1].
    destruct (IH s1 H P1) as [P2 S2]. split; congruence.
Qed.

(** X17: the compression starts when the project-info file is there and
    on nothing else.  If the promise of the info file is rejected, a
    pending job is rejected with that reason and no process is ever
    spawned.  If it is fulfilled, the two processes are spawned whatever has
    happened to the job in the meantime: also when the job is already
    rejected and the session destroyed, for nothing is tested before
    [spawn]. *)
Theorem info_file_decides_the_compression (cfg : Config) (s : Manager) :
  Reachable cfg s -> pipeline s = PipeAwaitingInfoFile ->
  spawned s = []
  /\ (forall e,
        exists s1,
          step cfg s (InfoFileRejected e) = Some s1
          /\ job s1 = rejectP (job s) e
          /\ forall trace s2, run cfg s1 trace = Some s2 -> spawned s2 = [])
  /\ (forall infoFile,
        exists s1,
          step cfg s (InfoFileResolved infoFile) = Some s1
          /\ job s1 = job s /\ destroyCalls s1 = destroyCalls s
          /\ spawned s1
             = [(path7za cfg, ["a"; "dummy"; "-ttar"; "-so";
                               unpackedDirectory cfg; infoFile; buildResourcesDir cfg]);
                ("zstd", ["-" ++ getZstdCompressionLevel (zstdEnv cfg)
                                   (buildServiceEndpoint cfg); "--long"])]).
Proof.
  intros R P.
  assert (S0 : spawned s = []).
  { destruct R as (h & tr & H).
    pose proof (run_PipelineOk cfg tr _ s H (build_PipelineOk cfg h)) as K.
    unfold PipelineOk in K. rewrite P in K. tauto. }
  split; [exact S0|]. split.
  - intros e. eexists. split; [cbn [step]; rewrite P; reflexivity|].
    state_simpl. split; [reflexivity|].
    intros trace s2 Hr.
    destruct (run_infoFile_failed cfg trace _ s2 Hr eq_refl) as [_ E].
    rewrite E. state_simpl. exact S0.
  - intros infoFile. eexists. split; [cbn [step]; rewrite P; reflexivity|].
    state_simpl. rewrite S0. repeat split; reflexivity.
Qed.

Lemma info_file_decides_the_compression_witness :
  exists s1,
    step exampleConfig
         (stateAfter exampleConfig [ClientTimeout; JobFinally])
         (InfoFileResolved "/tmp/project-info.json") = Some s1
    /\ job s1 = Rejected (Error "Timeout") /\ destroyCalls s1 = 1
    /\ List.length (spawned s1) = 2.
Proof.
  assert (R : Reachable exampleConfig (stateAfter exampleConfig [ClientTimeout; JobFinally])).
  { exists [], [ClientTimeout; JobFinally]. vm_compute. reflexivity. }
  destruct (info_file_decides_the_compression exampleConfig _ R eq_refl)
    as (_ & _ & K).
  destruct (K "/tmp/project-info.json") as (s1 & H & J & D & Sp).
  exists s1. split; [exact H|]. split; [rewrite J; reflexivity|].
  split; [rewrite D; reflexivity | rewrite Sp; reflexivity].
Defined.

(** ** The chunks of a body *)

(** X19: how a body is cut into chunks does not matter.  Two sequences of
    chunks with the same concatenation lead to the same state, whatever
    follows: for the body of the upload response, for the body of a
    metadata file (buffered and written at the end) and for the body of any
    other file (piped to the file as it comes). *)
Theorem chunking_does_not_matter
        (cfg : Config) (s : Manager) (chunks chunks' : list string) (rest : list Event) :
  bufferConcat chunks = bufferConcat chunks' ->
  (forall status data,
     uploadStream s = UpReceiving status data ->
     run cfg s (map UploadData chunks ++ rest)
     = run cfg s (map UploadData chunks' ++ rest))
  /\ (forall i d,
        nth_error (downloads s) i = Some d -> dlState d = DlAwaitingResponse ->
        isMetadataFile (file (artifact d)) = true ->
        run cfg s (metadataDownload i chunks ++ rest)
        = run cfg s (metadataDownload i chunks' ++ rest))
  /\ (forall i d,
        nth_error (downloads s) i = Some d -> dlState d = DlAwaitingResponse ->
        isMetadataFile (file (artifact d)) = false ->
        run cfg s (streamedDownload i chunks ++ rest)
        = run cfg s (streamedDownload i chunks' ++ rest)).
Proof.
  intros E. split; [|split].
  - intros status data U.
    rewrite !(run_upload_data cfg _ rest s status data U). now rewrite E.
  - intros i d Hn Hd Hm.
    rewrite !(run_metadataDownload cfg i _ rest s d Hn Hd Hm). now rewrite E.
  - intros i d Hn Hd Hm.
    rewrite !(run_streamedDownload cfg i _ rest s d Hn Hd Hm). now rewrite E.
Qed.

Lemma chunking_does_not_matter_witness :
  run exampleConfig afterManifest
      (metadataDownload 0 ["ab"; "cd"] ++ [DownloadResponse 1 200])
  = run exampleConfig afterManifest
      (metadataDownload 0 ["a"; "bc"; "d"] ++ [DownloadResponse 1 200]).
Proof.
  destruct (chunking_does_not_matter exampleConfig afterManifest
              ["ab"; "cd"] ["a"; "bc"; "d"] [DownloadResponse 1 200] eq_refl) as (_ & M & _).
  apply (M 0 (newDownload exampleConfig (exampleArtifact "latest.yml"))).
  - vm_compute. reflexivity.
  - reflexivity.
  - reflexivity.
Defined.

(** ** The options of the connection *)

(** X18: the options of the connection depend on the environment in this
    way.  When [ELECTRON_BUILD_SERVICE_CA_CERT] is the text [false], no
    certificate authority is set and the check of the server identity is
    left to the runtime.  In every other case a certificate authority is
    set and the check of the server identity is replaced by a function that
    accepts every server: the authority is the value of the variable when
    that is not empty, whatever the flag for the local authority says, and
    otherwise (variable not set, or empty) the local certificate when the
    flag is true and the default certificate when it is not. *)
Theorem connect_options_by_environment
        (isEnvTrue : option string -> bool) (localCert defaultCert : string)
        (envCaCert envUseLocalCa : option string) :
  (ca (fst (getConnectOptions isEnvTrue localCert defaultCert envCaCert envUseLocalCa))
   = None
   <-> envCaCert = Some "false")
  /\ (checkServerIdentity
        (fst (getConnectOptions isEnvTrue localCert defaultCert envCaCert envUseLocalCa))
      = None
      <-> envCaCert = Some "false")
  /\ (forall check host,
        checkServerIdentity
          (fst (getConnectOptions isEnvTrue localCert defaultCert envCaCert envUseLocalCa))
        = Some check ->
        check host = None)
  /\ (forall c,
        envCaCert = Some c -> c <> EmptyString -> c <> "false" ->
        ca (fst (getConnectOptions isEnvTrue localCert defaultCert envCaCert envUseLocalCa))
        = Some c)
  /\ (envCaCert = None \/ envCaCert = Some EmptyString ->
      ca (fst (getConnectOptions isEnvTrue localCert defaultCert envCaCert envUseLocalCa))
      = Some (if isEnvTrue envUseLocalCa then localCert else defaultCert)).
Proof.
  unfold getConnectOptions.
  destruct envCaCert as [c|].
  - destruct (String.eqb c "false") eqn:E.
    + apply String.eqb_eq in E. subst c. cbn [fst ca checkServerIdentity].
      repeat split; try reflexivity; try discriminate.
      * intros c Hc _ N. injection Hc as <-. now elim N.
      * intros [H | H]; discriminate.
    + apply String.eqb_neq in E. cbn [fst ca checkServerIdentity].
      split; [split; [discriminate | intros H; injection H as ->; now elim E]|].
      split; [split; [discriminate | intros H; injection H as ->; now elim E]|].
      split; [intros check host H; injection H as <-; reflexivity|].
      split.
      * intros c' Hc N _. injection Hc as <-.
        apply String.eqb_neq in N. now rewrite N.
      * intros [H | H]; [discriminate|]. injection H as ->.
        cbn [String.eqb]. now destruct (isEnvTrue envUseLocalCa).
  - cbn [fst ca checkServerIdentity].
    split; [split; discriminate|]. split; [split; discriminate|].
    split; [intros check host H; injection H as <-; reflexivity|].
    split; [discriminate|].
    intros _. now destruct (isEnvTrue envUseLocalCa).
Qed.

(** ** A build in which nothing fails *)

Lemma run_completeAll_output (cfg : Config) (bodies : nat -> list string)
      (r : list ArtifactInfo) (pre : list Download) (s : Manager)
      (l : list ArtifactInfo) :
  files s = Some l ->
  downloads s = (pre ++ map (newDownload cfg) r)%list ->
  exists s',
    run cfg s (completeAll (List.length pre) r bodies) = Some s'
    /\ disk s' = (disk s ++ writtenAll cfg (List.length pre) r bodies)%list
    /\ dispatched s'
       = (dispatched s ++ dispatchedAll cfg (List.length pre) r bodies)%list
    /\ uncaught s' = uncaught s /\ handled s' = handled s.
Proof.
  revert pre s. induction r as [|a r IH]; intros pre s F D.
  - exists s. cbn [completeAll run writtenAll dispatchedAll]. rewrite !app_nil_r.
    repeat split; reflexivity.
  - cbn [map] in D.
    assert (Hn : nth_error (downloads s) (List.length pre) = Some (newDownload cfg a)).
    { rewrite D. apply nth_error_middle. }
    cbn [completeAll writtenAll dispatchedAll]. unfold expectedEvent.
    destruct (isMetadataFile (file a)) eqn:Hm.
    + rewrite (run_metadataDownload cfg _ _ _ s (newDownload cfg a) Hn eq_refl Hm).
      set (dw := writtenDownload (newDownload cfg a) (bufferConcat (bodies (List.length pre)))).
      set (t := setDownload (List.length pre) (withState DlDone dw) _).
      assert (Ft : files t = Some l) by exact F.
      destruct (fileWritten_fields dw t l Ft) as (E1 & _ & E3 & E4 & E5 & _).
      destruct (fileWritten_frame dw t l Ft) as (_ & G2 & _).
      assert (G6 : uncaught (fileWritten dw t) = uncaught t).
      { unfold fileWritten. state_simpl. rewrite Ft.
        destruct (List.length l <=? S (finishedStreamCount t)); reflexivity. }
      destruct (IH (pre ++ [withState DlDone dw])%list (fileWritten dw t)) as (s' & Hr & K).
      { now rewrite E1. }
      { rewrite E3. unfold t, setDownload. cbn [downloads set_downloads set_disk].
        rewrite D, replaceAt_middle, <- app_assoc. reflexivity. }
      rewrite length_app in Hr, K. cbn [List.length] in Hr, K. rewrite Nat.add_1_r in Hr, K.
      exists s'. split; [exact Hr|].
      destruct K as (K1 & K2 & K3 & K4).
      rewrite K1, K2, K3, K4, E4, E5, G2, G6.
      unfold t, dw. state_simpl. cbn [artifactCreatedEvent writtenDownload newDownload localFile].
      rewrite <- !app_assoc. repeat split; reflexivity.
    + rewrite (run_streamedDownload cfg _ _ _ s (newDownload cfg a) Hn eq_refl Hm).
      set (dw := withState (DlPiping _) (newDownload cfg a)).
      set (t := setDownload (List.length pre) (withState DlDone (newDownload cfg a)) _).
      assert (Ft : files t = Some l) by exact F.
      destruct (fileWritten_fields dw t l Ft) as (E1 & _ & E3 & E4 & E5 & _).
      destruct (fileWritten_frame dw t l Ft) as (_ & G2 & _).
      assert (G6 : uncaught (fileWritten dw t) = uncaught t).
      { unfold fileWritten. state_simpl. rewrite Ft.
        destruct (List.length l <=? S (finishedStreamCount t)); reflexivity. }
      destruct (IH (pre ++ [withState DlDone (newDownload cfg a)])%list
                  (fileWritten dw t)) as (s' & Hr & K).
      { now rewrite E1. }
      { rewrite E3. unfold t, setDownload. cbn [downloads set_downloads set_disk].
        rewrite D, replaceAt_middle, <- app_assoc. reflexivity. }
      rewrite length_app in Hr, K. cbn [List.length] in Hr, K. rewrite Nat.add_1_r in Hr, K.
      exists s'. split; [exact Hr|].
      destruct K as (K1 & K2 & K3 & K4).
      rewrite K1, K2, K3, K4, E4, E5, G2, G6.
      unfold t, dw. state_simpl. cbn [artifactCreatedEvent withState newDownload localFile].
      rewrite <- !app_assoc. repeat split; reflexivity.
Qed.

(** The upload phase of such a build, up to the watched status stream. *)
Lemma run_until_watching (cfg : Config) (h : list (string * string))
      (infoFile : string) (idChunks : list string)
      (members : list (string * json)) (v : json) :
  buildResourcesDir cfg <> projectDir cfg ->
  Json.parse (bufferConcat idChunks) = Json.Parsed (JObject members) EmptyString ->
  getKey "id" members = Some v -> v <> JNull ->
  exists s,
    run cfg (build cfg h) (uploadPhase infoFile idChunks) = Some s
    /\ statusStream s = StWatching /\ watch s = Pending /\ job s = Pending
    /\ jobId s = Some (Json.toString v) /\ uncaught s = [] /\ handled s = false
    /\ disk s = [] /\ dispatched s = [].
Proof.
  intros G Hp Hk Hv. apply String.eqb_neq in G.
  assert (Hid : idOf (JObject members) = IdIs (Json.toString v)).
  { unfold idOf. rewrite Hk. destruct v; try reflexivity. now elim Hv. }
  assert (Ne : (String.length (bufferConcat idChunks) =? 0) = false).
  { destruct (bufferConcat idChunks); [discriminate Hp | reflexivity]. }
  eexists. split.
  - unfold uploadPhase, build, upload, uploadUnpackedAppArchive. rewrite G.
    cbn [run step app pipeline set_pipeline].
    cbn [uploadStream startPipeline log request set_pipeline set_spawned set_logs
         set_uploadStream set_requests].
    cbn [negb Nat.eqb HTTP_STATUS_OK andb].
    rewrite (run_upload_data cfg idChunks _ _ HTTP_STATUS_OK EmptyString) by reflexivity.
    cbn [run step uploadStream set_uploadStream append].
    unfold uploadEnd, parseBody. rewrite Ne, Hp.
    cbn [Nat.eqb HTTP_STATUS_OK HTTP_STATUS_BAD_REQUEST]. rewrite Hid.
    cbn [timer set_timer]. cbn [statusStream listenEvents request set_statusStream
                                 set_requests set_jobId set_timer].
    rewrite checkStatus_eq. cbn [Nat.eqb HTTP_STATUS_OK]. reflexivity.
  - state_simpl. repeat split; reflexivity.
Qed.

(** X20: a build in which nothing fails succeeds, whatever the
    configuration (with a build-resources directory that is not the project
    directory), the custom headers, the manifest (not empty) and the bodies
    of the files are, for a job id that leaves the download URLs without
    authority (it is not empty and does not begin with [/]).  After the
    info file, the accepted upload, the timer, the manifest and every
    download, the chained callback fulfils the job with [null] and the
    [finally] callback destroys the session, once.  Every file of the
    manifest is then written, at the local path joined from the output
    directory and its name, with exactly the bytes of its response body,
    one event is dispatched per artifact, carrying those bytes for a
    metadata file and no content otherwise, and no exception was left
    uncaught.  The streams opened are the upload, the status stream and
    one download per artifact, each with its path. *)
Theorem successful_build_writes_every_artifact
        (cfg : Config) (customHeaders : list (string * string))
        (infoFile : string) (idChunks : list string)
        (members : list (string * json)) (v : json)
        (l : list ArtifactInfo) (bodies : nat -> list string) :
  buildResourcesDir cfg <> projectDir cfg ->
  Json.parse (bufferConcat idChunks) = Json.Parsed (JObject members) EmptyString ->
  getKey "id" members = Some v -> v <> JNull ->
  hasNoAuthority (Json.toString v) = true -> l <> [] ->
  exists s,
    run cfg (build cfg customHeaders) (successfulBuild infoFile idChunks l bodies) = Some s
    /\ job s = Fulfilled None /\ handled s = true
    /\ destroyCalls s = 1
    /\ finishedStreamCount s = List.length l
    /\ disk s = writtenAll cfg 0 l bodies
    /\ dispatched s = dispatchedAll cfg 0 l bodies
    /\ uncaught s = []
    /\ requests s
       = Post (uploadHeaders cfg customHeaders)
         :: Get (Some ("/v1/status/" ++ Json.toString v))
         :: map (fun a => Get (downloadPath (Json.toString v) (file a))) l
    /\ (forall a, In a l -> downloadPath (Json.toString v) (file a) <> None).
Proof.
  intros G Hp Hk Hv Ha Hl.
  destruct (run_until_watching cfg customHeaders infoFile idChunks members v G Hp Hk Hv)
    as (sW & HW & Es & W & J & Jid & Uc & Hh & Dk & Dp).
  assert (R : Reachable cfg sW) by (eexists; eexists; exact HW).
  destruct (manifest_step cfg sW l R Es) as (id & Ej & H & D1 & D2 & R0 & C0).
  assert (id = Json.toString v) by congruence. subst id.
  pose proof (run_requests cfg customHeaders _ _ sW HW (build_Inv cfg customHeaders)
                (build_requests cfg customHeaders)) as RW.
  unfold expectedRequests in RW. rewrite Jid in RW.
  assert (Fn : files sW = None).
  { destruct (Reachable_Inv cfg sW R) as (_ & _ & (_ & _ & P3) & _).
    rewrite Es in P3. now destruct P3 as (_ & Fn & _). }
  rewrite Fn in RW.
  rewrite downloadAll_eq in H.
  cbn [downloads logs requests set_files set_statusStream] in H.
  rewrite D1 in H. cbn [app] in H.
  match type of H with _ = Some ?x => set (t0 := x) in * end.
  pose proof (Reachable_step cfg sW _ _ R H) as R1.
  pose proof (Reachable_Inv cfg _ R1) as I1.
  destruct (run_completeAll cfg bodies l [] t0 l eq_refl eq_refl)
    as (sA & Hr & K1 & K2 & K3 & K4 & K5).
  destruct (run_completeAll_output cfg bodies l [] t0 l eq_refl eq_refl)
    as (sA' & Hr' & O1 & O2 & O3 & O4).
  rewrite Hr in Hr'. injection Hr' as <-.
  cbn [List.length] in Hr, O1, O2.
  destruct (run_after_destroyed cfg _ t0 sA Hr I1 eq_refl) as (_ & _ & _ & Rq & _).
  unfold t0 in Rq.
  cbn [requests set_logs set_requests set_downloads set_files set_statusStream] in Rq.
  rewrite RW in Rq. cbn [app] in Rq.
  assert (N0 : (0 =? List.length l) = false).
  { destruct l; [now elim Hl | reflexivity]. }
  destruct (run_failure_free cfg _ t0 sA l Hr (completeAll_failure_free l 0 bodies)
              I1 eq_refl eq_refl) as [Qw _].
  { unfold t0. state_simpl. now rewrite D2, N0, W. }
  { unfold t0. state_simpl. now rewrite (C0 W), J. }
  unfold t0 in K1, K2, K3, K4, K5, O1, O2, O3, O4.
  cbn [finishedStreamCount chained job finallyRan destroyCalls disk dispatched uncaught
       handled set_logs set_requests set_downloads set_files set_statusStream]
    in K1, K2, K3, K4, K5, O1, O2, O3, O4.
  rewrite D2 in K1. cbn [Nat.add] in K1.
  rewrite (C0 W) in K2. rewrite J in K3.
  rewrite Dk in O1. rewrite Dp in O2. cbn [app] in O1, O2.
  rewrite K1, Nat.eqb_refl in Qw.
  destruct (Reachable_Inv cfg sW R) as ((Sd & Sf) & _).
  assert (Hf : finallyRan sW = false).
  { destruct (finallyRan sW); [|reflexivity]. specialize (Sf eq_refl).
    now rewrite J in Sf. }
  rewrite Hf in K4, Sd. rewrite Sd in K5.
  eexists. split.
  - unfold successfulBuild.
    rewrite run_app, HW. cbn [run]. rewrite H.
    rewrite run_app, Hr. cbn [run step]. rewrite K2, Qw.
    cbn [job jobResolve set_job set_handled set_chained resolveP settled
         finallyRan negb andb].
    rewrite K3, K4. cbn [resolveP settled negb andb]. reflexivity.
  - cbn [finishedStreamCount job destroyCalls handled disk dispatched uncaught requests
         jobResolve set_destroyCalls set_finallyRan set_job set_handled set_chained].
    rewrite K1, K3, K5, O1, O2, O3, Uc, Rq. repeat split; try reflexivity.
    intros a _. destruct (pathname_defined (Json.toString v) (file a) Ha) as [q Eq].
    unfold downloadPath. rewrite Eq. discriminate.
Qed.

Lemma successful_build_writes_every_artifact_witness :
  exists s,
    run exampleConfig (build exampleConfig [])
        (successfulBuild "/tmp/project-info.json" [idBody] exampleManifest exampleBodies)
    = Some s
    /\ job s = Fulfilled None
    /\ disk s = [("/project/dist/latest.yml", "abcd"); ("/project/dist/app.exe", "abcd")].
Proof.
  destruct (successful_build_writes_every_artifact exampleConfig []
              "/tmp/project-info.json" [idBody] [("id", JString "job1")] (JString "job1")
              exampleManifest exampleBodies
              ltac:(discriminate) ltac:(vm_compute; reflexivity) eq_refl
              ltac:(discriminate) eq_refl ltac:(discriminate))
    as (s & H & J & _ & _ & _ & D & _).
  exists s. split; [exact H|]. split; [exact J|]. rewrite D. reflexivity.
Defined.

(** ** An error of the file stream *)

Lemma step_watch_settled (cfg : Config) (s : Manager) (ev : Event) (s' : Manager) :
  step cfg s ev = Some s' -> settled (watch s) = true -> watch s' = watch s.
Proof.
  intros H Hs. destruct (step_effect cfg s ev s' H) as [K | [K | K]].
  - tauto.
  - tauto.
  - destruct K as (_ & _ & _ & _ & _ & [-> | [[x ->] | [x ->]]]);
      [reflexivity | now apply rejectP_settled | now apply resolveP_settled].
Qed.

Lemma run_watch_settled (cfg : Config) (trace : list Event) (s s' : Manager) :
  run cfg s trace = Some s' -> settled (watch s) = true -> watch s' = watch s.
Proof.
  revert s. induction trace as [|ev tr IH]; intros s H Hs; simpl in H.
  - now injection H as <-.
  - destruct (step cfg s ev) as [s1|] eqn:E; [|discriminate].
    pose proof (step_watch_settled cfg s ev s1 E Hs) as E1.
    rewrite <- E1. apply IH; [exact H | now rewrite E1].
Qed.

(** X21: the [error] listener of the file stream of a piped download
    rejects the promise of [listenEvents], and that is all it does: the
    [close] listener stays.  When the stream closes after the error,
    [fileWritten] runs as for a good file: the counter is incremented and
    the event of the artifact is dispatched, while the promise stays
    rejected with the error. *)
Theorem file_error_then_close_still_dispatches
        (cfg : Config) (s : Manager) (i : nat) (d : Download) (written : string)
        (e : JsError) :
  Reachable cfg s -> nth_error (downloads s) i = Some d ->
  dlState d = DlPiping written -> watch s = Pending ->
  exists s1 s2,
    step cfg s (FileStreamError i e) = Some s1
    /\ watch s1 = Rejected e
    /\ step cfg s1 (FileStreamClose i) = Some s2
    /\ finishedStreamCount s2 = S (finishedStreamCount s)
    /\ dispatched s2 = (dispatched s ++ [artifactCreatedEvent d])%list
    /\ watch s2 = Rejected e
    /\ forall trace s3, run cfg s2 trace = Some s3 -> forall v, job s3 <> Fulfilled v.
Proof.
  intros R Hn Hd W.
  destruct (Reachable_Inv cfg s R) as (_ & _ & P & D & _).
  destruct (DownloadsOk_started s i d Hn P D) as [_ [l F]].
  assert (H1 : step cfg s (FileStreamError i e) = Some (watchReject e s)).
  { cbn [step downloadIndex]. rewrite Hn. cbn [stepDownload]. now rewrite Hd. }
  set (t := setDownload i (withState DlDone d)
              (set_disk (disk (watchReject e s) ++ [(localFile d, written)])%list
                 (watchReject e s))).
  assert (H2 : step cfg (watchReject e s) (FileStreamClose i) = Some (fileWritten d t)).
  { cbn [step downloadIndex]. unfold watchReject at 1. cbn [downloads set_watch].
    rewrite Hn. cbn [stepDownload]. now rewrite Hd. }
  assert (Ft : files t = Some l) by exact F.
  destruct (fileWritten_fields d t l Ft) as (_ & E2 & _ & E4 & _ & _ & E7).
  assert (Wt : watch t = Rejected e).
  { unfold t. state_simpl. now rewrite W. }
  assert (W2 : watch (fileWritten d t) = Rejected e).
  { destruct (List.length l <=? S (finishedStreamCount t)); destruct E7 as [_ ->];
      rewrite Wt; reflexivity. }
  exists (watchReject e s), (fileWritten d t).
  split; [exact H1|]. split; [state_simpl; now rewrite W|].
  split; [exact H2|]. split; [rewrite E2; reflexivity|].
  split; [rewrite E4; reflexivity|]. split; [exact W2|].
  intros trace s3 Hr v Hj.
  pose proof (Reachable_step cfg _ _ _ (Reachable_step cfg s _ _ R H1) H2) as R2.
  pose proof (Reachable_run cfg _ _ _ R2 Hr) as R3.
  destruct (Reachable_Inv cfg s3 R3) as (_ & (_ & _ & C) & _).
  destruct (C v Hj) as (Hw & _).
  assert (Ws : watch s3 = watch (fileWritten d t)).
  { apply (run_watch_settled cfg trace _ s3 Hr). now rewrite W2. }
  congruence.
Qed.

Lemma file_error_then_close_still_dispatches_witness :
  exists s1 s2,
    step exampleConfig
         (stateAfter exampleConfig
            (untilWatching
             ++ [StatusEvent (manifest exampleManifest); DownloadResponse 1 200;
                 EnsureDirDone 1; DownloadData 1 "ab"]))
         (FileStreamError 1 (RuntimeError "ENOSPC")) = Some s1
    /\ step exampleConfig s1 (FileStreamClose 1) = Some s2
    /\ finishedStreamCount s2 = 1
    /\ watch s2 = Rejected (RuntimeError "ENOSPC").
Proof.
  assert (R : Reachable exampleConfig
                (stateAfter exampleConfig
                   (untilWatching
                    ++ [StatusEvent (manifest exampleManifest); DownloadResponse 1 200;
                        EnsureDirDone 1; DownloadData 1 "ab"]))).
  { exists [], (untilWatching
                ++ [StatusEvent (manifest exampleManifest); DownloadResponse 1 200;
                    EnsureDirDone 1; DownloadData 1 "ab"])%list.
    vm_compute. reflexivity. }
  destruct (file_error_then_close_still_dispatches exampleConfig _ 1
              (withState (DlPiping "ab") (newDownload exampleConfig (exampleArtifact "app.exe")))
              "ab" (RuntimeError "ENOSPC") R
              ltac:(vm_compute; reflexivity) eq_refl ltac:(vm_compute; reflexivity))
    as (s1 & s2 & H1 & _ & H2 & C & _ & W & _).
  exists s1, s2. split; [exact H1|]. split; [exact H2|]. split; [|exact W].
  rewrite C. vm_compute. reflexivity.
Defined.

(** ** JSON: what is parsed can be serialized and parsed again *)

Section JsonRoundTrip.

Import JsonValues.

Ltac by_char c := destruct c as [[|] [|] [|] [|] [|] [|] [|] [|]].

(** The tests on a character that is written out are computed. *)
Ltac char_tests_once :=
  repeat match goal with
         | |- context [code (Ascii ?a ?b ?c ?d ?e ?f ?g ?h) =? ?k] =>
             let t := eval vm_compute in (code (Ascii a b c d e f g h) =? k) in
             change (code (Ascii a b c d e f g h) =? k) with t
         | |- context [isDigit (Ascii ?a ?b ?c ?d ?e ?f ?g ?h)] =>
             let t := eval vm_compute in (isDigit (Ascii a b c d e f g h)) in
             change (isDigit (Ascii a b c d e f g h)) with t
         | |- context [isWs (Ascii ?a ?b ?c ?d ?e ?f ?g ?h)] =>
             let t := eval vm_compute in (isWs (Ascii a b c d e f g h)) in
             change (isWs (Ascii a b c d e f g h)) with t
         end;
  cbv iota.

Ltac char_tests := repeat (progress char_tests_once).
Lemma serialize_array (gap indent : string) (x : json) (r : list json) :
  serialize gap indent (JArray (x :: r))
  = "[" ++ newline ++ (indent ++ gap) ++ serialize gap (indent ++ gap) x
    ++ serItems gap (indent ++ gap) r ++ newline ++ indent ++ "]".
Proof.
  cbn [serialize].
  match goal with
  | |- ?lhs = _ =>
      match lhs with
      | context [?f r] => assert (E : forall l, f l = serItems gap (indent ++ gap) l)
      end
  end.
  { induction l as [|y l IH]; [reflexivity|]. cbn [serItems]. now rewrite <- IH. }
  now rewrite E.
Qed.

Lemma serialize_object (gap indent k : string) (x : json) (r : list (string * json)) :
  serialize gap indent (JObject ((k, x) :: r))
  = "{" ++ newline ++ (indent ++ gap) ++ quote k ++ ": "
    ++ serialize gap (indent ++ gap) x
    ++ serMembers gap (indent ++ gap) r ++ newline ++ indent ++ "}".
Proof.
  cbn [serialize].
  match goal with
  | |- ?lhs = _ =>
      match lhs with
      | context [?f r] => assert (E : forall l, f l = serMembers gap (indent ++ gap) l)
      end
  end.
  { induction l as [|[k' y] l IH]; [reflexivity|]. cbn [serMembers]. now rewrite <- IH. }
  now rewrite E.
Qed.

Lemma wf_array (l : list json) : wf (JArray l) = wfItems l.
Proof. induction l as [|x l IH]; [reflexivity|]. simpl in *. now rewrite IH. Qed.

Lemma wf_object (l : list (string * json)) :
  wf (JObject l) = wfMembers l && uniqueKeys l.
Proof.
  assert (E : (fix all (l : list (string * json)) : bool :=
                 match l with
                 | [] => true
                 | (k, x) :: r => okKey k && wf x && all r
                 end) l = wfMembers l).
  { induction l as [|[k x] l IH]; [reflexivity|]. simpl in *. now rewrite IH. }
  cbn [wf]. now rewrite E.
Qed.

Lemma fuelFor_array (l : list json) : fuelFor (JArray l) = S (fuelForItems l).
Proof. reflexivity. Qed.

Lemma fuelFor_object (l : list (string * json)) :
  fuelFor (JObject l) = S (fuelForMembers l).
Proof. reflexivity. Qed.

Lemma skipWs_ws (w s : string) : allChars isWs w = true -> skipWs (w ++ s) = skipWs s.
Proof.
  induction w as [|c w IH]; [reflexivity|]. simpl. intros H.
  apply andb_prop in H as [Hc Hw]. rewrite Hc. now apply IH.
Qed.

Lemma skipWs_head (c : ascii) (t : string) :
  isWs c = false -> skipWs (String c t) = String c t.
Proof. intros H. simpl. now rewrite H. Qed.

(** *** Strings *)

Lemma parseChars_quoteChar (c : ascii) (s : string) :
  okChar c = true ->
  parseChars (quoteChar c ++ s)
  = match parseChars s with
    | Parsed str rest => Parsed (String c str) rest
    | other => other
    end.
Proof.
  intros H. by_char c; try discriminate H; reflexivity.
Qed.

Lemma parseChars_quoteChars (s rest : string) :
  allChars okChar s = true ->
  parseChars (quoteChars s ++ String dq rest) = Parsed s rest.
Proof.
  induction s as [|c s IH]; intros H; [reflexivity|].
  simpl in H. apply andb_prop in H as [Hc Hs].
  cbn [quoteChars]. rewrite append_assoc, parseChars_quoteChar by exact Hc.
  now rewrite IH.
Qed.

(** *** Numbers *)

Lemma parseDigits_acc (d : Decimal.uint) (rest : string) (acc : positive) :
  endsValue rest = true ->
  parseDigits (NilEmpty.string_of_uint d ++ rest) (Z.pos acc)
  = (Z.pos (Pos.of_uint_acc d acc), rest).
Proof.
  intros Hr. revert acc.
  induction d; intros acc; cbn [NilEmpty.string_of_uint append Pos.of_uint_acc].
  - destruct rest as [|c r]; [reflexivity|]. simpl in Hr. simpl.
    apply andb_prop in Hr as [Hd _]. apply negb_true_iff in Hd. now rewrite Hd.
  - cbn [parseDigits]. change (isDigit "0") with true. cbv iota.
    change (code "0" - 48) with 0. rewrite <- IHd. f_equal.
  - cbn [parseDigits]. change (isDigit "1") with true. cbv iota.
    change (code "1" - 48) with 1. rewrite <- IHd. f_equal; try lia.
  - cbn [parseDigits]. change (isDigit "2") with true. cbv iota.
    change (code "2" - 48) with 2. rewrite <- IHd. f_equal; try lia.
  - cbn [parseDigits]. change (isDigit "3") with true. cbv iota.
    change (code "3" - 48) with 3. rewrite <- IHd. f_equal; try lia.
  - cbn [parseDigits]. change (isDigit "4") with true. cbv iota.
    change (code "4" - 48) with 4. rewrite <- IHd. f_equal; try lia.
  - cbn [parseDigits]. change (isDigit "5") with true. cbv iota.
    change (code "5" - 48) with 5. rewrite <- IHd. f_equal; try lia.
  - cbn [parseDigits]. change (isDigit "6") with true. cbv iota.
    change (code "6" - 48) with 6. rewrite <- IHd. f_equal; try lia.
  - cbn [parseDigits]. change (isDigit "7") with true. cbv iota.
    change (code "7" - 48) with 7. rewrite <- IHd. f_equal; try lia.
  - cbn [parseDigits]. change (isDigit "8") with true. cbv iota.
    change (code "8" - 48) with 8. rewrite <- IHd. f_equal; try lia.
  - cbn [parseDigits]. change (isDigit "9") with true. cbv iota.
    change (code "9" - 48) with 9. rewrite <- IHd. f_equal; try lia.
Qed.

Lemma nzhead_not_D0 (d u : Decimal.uint) : Decimal.nzhead d <> Decimal.D0 u.
Proof. induction d; simpl; try discriminate. exact IHd. Qed.

Lemma to_uint_not_D0 (p : positive) (d : Decimal.uint) : Pos.to_uint p <> Decimal.D0 d.
Proof.
  intros E.
  pose proof (DecimalPos.Unsigned.to_of (Pos.to_uint p)) as H.
  rewrite DecimalPos.Unsigned.of_to in H. cbn [N.to_uint] in H.
  rewrite E in H. unfold Decimal.unorm in H. cbn [Decimal.nzhead] in H.
  destruct (Decimal.nzhead d) eqn:N; try discriminate H.
  - injection H as H. subst d. now apply (DecimalPos.Unsigned.to_uint_nonzero p).
  - now apply (nzhead_not_D0 d u).
Qed.

Lemma parseInt_decimal (p : positive) (rest : string) :
  (Z.pos p <? 2 ^ 53)%Z = true -> endsValue rest = true ->
  parseInt (NilZero.string_of_uint (Pos.to_uint p) ++ rest) = Parsed (Z.pos p) rest.
Proof.
  intros Hp Hr.
  pose proof (DecimalPos.Unsigned.of_to p) as H.
  assert (Hf : startsFraction rest = false).
  { destruct rest as [|c r]; [reflexivity|]. simpl in Hr.
    apply andb_prop in Hr as [_ Hf]. now apply negb_true_iff in Hf. }
  destruct (Pos.to_uint p) as [|u|u|u|u|u|u|u|u|u|u] eqn:E.
  - now elim (DecimalPos.Unsigned.to_uint_nonnil p).
  - now elim (to_uint_not_D0 p u).
  - cbn [Pos.of_uint] in H. injection H as H.
    cbn [NilZero.string_of_uint NilEmpty.string_of_uint append].
    unfold parseInt. change (code "1" =? 48) with false. change (isDigit "1") with true.
    cbv iota. cbn [parseDigits]. change (isDigit "1") with true. cbv iota.
    change (10 * 0 + Z.of_nat (code "1" - 48))%Z with 1%Z.
    rewrite (parseDigits_acc u rest 1 Hr), H, Hf, Hp. reflexivity.
  - cbn [Pos.of_uint] in H. injection H as H.
    cbn [NilZero.string_of_uint NilEmpty.string_of_uint append].
    unfold parseInt. change (code "2" =? 48) with false. change (isDigit "2") with true.
    cbv iota. cbn [parseDigits]. change (isDigit "2") with true. cbv iota.
    change (10 * 0 + Z.of_nat (code "2" - 48))%Z with 2%Z.
    rewrite (parseDigits_acc u rest 2 Hr), H, Hf, Hp. reflexivity.
  - cbn [Pos.of_uint] in H. injection H as H.
    cbn [NilZero.string_of_uint NilEmpty.string_of_uint append].
    unfold parseInt. change (code "3" =? 48) with false. change (isDigit "3") with true.
    cbv iota. cbn [parseDigits]. change (isDigit "3") with true. cbv iota.
    change (10 * 0 + Z.of_nat (code "3" - 48))%Z with 3%Z.
    rewrite (parseDigits_acc u rest 3 Hr), H, Hf, Hp. reflexivity.
  - cbn [Pos.of_uint] in H. injection H as H.
    cbn [NilZero.string_of_uint NilEmpty.string_of_uint append].
    unfold parseInt. change (code "4" =? 48) with false. change (isDigit "4") with true.
    cbv iota. cbn [parseDigits]. change (isDigit "4") with true. cbv iota.
    change (10 * 0 + Z.of_nat (code "4" - 48))%Z with 4%Z.
    rewrite (parseDigits_acc u rest 4 Hr), H, Hf, Hp. reflexivity.
  - cbn [Pos.of_uint] in H. injection H as H.
    cbn [NilZero.string_of_uint NilEmpty.string_of_uint append].
    unfold parseInt. change (code "5" =? 48) with false. change (isDigit "5") with true.
    cbv iota. cbn [parseDigits]. change (isDigit "5") with true. cbv iota.
    change (10 * 0 + Z.of_nat (code "5" - 48))%Z with 5%Z.
    rewrite (parseDigits_acc u rest 5 Hr), H, Hf, Hp. reflexivity.
  - cbn [Pos.of_uint] in H. injection H as H.
    cbn [NilZero.string_of_uint NilEmpty.string_of_uint append].
    unfold parseInt. change (code "6" =? 48) with false. change (isDigit "6") with true.
    cbv iota. cbn [parseDigits]. change (isDigit "6") with true. cbv iota.
    change (10 * 0 + Z.of_nat (code "6" - 48))%Z with 6%Z.
    rewrite (parseDigits_acc u rest 6 Hr), H, Hf, Hp. reflexivity.
  - cbn [Pos.of_uint] in H. injection H as H.
    cbn [NilZero.string_of_uint NilEmpty.string_of_uint append].
    unfold parseInt. change (code "7" =? 48) with false. change (isDigit "7") with true.
    cbv iota. cbn [parseDigits]. change (isDigit "7") with true. cbv iota.
    change (10 * 0 + Z.of_nat (code "7" - 48))%Z with 7%Z.
    rewrite (parseDigits_acc u rest 7 Hr), H, Hf, Hp. reflexivity.
  - cbn [Pos.of_uint] in H. injection H as H.
    cbn [NilZero.string_of_uint NilEmpty.string_of_uint append].
    unfold parseInt. change (code "8" =? 48) with false. change (isDigit "8") with true.
    cbv iota. cbn [parseDigits]. change (isDigit "8") with true. cbv iota.
    change (10 * 0 + Z.of_nat (code "8" - 48))%Z with 8%Z.
    rewrite (parseDigits_acc u rest 8 Hr), H, Hf, Hp. reflexivity.
  - cbn [Pos.of_uint] in H. injection H as H.
    cbn [NilZero.string_of_uint NilEmpty.string_of_uint append].
    unfold parseInt. change (code "9" =? 48) with false. change (isDigit "9") with true.
    cbv iota. cbn [parseDigits]. change (isDigit "9") with true. cbv iota.
    change (10 * 0 + Z.of_nat (code "9" - 48))%Z with 9%Z.
    rewrite (parseDigits_acc u rest 9 Hr), H, Hf, Hp. reflexivity.
Qed.

(** The three parsers, one step. *)
Lemma parseValue_S (f : nat) (s : string) :
  parseValue (S f) s
  = match skipWs s with
    | EmptyString => SyntaxError
    | String c r =>
        let n := code c in
        if n =? 123 then
          match skipWs r with
          | String c' r' =>
              if code c' =? 125 then Parsed (JObject []) r' else parseMembers f (skipWs r) []
          | EmptyString => SyntaxError
          end
        else if n =? 91 then
          match skipWs r with
          | String c' r' =>
              if code c' =? 93 then Parsed (JArray []) r' else parseItems f (skipWs r) []
          | EmptyString => SyntaxError
          end
        else if n =? 34 then
          match parseChars r with
          | Parsed str rest => Parsed (JString str) rest
          | SyntaxError => SyntaxError
          | Unmodelled => Unmodelled
          end
        else if n =? 45 then
          match parseInt r with
          | Parsed z rest => Parsed (JNumber (- z)) rest
          | SyntaxError => SyntaxError
          | Unmodelled => Unmodelled
          end
        else if isDigit c then
          match parseInt (String c r) with
          | Parsed z rest => Parsed (JNumber z) rest
          | SyntaxError => SyntaxError
          | Unmodelled => Unmodelled
          end
        else if n =? 116 then literal "true" (JBool true) (String c r)
        else if n =? 102 then literal "false" (JBool false) (String c r)
        else if n =? 110 then literal "null" JNull (String c r)
        else SyntaxError
    end.
Proof. reflexivity. Qed.

Lemma parseItems_S (f : nat) (s : string) (acc : list json) :
  parseItems (S f) s acc
  = match parseValue f s with
    | Parsed v rest =>
        match skipWs rest with
        | String c r =>
            if code c =? 44 then parseItems f r (acc ++ [v])%list
            else if code c =? 93 then Parsed (JArray (acc ++ [v])%list) r
            else SyntaxError
        | EmptyString => SyntaxError
        end
    | other => other
    end.
Proof. reflexivity. Qed.

Lemma parseMembers_S (f : nat) (s : string) (acc : list (string * json)) :
  parseMembers (S f) s acc
  = match skipWs s with
    | String q r =>
        if code q =? 34 then
          match parseChars r with
          | Parsed key rest =>
              match skipWs rest with
              | String c r1 =>
                  if code c =? 58 then
                    match parseValue f r1 with
                    | Parsed v rest' =>
                        if isIndexKey key then Unmodelled
                        else
                          match skipWs rest' with
                          | String c' r2 =>
                              if code c' =? 44 then parseMembers f r2 (setKey key v acc)
                              else if code c' =? 125
                                   then Parsed (JObject (setKey key v acc)) r2
                                   else SyntaxError
                          | EmptyString => SyntaxError
                          end
                    | other => other
                    end
                  else SyntaxError
              | EmptyString => SyntaxError
              end
          | SyntaxError => SyntaxError
          | Unmodelled => Unmodelled
          end
        else SyntaxError
    | EmptyString => SyntaxError
    end.
Proof. reflexivity. Qed.

(** The text of a value begins with a character that is no white space,
    and that is neither a closing bracket nor a closing brace. *)
Lemma decimal_head (n : Z) :
  exists c t, decimal n = String c t
              /\ (code c =? 45) || isDigit c = true.
Proof.
  unfold decimal. destruct n as [|p|p]; cbn [Z.to_int NilZero.string_of_int].
  - exists "0"%char, EmptyString. split; reflexivity.
  - destruct (Pos.to_uint p) eqn:E; cbn [NilZero.string_of_uint NilEmpty.string_of_uint];
      eexists; eexists; split; reflexivity.
  - eexists; eexists; split; reflexivity.
Qed.

Lemma serialize_head (gap indent : string) (v : json) :
  exists c t, serialize gap indent v = String c t
              /\ isWs c = false /\ (code c =? 93) = false /\ (code c =? 125) = false
              /\ (code c =? 44) = false.
Proof.
  destruct v as [| [|] | n | s | [|x r] | [|[k x] r]];
    try (eexists; eexists; split; [reflexivity | repeat split; reflexivity]).
  destruct (decimal_head n) as (c & t & E & H).
  exists c, t. cbn [serialize]. split; [exact E|].
  by_char c; try discriminate H; repeat split; reflexivity.
Qed.

Lemma substring_all (m : nat) (r : string) :
  String.length r <= m -> substring 0 m r = r.
Proof.
  revert m. induction r as [|c r IH]; intros [|m] H; simpl in *; try reflexivity; try lia.
  now rewrite IH by lia.
Qed.

Lemma substring_skip (w r : string) (m : nat) :
  substring (String.length w) m (w ++ r) = substring 0 m r.
Proof. induction w as [|c w IH]; [reflexivity | exact IH]. Qed.

Lemma length_append (a b : string) :
  String.length (a ++ b) = String.length a + String.length b.
Proof. induction a as [|c a IH]; simpl; [reflexivity | now rewrite IH]. Qed.

Lemma literal_ok (word : string) (v : json) (rest : string) :
  literal word v (word ++ rest) = Parsed v rest.
Proof.
  unfold literal, startsWith. rewrite prefix_app, substring_skip, substring_all;
    [reflexivity | rewrite length_append; lia].
Qed.

Lemma endsValue_fraction (rest : string) :
  endsValue rest = true -> startsFraction rest = false.
Proof.
  destruct rest as [|c r]; [reflexivity|]. simpl. intros H.
  apply andb_prop in H as [_ H]. now apply negb_true_iff in H.
Qed.

Lemma parseInt_zero (rest : string) :
  endsValue rest = true -> parseInt (String "0" rest) = Parsed 0%Z rest.
Proof.
  intros Hr. pose proof (endsValue_fraction rest Hr) as Hf.
  unfold parseInt. change (code "0" =? 48) with true. cbv iota.
  destruct rest as [|d r]; [reflexivity|].
  simpl in Hr. apply andb_prop in Hr as [Hd _]. apply negb_true_iff in Hd.
  now rewrite Hd, Hf.
Qed.

Lemma parseValue_number (f : nat) (n : Z) (rest : string) :
  wf (JNumber n) = true -> endsValue rest = true ->
  parseValue (S f) (decimal n ++ rest) = Parsed (JNumber n) rest.
Proof.
  intros Hw Hr. cbn [wf] in Hw. apply andb_prop in Hw as [Hlo Hhi].
  rewrite parseValue_S.
  unfold decimal. destruct n as [|p|p]; cbn [Z.to_int NilZero.string_of_int].
  - cbn [NilZero.string_of_uint NilEmpty.string_of_uint append skipWs].
    change (isWs "0") with false. cbv iota.
    cbv zeta. change (code "0" =? 123) with false. change (code "0" =? 91) with false.
    change (code "0" =? 34) with false. change (code "0" =? 45) with false.
    change (isDigit "0") with true. cbv iota.
    now rewrite parseInt_zero.
  - pose proof (parseInt_decimal p rest Hhi Hr) as H.
    destruct (NilZero.string_of_uint (Pos.to_uint p)) as [|c t] eqn:E.
    { destruct (Pos.to_uint p); discriminate E. }
    cbn [append] in *.
    assert (Hc : isDigit c = true /\ (code c =? 48) = false).
    { unfold parseInt in H. destruct (code c =? 48) eqn:E0.
      - exfalso. destruct (Pos.to_uint p) eqn:Ep; cbn in E; try discriminate E;
          injection E as <- <-; try (vm_compute in E0; discriminate E0);
          first [ eapply to_uint_not_D0; eassumption
                | eapply DecimalPos.Unsigned.to_uint_nonnil; eassumption ].
      - destruct (isDigit c); [auto | discriminate H]. }
    destruct Hc as [Hd H0].
    assert (Hws : isWs c = false) by (by_char c; try discriminate Hd; reflexivity).
    rewrite skipWs_head by exact Hws. cbv zeta.
    assert (T : (code c =? 123) = false /\ (code c =? 91) = false
                /\ (code c =? 34) = false /\ (code c =? 45) = false).
    { by_char c; try discriminate Hd; repeat split; reflexivity. }
    destruct T as (T1 & T2 & T3 & T4). rewrite T1, T2, T3, T4, Hd, H. reflexivity.
  - assert (Hp : (Z.pos p <? 2 ^ 53)%Z = true).
    { apply Z.ltb_lt in Hlo. apply Z.ltb_lt. lia. }
    cbn [append skipWs]. change (isWs "-") with false. cbv iota. cbv zeta.
    change (code "-" =? 123) with false. change (code "-" =? 91) with false.
    change (code "-" =? 34) with false. change (code "-" =? 45) with true. cbv iota.
    now rewrite (parseInt_decimal p rest Hp Hr).
Qed.

Lemma hasKey_app {A : Type} (k : string) (a b : list (string * A)) :
  hasKey k (a ++ b) = hasKey k a || hasKey k b.
Proof.
  induction a as [|[k0 w] a IH]; simpl; [reflexivity|].
  now rewrite IH, orb_assoc.
Qed.

Lemma uniqueKeys_fresh {A : Type} (acc : list (string * A)) (k : string) (x : A)
      (r : list (string * A)) :
  uniqueKeys (acc ++ (k, x) :: r) = true -> hasKey k acc = false.
Proof.
  induction acc as [|[k0 w] acc IH]; simpl; [reflexivity|].
  intros H. apply andb_prop in H as [H1 H2].
  rewrite (IH H2), orb_false_r.
  apply negb_true_iff in H1. rewrite hasKey_app in H1.
  apply orb_false_elim in H1 as [_ H1]. simpl in H1.
  apply orb_false_elim in H1 as [H1 _].
  now rewrite String.eqb_sym.
Qed.

Lemma setKey_fresh {A : Type} (acc : list (string * A)) (k : string) (x : A) :
  hasKey k acc = false -> setKey k x acc = (acc ++ [(k, x)])%list.
Proof.
  induction acc as [|[k0 w] acc IH]; simpl; [reflexivity|].
  intros H. apply orb_false_elim in H as [H1 H2].
  now rewrite H1, IH.
Qed.

Lemma newline_ws : allChars isWs newline = true.
Proof. reflexivity. Qed.

Lemma endsValue_newline (s : string) : endsValue (newline ++ s) = true.
Proof. reflexivity. Qed.

Lemma endsValue_serItems (indent : string) (r : list json) (s : string) :
  endsValue (serItems "  " indent r ++ newline ++ s) = true.
Proof. destruct r; reflexivity. Qed.

Lemma endsValue_serMembers (indent : string) (r : list (string * json)) (s : string) :
  endsValue (serMembers "  " indent r ++ newline ++ s) = true.
Proof. destruct r as [|[k x] r]; reflexivity. Qed.

Lemma fuelFor_pos (v : json) : 1 <= fuelFor v.
Proof. destruct v; simpl; lia. Qed.

Section Step.

Variable n : nat.

Hypothesis IHn :
  forall v, fuelFor v <= n ->
  forall fuel ws indent rest,
    wf v = true -> fuelFor v <= fuel ->
    allChars isWs ws = true -> allChars isWs indent = true -> endsValue rest = true ->
    parseValue fuel (ws ++ serialize "  " indent v ++ rest) = Parsed v rest.

Lemma parse_items (indent stepback rest : string) :
  allChars isWs indent = true -> allChars isWs stepback = true ->
  forall (r : list json) (x : json) (acc : list json) (fuel : nat) (ws : string),
    wfItems (x :: r) = true -> fuelForItems (x :: r) <= fuel ->
    fuelForItems (x :: r) <= n -> allChars isWs ws = true ->
    parseItems fuel
      (ws ++ serialize "  " indent x ++ serItems "  " indent r
       ++ newline ++ stepback ++ String "]" rest) acc
    = Parsed (JArray (acc ++ x :: r)%list) rest.
Proof.
  intros Hind Hstep. induction r as [|y r IHr]; intros x acc fuel ws Hw Hf Hn Hws.
  - cbn [wfItems forallb] in Hw. apply andb_prop in Hw as [Hx _].
    cbn [fuelForItems] in Hf, Hn. destruct fuel as [|f]; [lia|].
    rewrite parseItems_S. cbn [serItems append].
    rewrite (IHn x ltac:(lia) f ws indent _ Hx ltac:(lia) Hws Hind (endsValue_newline _)).
    rewrite (skipWs_ws newline) by exact newline_ws.
    rewrite (skipWs_ws stepback) by exact Hstep.
    cbn [skipWs]. char_tests. reflexivity.
  - cbn [wfItems forallb] in Hw. apply andb_prop in Hw as [Hx Hr].
    cbn [fuelForItems] in Hf, Hn. destruct fuel as [|f]; [lia|].
    rewrite parseItems_S. cbn [serItems].
    rewrite !append_assoc.
    rewrite (IHn x) by first [lia | assumption | reflexivity].
    cbn [append skipWs]. char_tests.
    rewrite <- (append_assoc newline indent).
    rewrite (IHr y (acc ++ [x])%list f (newline ++ indent));
      first [ assumption
            | now rewrite <- app_assoc
            | cbn [fuelForItems]; lia
            | now rewrite allChars_app, Hind ].
Qed.

Lemma parse_members (indent stepback rest : string) :
  allChars isWs indent = true -> allChars isWs stepback = true ->
  forall (r : list (string * json)) (k : string) (x : json)
         (acc : list (string * json)) (fuel : nat) (ws : string),
    wfMembers ((k, x) :: r) = true -> uniqueKeys (acc ++ (k, x) :: r) = true ->
    fuelForMembers ((k, x) :: r) <= fuel ->
    fuelForMembers ((k, x) :: r) <= n -> allChars isWs ws = true ->
    parseMembers fuel
      (ws ++ quote k ++ ": " ++ serialize "  " indent x ++ serMembers "  " indent r
       ++ newline ++ stepback ++ String "}" rest) acc
    = Parsed (JObject (acc ++ (k, x) :: r)%list) rest.
Proof.
  intros Hind Hstep. induction r as [|[k' y] r IHr]; intros k x acc fuel ws Hw Hu Hf Hn Hws.
  - cbn [wfMembers forallb fst snd] in Hw. apply andb_prop in Hw as [Hkx _].
    apply andb_prop in Hkx as [Hk Hx]. unfold okKey in Hk.
    apply andb_prop in Hk as [Hk Hi]. apply negb_true_iff in Hi.
    cbn [fuelForMembers] in Hf, Hn. destruct fuel as [|f]; [lia|].
    rewrite parseMembers_S, skipWs_ws by exact Hws.
    unfold quote. cbn [append skipWs]. change (isWs dq) with false. cbv iota.
    change (code dq =? 34) with true. cbv iota.
    rewrite !append_assoc. cbn [append].
    rewrite (parseChars_quoteChars k _ Hk).
    cbn [skipWs serMembers append]. char_tests.
    match goal with
    | |- context [parseValue f (String " " ?t)] => change (String " " t) with (" " ++ t)
    end.
    rewrite (IHn x ltac:(lia) f " ") by first [lia | assumption | reflexivity].
    rewrite Hi.
    rewrite (skipWs_ws newline) by exact newline_ws.
    rewrite (skipWs_ws stepback) by exact Hstep.
    cbn [skipWs]. char_tests.
    now rewrite (setKey_fresh acc k x (uniqueKeys_fresh acc k x [] Hu)).
  - cbn [wfMembers forallb fst snd] in Hw. apply andb_prop in Hw as [Hkx Hr].
    apply andb_prop in Hkx as [Hk Hx]. unfold okKey in Hk.
    apply andb_prop in Hk as [Hk Hi]. apply negb_true_iff in Hi.
    cbn [fuelForMembers] in Hf, Hn. destruct fuel as [|f]; [lia|].
    rewrite parseMembers_S, skipWs_ws by exact Hws.
    unfold quote at 1. cbn [append skipWs]. change (isWs dq) with false. cbv iota.
    change (code dq =? 34) with true. cbv iota.
    cbn [serMembers].
    rewrite !append_assoc. cbn [append].
    rewrite (parseChars_quoteChars k _ Hk).
    cbn [skipWs]. char_tests.
    match goal with
    | |- context [parseValue f (String " " ?t)] => change (String " " t) with (" " ++ t)
    end.
    rewrite (IHn x ltac:(lia) f " ") by first [lia | assumption | reflexivity].
    rewrite Hi.
    cbn [skipWs]. char_tests.
    rewrite (setKey_fresh acc k x (uniqueKeys_fresh acc k x _ Hu)).
    rewrite <- (append_assoc newline indent).
    match goal with
    | |- parseMembers f ((newline ++ indent) ++ ?t) _ = _ =>
        replace t with (quote k' ++ ": " ++ serialize "  " indent y
                        ++ serMembers "  " indent r
                        ++ newline ++ stepback ++ String "}" rest)
    end.
    2:{ unfold quote. cbn [append]. now rewrite !append_assoc. }
    rewrite (IHr k' y (acc ++ [(k, x)])%list f (newline ++ indent));
      first [ assumption
            | now rewrite <- app_assoc
            | cbn [fuelForMembers]; lia
            | now rewrite allChars_app, Hind ].
Qed.

End Step.

(** Reading back the text of a value, with white space before it and
    anything that ends a value after it. *)
Lemma parse_serialize (n : nat) :
  forall v, fuelFor v <= n ->
  forall fuel ws indent rest,
    wf v = true -> fuelFor v <= fuel ->
    allChars isWs ws = true -> allChars isWs indent = true -> endsValue rest = true ->
    parseValue fuel (ws ++ serialize "  " indent v ++ rest) = Parsed v rest.
Proof.
  induction n as [|n IHn]; intros v Hn.
  { pose proof (fuelFor_pos v). lia. }
  intros fuel ws indent rest Hw Hf Hws Hind Hr.
  destruct fuel as [|f]; [pose proof (fuelFor_pos v); lia|].
  destruct v as [| [|] | z | s | [|x r] | [|[k x] r]].
  - rewrite parseValue_S, skipWs_ws by exact Hws.
    cbn [serialize append skipWs]. char_tests. cbv zeta. char_tests.
    exact (literal_ok "null" JNull rest).
  - rewrite parseValue_S, skipWs_ws by exact Hws.
    cbn [serialize append skipWs]. char_tests. cbv zeta. char_tests.
    exact (literal_ok "true" (JBool true) rest).
  - rewrite parseValue_S, skipWs_ws by exact Hws.
    cbn [serialize append skipWs]. char_tests. cbv zeta. char_tests.
    exact (literal_ok "false" (JBool false) rest).
  - cbn [serialize].
    destruct (decimal_head z) as (c & t & E & H).
    assert (Hc : isWs c = false) by (by_char c; try discriminate H; reflexivity).
    assert (G : parseValue (S f) (ws ++ decimal z ++ rest)
                = parseValue (S f) (decimal z ++ rest)).
    { rewrite !parseValue_S, skipWs_ws by exact Hws. reflexivity. }
    rewrite G. now apply parseValue_number.
  - rewrite parseValue_S, skipWs_ws by exact Hws.
    cbn [serialize wf] in *. unfold quote. cbn [append skipWs].
    change (isWs dq) with false. cbv iota zeta.
    change (code dq =? 123) with false. change (code dq =? 91) with false.
    change (code dq =? 34) with true. cbv iota.
    rewrite append_assoc. cbn [append].
    now rewrite (parseChars_quoteChars s rest Hw).
  - rewrite parseValue_S, skipWs_ws by exact Hws.
    cbn [serialize append skipWs]. char_tests. cbv zeta. char_tests. reflexivity.
  - rewrite wf_array in Hw. rewrite fuelFor_array in Hf, Hn.
    rewrite parseValue_S, skipWs_ws by exact Hws.
    rewrite serialize_array. rewrite !append_assoc. cbn [append skipWs].
    char_tests. cbv zeta. char_tests.
    rewrite (skipWs_ws newline) by exact newline_ws.
    rewrite (skipWs_ws indent) by exact Hind.
    change (skipWs ("  " ++ ?t)) with (skipWs t).
    cbn [append skipWs]. char_tests.
    destruct (serialize_head "  " (indent ++ "  ") x) as (c & t & E & Hc & Hb & _).
    rewrite E. cbn [append]. rewrite skipWs_head by exact Hc. rewrite Hb.
    change (String c (t ++ ?u)) with (String c t ++ u). rewrite <- E.
    match goal with
    | |- parseItems f ?text [] = _ =>
        replace text with (EmptyString ++ serialize "  " (indent ++ "  ") x
                           ++ serItems "  " (indent ++ "  ") r
                           ++ newline ++ indent ++ String "]" rest)
    end.
    2:{ cbn [append]. reflexivity. }
    apply (parse_items n IHn (indent ++ "  ") indent rest);
      first [ assumption | reflexivity | lia | now rewrite allChars_app, Hind ].
  - rewrite parseValue_S, skipWs_ws by exact Hws.
    cbn [serialize append skipWs]. char_tests. cbv zeta. char_tests. reflexivity.
  - rewrite wf_object in Hw. apply andb_prop in Hw as [Hw Hu].
    rewrite fuelFor_object in Hf, Hn.
    rewrite parseValue_S, skipWs_ws by exact Hws.
    rewrite serialize_object. rewrite !append_assoc. cbn [append skipWs].
    char_tests. cbv zeta. char_tests.
    rewrite (skipWs_ws newline) by exact newline_ws.
    rewrite (skipWs_ws indent) by exact Hind.
    unfold quote at 1 2. cbn [append skipWs].
    char_tests.
    change (isWs dq) with false. cbv iota.
    change (code dq =? 125) with false. cbv iota.
    match goal with
    | |- parseMembers f ?text [] = _ =>
        replace text with (EmptyString ++ quote k ++ ": "
                           ++ serialize "  " (indent ++ "  ") x
                           ++ serMembers "  " (indent ++ "  ") r
                           ++ newline ++ indent ++ String "}" rest)
    end.
    2:{ unfold quote. cbn [append]. now rewrite !append_assoc. }
    apply (parse_members n IHn (indent ++ "  ") indent rest);
      first [ assumption | reflexivity | lia | now rewrite allChars_app, Hind ].
Qed.

Lemma serialize_nonempty (indent : string) (v : json) :
  1 <= String.length (serialize "  " indent v).
Proof.
  destruct (serialize_head "  " indent v) as (c & t & E & _). rewrite E. simpl. lia.
Qed.

(** The fuel [parse] gives is enough: a value needs no more fuel than its
    text is long. *)
Lemma fuelFor_length (n : nat) :
  forall v indent, fuelFor v <= n ->
                   fuelFor v <= String.length (serialize "  " indent v) + 1.
Proof.
  induction n as [|n IHn]; intros v indent Hn.
  { pose proof (fuelFor_pos v). lia. }
  destruct v as [| [|] | z | s | [|x r] | [|[k x] r]];
    try (cbn [fuelFor]; lia).
  - rewrite fuelFor_array in *. rewrite serialize_array.
    assert (G : forall r x ind,
               fuelForItems (x :: r) <= n ->
               fuelForItems (x :: r)
               <= String.length (serialize "  " ind x ++ serItems "  " ind r) + 2).
    { clear - IHn. induction r as [|y r IHr]; intros x ind H; cbn [fuelForItems] in *.
      - cbn [serItems]. rewrite append_nil_r.
        pose proof (IHn x ind ltac:(lia)). lia.
      - cbn [serItems]. rewrite !length_append.
        pose proof (IHn x ind ltac:(lia)).
        pose proof (IHr y ind ltac:(lia)) as K. rewrite length_append in K.
        unfold newline in *. cbn [String.length] in *. lia. }
    specialize (G r x (indent ++ "  ") ltac:(lia)).
    rewrite !length_append in *. unfold newline in *. cbn [String.length] in *. lia.
  - rewrite fuelFor_object in *. rewrite serialize_object.
    assert (G : forall r k x ind,
               fuelForMembers ((k, x) :: r) <= n ->
               fuelForMembers ((k, x) :: r)
               <= String.length (serialize "  " ind x ++ serMembers "  " ind r) + 2).
    { clear - IHn. induction r as [|[k' y] r IHr]; intros k x ind H;
        cbn [fuelForMembers] in *.
      - cbn [serMembers]. rewrite append_nil_r.
        pose proof (IHn x ind ltac:(lia)). lia.
      - cbn [serMembers]. rewrite !length_append.
        pose proof (IHn x ind ltac:(lia)).
        pose proof (IHr k' y ind ltac:(lia)) as K. rewrite length_append in K.
        unfold newline in *. cbn [String.length] in *. lia. }
    specialize (G r k x (indent ++ "  ") ltac:(lia)).
    rewrite !length_append in *. unfold newline in *. cbn [String.length] in *. lia.
Qed.

(** [JSON.parse(JSON.stringify(v, null, 2))] is [v], for every value of
    the model. *)
Lemma parse_stringify2 (v : json) :
  wf v = true -> parse (stringify2 v) = Parsed v EmptyString.
Proof.
  intros Hw. unfold parse, stringify2.
  pose proof (fuelFor_length (fuelFor v) v EmptyString (le_n _)) as Hf.
  pose proof (parse_serialize (fuelFor v) v (le_n _)
                (2 * String.length (serialize "  " EmptyString v) + 2)
                EmptyString EmptyString EmptyString Hw ltac:(lia) eq_refl eq_refl eq_refl)
    as H.
  cbn [append] in H. rewrite append_nil_r in H. rewrite H. reflexivity.
Qed.

Lemma unescape_ok (e c : ascii) (r : string) :
  unescape e = Parsed c r -> okChar c = true.
Proof. by_char e; intros H; try discriminate H; injection H as <- _; reflexivity. Qed.

Lemma parseChars_ok (n : nat) :
  forall s str rest, String.length s <= n ->
                     parseChars s = Parsed str rest -> allChars okChar str = true.
Proof.
  induction n as [|n IH]; intros s str rest Hn H.
  { destruct s; [discriminate H | simpl in Hn; lia]. }
  destruct s as [|c r]; [discriminate H|]. cbn [parseChars] in H. simpl in Hn.
  destruct (Ascii.eqb c dq); [injection H as <- _; reflexivity|].
  destruct (Ascii.eqb c backslash).
  - destruct r as [|e r']; [discriminate H|]. simpl in Hn.
    destruct (unescape e) as [c' x| |] eqn:Eu; try discriminate H.
    destruct (parseChars r') as [str' rest'| |] eqn:Ep; try discriminate H.
    injection H as <- _. cbn [allChars].
    rewrite (unescape_ok e c' x Eu). apply (IH r' str' rest'); [lia | exact Ep].
  - destruct (code c <? 32) eqn:Ec; [discriminate H|].
    destruct (parseChars r) as [str' rest'| |] eqn:Ep; try discriminate H.
    injection H as <- _. cbn [allChars].
    rewrite (IH r str' rest' ltac:(lia) Ep), andb_true_r.
    unfold okChar. apply Nat.ltb_ge in Ec. apply Nat.leb_le in Ec. now rewrite Ec.
Qed.

Lemma parseDigits_nonneg (s : string) (acc : Z) :
  (0 <= acc)%Z -> (0 <= fst (parseDigits s acc))%Z.
Proof.
  revert acc. induction s as [|c r IH]; intros acc H; cbn [parseDigits]; [exact H|].
  destruct (isDigit c); [|exact H]. apply IH. lia.
Qed.

Lemma parseInt_ok (s : string) (z : Z) (rest : string) :
  parseInt s = Parsed z rest -> (0 <= z < 2 ^ 53)%Z.
Proof.
  unfold parseInt. destruct s as [|c r]; [discriminate|].
  destruct (code c =? 48).
  - destruct r as [|d r'].
    + intros H. injection H as <- _. lia.
    + destruct (isDigit d); [discriminate|].
      destruct (startsFraction (String d r')); [discriminate|].
      intros H. injection H as <- _. lia.
  - destruct (isDigit c); [|discriminate].
    pose proof (parseDigits_nonneg (String c r) 0 ltac:(lia)) as Hp.
    destruct (parseDigits (String c r) 0) as [n rest'].
    destruct (startsFraction rest'); [discriminate|].
    destruct (n <? 2 ^ 53)%Z eqn:E; [|discriminate].
    intros H. injection H as <- _. apply Z.ltb_lt in E. simpl in Hp. lia.
Qed.

Lemma literal_value (word : string) (v v' : json) (s rest : string) :
  literal word v s = Parsed v' rest -> v' = v.
Proof.
  unfold literal. destruct (startsWith s word); [|discriminate].
  intros H. now injection H.
Qed.

Lemma wfItems_app (a b : list json) : wfItems (a ++ b) = wfItems a && wfItems b.
Proof. apply forallb_app. Qed.

Lemma hasKey_setKey {A : Type} (k k' : string) (v : A) (l : list (string * A)) :
  hasKey k' (setKey k v l) = String.eqb k k' || hasKey k' l.
Proof.
  induction l as [|[k0 w] l IH]; simpl.
  - now rewrite orb_false_r.
  - destruct (String.eqb k0 k) eqn:E; simpl.
    + apply String.eqb_eq in E. subst k0.
      now destruct (String.eqb k k').
    + rewrite IH. destruct (String.eqb k0 k'), (String.eqb k k'); reflexivity.
Qed.

Lemma uniqueKeys_setKey {A : Type} (k : string) (v : A) (l : list (string * A)) :
  uniqueKeys l = true -> uniqueKeys (setKey k v l) = true.
Proof.
  induction l as [|[k0 w] l IH]; simpl; [reflexivity|].
  intros H. apply andb_prop in H as [H1 H2].
  destruct (String.eqb k0 k) eqn:E; simpl.
  - now rewrite H1, H2.
  - rewrite hasKey_setKey, (IH H2). apply negb_true_iff in H1.
    rewrite H1, orb_false_r, String.eqb_sym, E. reflexivity.
Qed.

Lemma wfMembers_setKey (k : string) (v : json) (l : list (string * json)) :
  okKey k = true -> wf v = true -> wfMembers l = true ->
  wfMembers (setKey k v l) = true.
Proof.
  intros Hk Hv. induction l as [|[k0 w] l IH]; simpl.
  - intros _. now rewrite Hk, Hv.
  - intros H. apply andb_prop in H as [H1 H2].
    destruct (String.eqb k0 k) eqn:E; simpl.
    + apply andb_prop in H1 as [H1 _]. now rewrite H1, Hv, H2.
    + now rewrite H1, IH.
Qed.

(** Whatever [JSON.parse] returns is a value of the model. *)
Lemma parsed_values_wf (fuel : nat) :
  (forall s v rest, parseValue fuel s = Parsed v rest -> wf v = true)
  /\ (forall s acc v rest,
        parseItems fuel s acc = Parsed v rest -> wfItems acc = true -> wf v = true)
  /\ (forall s acc v rest,
        parseMembers fuel s acc = Parsed v rest ->
        wfMembers acc = true -> uniqueKeys acc = true -> wf v = true).
Proof.
  induction fuel as [|f (IHv & IHi & IHm)].
  { repeat split; intros; discriminate. }
  split; [|split].
  - intros s v rest. rewrite parseValue_S.
    destruct (skipWs s) as [|c r]; [discriminate|]. cbv zeta.
    destruct (code c =? 123).
    { destruct (skipWs r) as [|c' r']; [discriminate|].
      destruct (code c' =? 125).
      - intros H. injection H as <- _. reflexivity.
      - intros H. now apply (IHm _ _ _ _ H). }
    destruct (code c =? 91).
    { destruct (skipWs r) as [|c' r']; [discriminate|].
      destruct (code c' =? 93).
      - intros H. injection H as <- _. reflexivity.
      - intros H. now apply (IHi _ _ _ _ H). }
    destruct (code c =? 34).
    { destruct (parseChars r) as [str rest'| |] eqn:E; try discriminate.
      intros H. injection H as <- _. cbn [wf].
      apply (parseChars_ok (String.length r) r str rest' (le_n _) E). }
    destruct (code c =? 45).
    { destruct (parseInt r) as [z rest'| |] eqn:E; try discriminate.
      intros H. injection H as <- _. cbn [wf].
      pose proof (parseInt_ok r z rest' E).
      apply andb_true_intro. split; apply Z.ltb_lt; lia. }
    destruct (isDigit c).
    { destruct (parseInt (String c r)) as [z rest'| |] eqn:E; try discriminate.
      intros H. injection H as <- _. cbn [wf].
      pose proof (parseInt_ok _ z rest' E).
      apply andb_true_intro. split; apply Z.ltb_lt; lia. }
    destruct (code c =? 116).
    { intros H. now rewrite (literal_value _ _ _ _ _ H). }
    destruct (code c =? 102).
    { intros H. now rewrite (literal_value _ _ _ _ _ H). }
    destruct (code c =? 110).
    { intros H. now rewrite (literal_value _ _ _ _ _ H). }
    discriminate.
  - intros s acc v rest. rewrite parseItems_S.
    destruct (parseValue f s) as [x rest1| |] eqn:E; try discriminate.
    pose proof (IHv _ _ _ E) as Hx.
    destruct (skipWs rest1) as [|c r]; [discriminate|].
    destruct (code c =? 44).
    { intros H Ha. apply (IHi _ _ _ _ H).
      rewrite wfItems_app, Ha. cbn [wfItems forallb]. now rewrite Hx. }
    destruct (code c =? 93); [|discriminate].
    intros H Ha. injection H as <- _. rewrite wf_array, wfItems_app, Ha.
    cbn [wfItems forallb]. now rewrite Hx.
  - intros s acc v rest. rewrite parseMembers_S.
    destruct (skipWs s) as [|q r]; [discriminate|].
    destruct (code q =? 34); [|discriminate].
    destruct (parseChars r) as [key rest1| |] eqn:Ek; try discriminate.
    destruct (skipWs rest1) as [|c r1]; [discriminate|].
    destruct (code c =? 58); [|discriminate].
    destruct (parseValue f r1) as [x rest'| |] eqn:E; try discriminate.
    pose proof (IHv _ _ _ E) as Hx.
    destruct (isIndexKey key) eqn:Ei; [discriminate|].
    assert (Hk : okKey key = true).
    { unfold okKey. rewrite Ei.
      now rewrite (parseChars_ok (String.length r) r key rest1 (le_n _) Ek). }
    destruct (skipWs rest') as [|c' r2]; [discriminate|].
    destruct (code c' =? 44).
    { intros H Ha Hu. apply (IHm _ _ _ _ H).
      - now apply wfMembers_setKey.
      - now apply uniqueKeys_setKey. }
    destruct (code c' =? 125); [|discriminate].
    intros H Ha Hu. injection H as <- _. rewrite wf_object.
    now rewrite wfMembers_setKey, uniqueKeys_setKey.
Qed.

Lemma parse_wf (text : string) (v : json) (rest : string) :
  parse text = Parsed v rest -> wf v = true /\ rest = EmptyString.
Proof.
  unfold parse.
  destruct (parseValue (2 * String.length text + 2) text) as [x r| |] eqn:E; try discriminate.
  destruct (skipWs r); [|discriminate].
  intros H. injection H as <- <-. split; [|reflexivity].
  eapply (proj1 (parsed_values_wf _)). exact E.
Qed.

End JsonRoundTrip.

(** ** The diagnostic of a bad request, in general *)

(** X22: whatever JSON text the server sends with the bad-request status,
    in whatever chunks, the job is rejected with an [HttpError] of that
    status whose description is the value of the body serialized with an
    indentation of two spaces, and parsing that description gives the
    value of the body back: nothing of the diagnostic is lost or changed
    on the way to the caller.  (The values are those of the model:
    integers below 2^53, strings without [\u] escapes, objects without
    index keys.) *)
Theorem bad_request_payload_round_trip
        (cfg : Config) (s : Manager) (chunks : list string) (result : json) :
  uploadStream s = UpAwaitingResponse -> job s = Pending ->
  Json.parse (bufferConcat chunks) = Json.Parsed result EmptyString ->
  exists s',
    run cfg s (UploadResponse HTTP_STATUS_BAD_REQUEST :: map UploadData chunks ++ [UploadEnd])
    = Some s'
    /\ job s' = Rejected (HttpError HTTP_STATUS_BAD_REQUEST (Some (Json.stringify2 result)))
    /\ Json.parse (Json.stringify2 result) = Json.Parsed result EmptyString
    /\ timer s' = timer s /\ requests s' = requests s.
Proof.
  intros U J Hp.
  assert (Ne : (String.length (bufferConcat chunks) =? 0) = false).
  { destruct (bufferConcat chunks); [discriminate Hp | reflexivity]. }
  destruct (parse_wf _ _ _ Hp) as [Hw _].
  eexists. split.
  - cbn [run step]. rewrite U. cbn [negb Nat.eqb HTTP_STATUS_OK HTTP_STATUS_BAD_REQUEST andb].
    rewrite (run_upload_data cfg chunks [UploadEnd] _ HTTP_STATUS_BAD_REQUEST EmptyString)
      by reflexivity.
    cbn [run step uploadStream set_uploadStream append].
    unfold uploadEnd, parseBody. rewrite Ne, Hp.
    cbn [Nat.eqb HTTP_STATUS_BAD_REQUEST]. reflexivity.
  - state_simpl. rewrite J.
    split; [reflexivity|]. split; [now apply parse_stringify2|].
    split; reflexivity.
Qed.

Lemma bad_request_payload_round_trip_witness :
  exists s',
    run exampleConfig (build exampleConfig [])
        [UploadResponse 400;
         UploadData ("{" ++ String dq "errors" ++ String dq ":[1,-2,");
         UploadData (String dq "x\ny" ++ String dq ",null,true]}"); UploadEnd]
    = Some s'
    /\ exists payload,
         job s' = Rejected (HttpError 400 (Some payload))
         /\ Json.parse payload
            = Json.Parsed
                (JObject [("errors", JArray [JNumber 1; JNumber (-2);
                                              JString ("x" ++ newline ++ "y");
                                              JNull; JBool true])])
                EmptyString.
Proof.
  destruct (bad_request_payload_round_trip exampleConfig (build exampleConfig [])
              ["{" ++ String dq "errors" ++ String dq ":[1,-2,";
               String dq "x\ny" ++ String dq ",null,true]}"]
              (JObject [("errors", JArray [JNumber 1; JNumber (-2);
                                            JString ("x" ++ newline ++ "y");
                                            JNull; JBool true])])
              eq_refl eq_refl ltac:(vm_compute; reflexivity))
    as (s' & H & J & P & _).
  exists s'. split; [exact H|]. eexists. split; [exact J | exact P].
Defined.

(** ** Which files are metadata files *)

Lemma substring_split (s : string) (k m : nat) :
  k + m = String.length s -> s = substring 0 k s ++ substring k m s.
Proof.
  revert k m. induction s as [|c s IH]; intros k m H.
  - destruct k, m; simpl in H; try lia. reflexivity.
  - destruct k as [|k].
    + simpl in H. subst m. cbn [substring append]. f_equal.
      rewrite substring_all by lia. reflexivity.
    + simpl in H. cbn [substring append]. f_equal. apply IH. lia.
Qed.

Lemma endsWith_iff (s suf : string) :
  endsWith s suf = true <-> exists p, s = p ++ suf.
Proof.
  unfold endsWith. split.
  - intros H. apply andb_prop in H as [Hl He].
    apply Nat.leb_le in Hl. apply String.eqb_eq in He.
    exists (substring 0 (String.length s - String.length suf) s).
    pose proof (substring_split s (String.length s - String.length suf)
                  (String.length suf) ltac:(lia)) as K.
    rewrite He in K. exact K.
  - intros [p ->]. rewrite length_append.
    replace (String.length p + String.length suf - String.length suf)
      with (String.length p) by lia.
    rewrite substring_skip, substring_all by lia.
    rewrite String.eqb_refl, andb_true_r. apply Nat.leb_le. lia.
Qed.

(** X23: an artifact is buffered in memory exactly when its name, taken
    as it is in the manifest (directories included, case not folded), ends
    with [.yml] or with [.json]; every other artifact, also one named
    [LATEST.YML], is piped to its file. *)
Theorem metadata_files_by_suffix (f : string) :
  (isMetadataFile f = true <-> exists p, f = p ++ ".yml" \/ f = p ++ ".json")
  /\ isMetadataFile "LATEST.YML" = false
  /\ isMetadataFile ".yml" = true
  /\ isMetadataFile "yml" = false.
Proof.
  split; [|repeat split; reflexivity].
  unfold isMetadataFile. rewrite orb_true_iff, !endsWith_iff. split.
  - intros [[p H] | [p H]]; exists p; auto.
  - intros [p [H | H]]; [left | right]; now exists p.
Qed.

(** ** A file that cannot be written *)

(** X24: when [outputFile] fails for a metadata file, or [ensureDir] for
    another file, the promise of [listenEvents] is rejected with the
    reason and the chained callback rejects the job with it.  That
    download is never counted and no event is dispatched for it; the
    counter never reaches the length of the manifest, [resolve] is never
    called and the job is never fulfilled. *)
Theorem write_failure_fails_the_build
        (cfg : Config) (s : Manager) (i : nat) (d : Download) (ev : Event) (e : JsError) :
  Reachable cfg s -> nth_error (downloads s) i = Some d ->
  (exists content, dlState d = DlWritingFile content /\ ev = OutputFileFailed i e)
  \/ (dlState d = DlEnsuringDir /\ ev = EnsureDirFailed i e) ->
  watch s = Pending -> job s = Pending ->
  exists s1 s2,
    step cfg s ev = Some s1
    /\ watch s1 = Rejected e
    /\ dispatched s1 = dispatched s /\ disk s1 = disk s
    /\ step cfg s1 WatchSettled = Some s2
    /\ job s2 = Rejected e
    /\ forall trace s3,
         run cfg s1 trace = Some s3 ->
         step cfg s3 (OutputFileDone i) = None
         /\ step cfg s3 (FileStreamClose i) = None
         /\ finishedStreamCount s3 < List.length (downloads s3)
         /\ resolveCalls s3 = 0
         /\ forall v, job s3 <> Fulfilled v.
Proof.
  intros R Hn Hk W J.
  destruct (Reachable_Inv cfg s R) as (_ & (C & Hh & _) & _).
  assert (C0 : chained s = false).
  { destruct (chained s); [|reflexivity]. specialize (C eq_refl). now rewrite W in C. }
  set (s1 := watchReject e (setDownload i (withState DlFailed d) s)).
  assert (H : step cfg s ev = Some s1).
  { destruct Hk as [(content & Hd & ->) | (Hd & ->)];
      cbn [step downloadIndex]; rewrite Hn; cbn [stepDownload]; now rewrite Hd. }
  assert (W1 : watch s1 = Rejected e).
  { unfold s1. state_simpl. now rewrite W. }
  assert (H2 : step cfg s1 WatchSettled = Some (jobReject e (set_chained true s1))).
  { cbn [step]. rewrite W1. unfold s1. state_simpl. now rewrite C0. }
  exists s1, (jobReject e (set_chained true s1)).
  split; [exact H|]. split; [exact W1|].
  split; [reflexivity|]. split; [reflexivity|]. split; [exact H2|].
  split; [unfold s1; state_simpl; now rewrite J|].
  pose proof (Reachable_step cfg s _ _ R H) as R1.
  pose proof (Reachable_Inv cfg _ R1) as I1.
  assert (Hn1 : nth_error (downloads s1) i = Some (withState DlFailed d)).
  { unfold s1. state_simpl. now apply (nth_error_replaceAt i d). }
  clearbody s1.
  intros trace s3 Hr.
  pose proof (run_stuck cfg trace _ s3 i _ Hr I1 Hn1 eq_refl) as Hn3.
  pose proof (run_Inv cfg trace _ s3 Hr I1) as I3.
  split; [cbn [step downloadIndex]; rewrite Hn3; reflexivity|].
  split; [cbn [step downloadIndex]; rewrite Hn3; reflexivity|].
  destruct I3 as (_ & (_ & _ & Cj) & P3 & D3 & _).
  destruct (DownloadsOk_started s3 i _ Hn3 P3 D3) as [_ [l F]].
  unfold DownloadsOk in D3. rewrite F in D3. destruct D3 as (M & Cn & Rc & Kw).
  assert (Lt : finishedStreamCount s3 < List.length (downloads s3)).
  { rewrite Cn. now apply (doneCount_lt _ i (withState DlFailed d)). }
  assert (Ll : List.length (downloads s3) = List.length l) by (now rewrite <- M, length_map).
  split; [exact Lt|]. split.
  - rewrite Rc. unfold expectedResolveCalls. destruct l; [reflexivity|].
    destruct (finishedStreamCount s3 =? List.length (a :: l)) eqn:E; [|reflexivity].
    apply Nat.eqb_eq in E. lia.
  - intros v Hj. destruct (Cj v Hj) as (Hw & _). destruct (Kw v Hw) as (_ & Hc & _). lia.
Qed.

Lemma write_failure_fails_the_build_witness :
  exists s1 s2,
    step exampleConfig
         (stateAfter exampleConfig
            (untilWatching
             ++ [StatusEvent (manifest exampleManifest); DownloadResponse 1 200]))
         (EnsureDirFailed 1 (RuntimeError "EACCES")) = Some s1
    /\ step exampleConfig s1 WatchSettled = Some s2
    /\ job s2 = Rejected (RuntimeError "EACCES").
Proof.
  assert (R : Reachable exampleConfig
                (stateAfter exampleConfig
                   (untilWatching
                    ++ [StatusEvent (manifest exampleManifest); DownloadResponse 1 200]))).
  { exists [], (untilWatching
                ++ [StatusEvent (manifest exampleManifest); DownloadResponse 1 200])%list.
    vm_compute. reflexivity. }
  destruct (write_failure_fails_the_build exampleConfig _ 1
              (withState DlEnsuringDir (newDownload exampleConfig (exampleArtifact "app.exe")))
              (EnsureDirFailed 1 (RuntimeError "EACCES")) (RuntimeError "EACCES") R
              ltac:(vm_compute; reflexivity) (or_intror (conj eq_refl eq_refl))
              ltac:(vm_compute; reflexivity) ltac:(vm_compute; reflexivity))
    as (s1 & s2 & H1 & _ & _ & _ & H2 & J & _).
  exists s1, s2. repeat split; assumption.
Defined.
